(** * FlashJobs: the CV tailoring pipeline of [server/index.js]

    A shallow embedding of the generation pipeline
    ([detectRegion], [generateCVWithClaude], [generateCoverLetterWithClaude],
    the [/api/generate] and [/api/download] handlers, [cleanupOldDocuments])
    and the properties its specification states about it; then the helper
    functions of the server ([sanitizeFilename], [calculateKeywordMatch],
    [parseLinkedInPdfText], [parseJobDescription]), the [/api/preview] and
    [/api/generate-simple] handlers, and the contact line, the languages
    and [formatAchievement] of [server/documentGenerator.js].

    Conventions of the embedding:
    - a JavaScript string is a [string]; a character stands for one code
      unit below 256;
    - a JavaScript number is an IEEE 754 binary64 value, [spec_float], with
      the arithmetic of [SpecFloat] at precision 53;
    - a value produced by [JSON.parse] is a [JValue];
    - an exception is a [Throw] result; the calls to the inference provider
      are recorded in a log;
    - progress messages and [sleep] pauses have no effect on the values
      computed and are left out, but for the one call whose callback is no
      function. *)

From Stdlib Require Import ZArith String Ascii List Bool Lia SpecFloat.
From stdpp Require Import gmap strings list fin_maps.

Import ListNotations.
Local Open Scope string_scope.
Local Open Scope Z_scope.
Set Warnings "-register-all".

(** ** JavaScript strings *)

Module JSString.

(** [String.prototype.toLowerCase] on code units below 256: the letters
    A-Z and the Latin-1 capitals U+00C0-U+00DE (U+00D7 is the multiplication
    sign) move up by 32. *)
Definition toLowerCase_char (c : ascii) : ascii :=
  let n := N_of_ascii c in
  if ((65 <=? n)%N && (n <=? 90)%N)
     || ((192 <=? n)%N && (n <=? 222)%N && negb (n =? 215)%N)
  then ascii_of_N (n + 32) else c.

Fixpoint toLowerCase (s : string) : string :=
  match s with
  | EmptyString => EmptyString
  | String c s' => String (toLowerCase_char c) (toLowerCase s')
  end.

(** [s.startsWith(t)] *)
Fixpoint startsWith (s t : string) {struct t} : bool :=
  match t, s with
  | EmptyString, _ => true
  | String _ _, EmptyString => false
  | String b t', String a s' => Ascii.eqb a b && startsWith s' t'
  end.

(** [s.includes(t)]: [t] occurs in [s] at some position. *)
Fixpoint includes (s t : string) : bool :=
  startsWith s t ||
  match s with
  | EmptyString => false
  | String _ s' => includes s' t
  end.

(** White space of [String.prototype.trim] below 256: TAB, LF, VT, FF, CR,
    SPACE and NO-BREAK SPACE. *)
Definition isWhiteSpace (c : ascii) : bool :=
  let n := N_of_ascii c in
  ((9 <=? n)%N && (n <=? 13)%N) || (n =? 32)%N || (n =? 160)%N.

Fixpoint trimStart (s : string) : string :=
  match s with
  | EmptyString => EmptyString
  | String c s' => if isWhiteSpace c then trimStart s' else s
  end.

(** Drops the trailing white space: a character is kept when it is not
    white space or when something is kept after it. *)
Fixpoint trimEnd (s : string) : string :=
  match s with
  | EmptyString => EmptyString
  | String c s' =>
      match trimEnd s' with
      | EmptyString => if isWhiteSpace c then EmptyString else String c EmptyString
      | r => String c r
      end
  end.

Definition trim (s : string) : string := trimEnd (trimStart s).

(** Truthiness of a string: [!s] is [true] exactly on the empty string. *)
Definition nonEmpty (s : string) : bool :=
  match s with EmptyString => false | String _ _ => true end.

(** [arr.join(sep)] on an array of strings. *)
Fixpoint join (sep : string) (l : list string) : string :=
  match l with
  | [] => EmptyString
  | [x] => x
  | x :: rest => x +:+ sep +:+ join sep rest
  end.

Fixpoint allWhiteSpace (s : string) : bool :=
  match s with
  | EmptyString => true
  | String c s' => isWhiteSpace c && allWhiteSpace s'
  end.

End JSString.

(** ** RegionClassifier: [detectRegion] *)

Module Region.

Inductive Region := EU | UK | US | GLOBAL.

(** The fields of [jobData] the pipeline reads; [None] is [undefined]. *)
Record JobData := {
  rawText : option string;
  title : option string;
  company : option string;
  location : option string
}.

Definition euCountries : list string :=
  ["germany"; "german"; "berlin"; "munich"; "france"; "french"; "paris";
   "netherlands"; "dutch"; "amsterdam"; "spain"; "spanish"; "barcelona"; "madrid";
   "italy"; "italian"; "rome"; "milan"; "ireland"; "irish"; "dublin";
   "portugal"; "lisbon"; "belgium"; "brussels"; "austria"; "vienna";
   "sweden"; "stockholm"; "denmark"; "copenhagen"; "finland"; "helsinki";
   "poland"; "warsaw"; "czech"; "prague"; "eu "; "european union"; "europe"].

Definition ukTerms : list string :=
  ["uk"; "united kingdom"; "britain"; "british"; "london"; "manchester"; "edinburgh"].

Definition usTerms : list string :=
  ["usa"; "united states"; "america"; "new york"; "san francisco";
   "los angeles"; "seattle"; "austin"; "boston"; "chicago"].

(** [jobData?.field] *)
Definition field (f : JobData -> option string) (jobData : option JobData) : option string :=
  match jobData with
  | Some j => f j
  | None => None
  end.

(** ['' + v]: [undefined] prints as the word. *)
Definition concatEmpty (v : option string) : string :=
  match v with
  | Some s => s
  | None => "undefined"
  end.

(** [a || b] on a possibly undefined string and a string. *)
Definition orElse (a : option string) (b : string) : string :=
  match a with
  | Some s => if JSString.nonEmpty s then s else b
  | None => b
  end.

(** [(jobData?.rawText || '' + jobData?.location || '').toLowerCase()]:
    [+] binds tighter than [||], so the expression reads
    [rawText || ('' + location) || '']. *)
Definition regionText (jobData : option JobData) : string :=
  JSString.toLowerCase
    (orElse (field rawText jobData)
       (orElse (Some (concatEmpty (field location jobData))) "")).

(** [terms.some(term => text.includes(term))] *)
Definition someIncluded (terms : list string) (text : string) : bool :=
  existsb (fun term => JSString.includes text term) terms.

Definition classify (text : string) : Region :=
  if someIncluded euCountries text then EU
  else if someIncluded ukTerms text then UK
  else if someIncluded usTerms text then US
  else GLOBAL.

Definition detectRegion (jobData : option JobData) : Region :=
  classify (regionText jobData).

End Region.

(** ** JavaScript values *)

Module JS.

(** The values [JSON.parse] builds, and [undefined]. An object keeps its
    properties in insertion order; an array is an object too and may be
    given named properties besides its items. *)
Inductive JValue : Type :=
  | JUndefined
  | JNull
  | JBool (b : bool)
  | JNum (x : spec_float)
  | JStr (s : string)
  | JArr (items : list JValue) (named : list (string * JValue))
  | JObj (props : list (string * JValue)).

(** The errors a generation request can end with. The first three are the
    [throw new Error(...)] statements of [generateCVWithClaude];
    [TypeError] is the runtime error of a property read or a method call on
    a value of the wrong shape; [InferenceError] is a rejected call to the
    inference provider; [RenderError] is a failure of the document
    renderer. *)
Inductive Error :=
  | InsufficientDataError
  | ExtractionParseError
  | NameMissingError
  | TypeError
  | InferenceError
  | RenderError.

(** [error.message], as the handler relays it to the user. The text of the
    three errors thrown by name is the one in the source; the text of a
    runtime error depends on the engine and of a rejected call on the
    provider, and the string here only names the kind of error. *)
Definition message (e : Error) : string :=
  match e with
  | InsufficientDataError =>
      "Insufficient profile data. Please upload your CV or LinkedIn PDF."
  | ExtractionParseError =>
      "Could not extract profile data. Please ensure your CV is readable."
  | NameMissingError =>
      "Could not find your name in the uploaded documents. Please check your CV."
  | TypeError => "TypeError"
  | InferenceError => "inference request failed"
  | RenderError => "document rendering failed"
  end.

Inductive Result (A : Type) : Type :=
  | Ok (a : A)
  | Throw (e : Error).
Arguments Ok {A} a.
Arguments Throw {A} e.

Definition isZeroOrNaN (x : spec_float) : bool :=
  match x with
  | S754_zero _ | S754_nan => true
  | _ => false
  end.

(** [ToBoolean] *)
Definition truthy (v : JValue) : bool :=
  match v with
  | JUndefined | JNull => false
  | JBool b => b
  | JNum x => negb (isZeroOrNaN x)
  | JStr s => JSString.nonEmpty s
  | JArr _ _ | JObj _ => true
  end.

(** [a || b] *)
Definition orJS (a b : JValue) : JValue := if truthy a then a else b.

Definition nullish (v : JValue) : bool :=
  match v with
  | JUndefined | JNull => true
  | _ => false
  end.

Fixpoint lookup (k : string) (props : list (string * JValue)) : JValue :=
  match props with
  | [] => JUndefined
  | (k', v) :: rest => if String.eqb k k' then v else lookup k rest
  end.

(** [v.k] for a value that is not [null] or [undefined] and a name [k]
    that is no array index and no built-in property: a primitive has no
    such property. *)
Definition prop (v : JValue) (k : string) : JValue :=
  match v with
  | JObj props => lookup k props
  | JArr _ named => lookup k named
  | _ => JUndefined
  end.

(** An assignment keeps the place of a property that exists and appends a
    new one. *)
Fixpoint assign (k : string) (v : JValue) (props : list (string * JValue))
  : list (string * JValue) :=
  match props with
  | [] => [(k, v)]
  | (k', v') :: rest =>
      if String.eqb k k' then (k, v) :: rest else (k', v') :: assign k v rest
  end.

(** [target.k = v], giving the target after the assignment. The file is a
    CommonJS module without a strict-mode directive: an assignment to a
    property of a primitive is dropped silently, one to a property of
    [null] or [undefined] throws. *)
Definition setProp (target : JValue) (k : string) (v : JValue) : Result JValue :=
  match target with
  | JUndefined | JNull => Throw TypeError
  | JObj props => Ok (JObj (assign k v props))
  | JArr items named => Ok (JArr items (assign k v named))
  | JBool _ | JNum _ | JStr _ => Ok target
  end.

(** Assignment to a property of a value known to be an object. *)
Definition setOwn (target : JValue) (k : string) (v : JValue) : JValue :=
  match target with
  | JObj props => JObj (assign k v props)
  | JArr items named => JArr items (assign k v named)
  | _ => target
  end.

Definition isString (v : JValue) : bool :=
  match v with JStr _ => true | _ => false end.

(** A value that can hold properties. *)
Definition isRecord (v : JValue) : bool :=
  match v with
  | JObj _ | JArr _ _ => true
  | _ => false
  end.

(** An array whose items are all strings. *)
Definition isStringArray (v : JValue) : bool :=
  match v with
  | JArr items _ => forallb isString items
  | _ => false
  end.

(** [v === 'lit'] *)
Definition strictEqStr (v : JValue) (lit : string) : bool :=
  match v with
  | JStr s => String.eqb s lit
  | _ => false
  end.

(** A [Result] computation. *)
Definition bind {A B : Type} (r : Result A) (k : A -> Result B) : Result B :=
  match r with
  | Ok a => k a
  | Throw e => Throw e
  end.

Fixpoint mapM {A B : Type} (f : A -> Result B) (l : list A) : Result (list B) :=
  match l with
  | [] => Ok []
  | x :: rest =>
      bind (f x) (fun y => bind (mapM f rest) (fun ys => Ok (y :: ys)))
  end.

(** ** Numbers *)

Definition prec : Z := 53.
Definition emax : Z := 1024.

(** The number an integer literal or an array length denotes. *)
Definition Number_of_Z (z : Z) : spec_float := binary_normalize prec emax z 0 false.

Definition fdiv (x y : spec_float) : spec_float := SFdiv prec emax x y.
Definition fmul (x y : spec_float) : spec_float := SFmul prec emax x y.

(** [Math.round]: the integer closest to [x], the larger one on a tie,
    that is [floor (x + 1/2)]; zeros, infinities and NaN are returned as
    they are, and a zero result keeps the sign of [x]. *)
Definition Math_round (x : spec_float) : spec_float :=
  match x with
  | S754_finite s m e =>
      if 0 <=? e then x
      else binary_normalize prec emax
             ((cond_Zopp s (2 * Zpos m) + 2 ^ (- e)) / 2 ^ (1 - e)) 0 s
  | _ => x
  end.

(** [new Set(items)]: the distinct items in the order of their first
    occurrence. *)
Definition setAdd (acc : list string) (x : string) : list string :=
  if existsb (String.eqb x) acc then acc else (acc ++ [x])%list.

Definition newSet (items : list string) : list string :=
  fold_left setAdd items [].

End JS.

(** ** GapAnalyzer: step 4 of [generateCVWithClaude] *)

Module Gap.

Import JS.

Record GapAnalysis := {
  matchedRequired : list string;
  missingRequired : list string;
  matchedPreferred : list string;
  matchPercentage : spec_float
}.

(** [new Set((extractedData.skills || []).map(s => s.toLowerCase()))] *)
Definition candidateSkills (skills : list string) : list string :=
  newSet (map JSString.toLowerCase skills).

(** The predicate of both [filter] calls:
    [candidateSkills.has(skill.toLowerCase()) ||
     [...candidateSkills].some(cs => cs.includes(skill.toLowerCase())
                                     || skill.toLowerCase().includes(cs))] *)
Definition skillMatches (candidates : list string) (skill : string) : bool :=
  existsb (String.eqb (JSString.toLowerCase skill)) candidates
  || existsb (fun cs =>
                JSString.includes cs (JSString.toLowerCase skill)
                || JSString.includes (JSString.toLowerCase skill) cs)
       candidates.

(** [requiredSkills.length > 0
       ? Math.round((matchedRequired.length / requiredSkills.length) * 100)
       : 70] *)
Definition matchPercent (matched required : list string) : spec_float :=
  if (0 <? Z.of_nat (length required))
  then Math_round
         (fmul (fdiv (Number_of_Z (Z.of_nat (length matched)))
                   (Number_of_Z (Z.of_nat (length required))))
              (Number_of_Z 100))
  else Number_of_Z 70.

Definition compare (skills requiredSkills preferredSkills : list string) : GapAnalysis :=
  let candidates := candidateSkills skills in
  let matched := List.filter (skillMatches candidates) requiredSkills in
  let missing :=
    List.filter (fun skill => negb (existsb (String.eqb skill) matched)) requiredSkills in
  let preferred := List.filter (skillMatches candidates) preferredSkills in
  {| matchedRequired := matched;
     missingRequired := missing;
     matchedPreferred := preferred;
     matchPercentage := matchPercent matched requiredSkills |}.

End Gap.

(** ** The generation pipeline: [generateCVWithClaude] and
       [generateCoverLetterWithClaude] *)

Module Pipeline.

Import JS.

(** *** Inputs *)

(** [profile]: only [profile?.rawText] is read. *)
Record Profile := { profileRawText : option string }.

(** One uploaded CV. *)
Record CvText := { filename : string; text : string }.

(** *** The inference provider *)

(** The four [anthropic.messages.create] calls. *)
Inductive Stage := Extraction | JobAnalysis | Tailoring | CoverLetter.

(** What a call comes back with: the promise is rejected; or the response
    holds no text that [match(/\{[\s\S]*\}/)] and [JSON.parse] turn into a
    value; or they do, and the value is an object, since the matched text
    starts with a brace. *)
Inductive Reply :=
  | Rejected
  | Unparsable
  | Parsed (props : list (string * JValue)).

Definition Provider := Stage -> Reply.

(** The object found in a reply, if any. *)
Definition parsedReply (r : Reply) : option (list (string * JValue)) :=
  match r with
  | Parsed props => Some props
  | _ => None
  end.

(** The provider that answers [r] at [stage] and as [provider] elsewhere. *)
Definition override (provider : Provider) (stage : Stage) (r : Reply) : Provider :=
  fun s =>
    match stage, s with
    | Extraction, Extraction
    | JobAnalysis, JobAnalysis
    | Tailoring, Tailoring
    | CoverLetter, CoverLetter => r
    | _, _ => provider s
    end.

(** *** Computations that call the provider

    A computation takes the log of the calls made so far and gives its
    result with the log extended. *)
Definition Gen (A : Type) : Type := list Stage -> Result A * list Stage.

Definition ret {A : Type} (a : A) : Gen A := fun log => (Ok a, log).

Definition lift {A : Type} (r : Result A) : Gen A := fun log => (r, log).

Definition seq {A B : Type} (c : Gen A) (k : A -> Gen B) : Gen B :=
  fun log =>
    match c log with
    | (Ok a, log') => k a log'
    | (Throw e, log') => (Throw e, log')
    end.

Notation "'let*' x ':=' c 'in' k" := (seq c (fun x => k))
  (at level 10, x name, c at level 100, k at level 200).

(** [await anthropic.messages.create(...)] followed by the search for a
    JSON object in the text; [None] is the parse failure the caller
    catches. *)
Definition infer (provider : Provider) (stage : Stage)
  : Gen (option (list (string * JValue))) :=
  fun log =>
    match provider stage with
    | Rejected => (Throw InferenceError, (log ++ [stage])%list)
    | Unparsable => (Ok None, (log ++ [stage])%list)
    | Parsed props => (Ok (Some props), (log ++ [stage])%list)
    end.

(** *** Step 1: the text the user provided *)

Definition nl : string := String "010"%char EmptyString.

(** [cvTexts.map(cv => cv.text).join('\n\n---\n\n')] *)
Definition allCvContent (cvTexts : list CvText) : string :=
  JSString.join (nl +:+ nl +:+ "---" +:+ nl +:+ nl) (map text cvTexts).

(** [profile?.rawText || ''] *)
Definition linkedinContent (profile : option Profile) : string :=
  match profile with
  | Some p => match profileRawText p with Some s => s | None => "" end
  | None => ""
  end.

Definition userProvidedData (profile : option Profile) (cvTexts : list CvText) : string :=
  linkedinContent profile +:+ nl +:+ nl +:+ allCvContent cvTexts.

(** [!userProvidedData.trim() || userProvidedData.length < 100] *)
Definition insufficient (data : string) : bool :=
  negb (JSString.nonEmpty (JSString.trim data))
  || (Z.of_nat (String.length data) <? 100).

Definition checkSufficient (data : string) : Result unit :=
  if insufficient data then Throw InsufficientDataError else Ok tt.

(** *** Step 2: extraction *)

Definition parseExtraction (reply : option (list (string * JValue))) : Result JValue :=
  match reply with
  | Some props => Ok (JObj props)
  | None => Throw ExtractionParseError
  end.

(** The callback of [extractedData.education.map]. *)
Definition cleanEducation (edu : JValue) : Result JValue :=
  if nullish edu then Throw TypeError
  else
    let year := prop edu "year" in
    Ok (JObj [("degree", orJS (prop edu "degree") (JStr ""));
              ("institution", orJS (prop edu "institution") (JStr ""));
              ("year", if truthy year && negb (strictEqStr year "null")
                       then year else JStr "")]).

(** [if (extractedData.education) extractedData.education =
       extractedData.education.map(...).filter(edu => edu.institution)] *)
Definition postProcessEducation (extractedData : JValue) : Result JValue :=
  let education := prop extractedData "education" in
  if truthy education then
    match education with
    | JArr items _ =>
        bind (mapM cleanEducation items) (fun cleaned =>
          Ok (setOwn extractedData "education"
                (JArr (List.filter (fun edu => truthy (prop edu "institution")) cleaned) [])))
    | _ => Throw TypeError
    end
  else Ok extractedData.

(** [!extractedData.name || extractedData.name === 'null'] *)
Definition nameMissing (name : JValue) : bool :=
  negb (truthy name) || strictEqStr name "null".

Definition validateName (extractedData : JValue) : Result unit :=
  if nameMissing (prop extractedData "name") then Throw NameMissingError else Ok tt.

Definition extractFacts (provider : Provider) (profile : option Profile)
    (cvTexts : list CvText) : Gen JValue :=
  let* _ := lift (checkSufficient (userProvidedData profile cvTexts)) in
  let* reply := infer provider Extraction in
  let* parsed := lift (parseExtraction reply) in
  let* extractedData := lift (postProcessEducation parsed) in
  let* _ := lift (validateName extractedData) in
  ret extractedData.

(** *** Step 3: job requirements *)

(** The value of the [catch] branch. *)
Definition fallbackJobRequirements : list (string * JValue) :=
  [("requiredSkills", JArr [] []);
   ("preferredSkills", JArr [] []);
   ("keywords", JArr [] [])].

Definition parseJobRequirements (reply : option (list (string * JValue))) : JValue :=
  match reply with
  | Some props => JObj props
  | None => JObj fallbackJobRequirements
  end.

Definition analyzeJob (provider : Provider) : Gen JValue :=
  let* reply := infer provider JobAnalysis in
  ret (parseJobRequirements reply).

(** *** Step 4: gap analysis *)

(** An item a callback calls [toLowerCase] on: anything but a string has
    no such method. *)
Definition asString (v : JValue) : Result string :=
  match v with
  | JStr s => Ok s
  | _ => Throw TypeError
  end.

(** [(v || [])] used as an array of strings, by [map] or [filter] with a
    callback that lowercases every item. *)
Definition stringItems (v : JValue) : Result (list string) :=
  match orJS v (JArr [] []) with
  | JArr items _ => mapM asString items
  | _ => Throw TypeError
  end.

Definition gapAnalysis (extractedData jobRequirements : JValue) : Result Gap.GapAnalysis :=
  bind (stringItems (prop extractedData "skills")) (fun skills =>
  bind (stringItems (prop jobRequirements "requiredSkills")) (fun requiredSkills =>
  bind (stringItems (prop jobRequirements "preferredSkills")) (fun preferredSkills =>
  Ok (Gap.compare skills requiredSkills preferredSkills)))).

(** *** Step 6: tailoring and the final validation *)

(** The value of the [catch] branch: a CV made of the extracted data. *)
Definition fallbackCvContent (extractedData : JValue) : JValue :=
  JObj [("name", prop extractedData "name");
        ("contact", JObj [("email", prop extractedData "email");
                          ("phone", prop extractedData "phone");
                          ("linkedin", prop extractedData "linkedin");
                          ("location", prop extractedData "location")]);
        ("nationality", prop extractedData "nationality");
        ("visaStatus", prop extractedData "visaStatus");
        ("headline", orJS (prop extractedData "currentTitle") (JStr "Professional"));
        ("summary", JStr "Experienced professional.");
        ("experience", orJS (prop extractedData "experience") (JArr [] []));
        ("education", orJS (prop extractedData "education") (JArr [] []));
        ("certifications", orJS (prop extractedData "certifications") (JArr [] []));
        ("languages", orJS (prop extractedData "languages") (JArr [] []))].

Definition parseTailoring (extractedData : JValue)
    (reply : option (list (string * JValue))) : JValue :=
  match reply with
  | Some props => JObj props
  | None => fallbackCvContent extractedData
  end.

(** [if (extractedData.k) cvContent.contact.k = extractedData.k] *)
Definition overwriteContact (extractedData : JValue) (k : string) (cvContent : JValue)
  : Result JValue :=
  if truthy (prop extractedData k) then
    bind (setProp (prop cvContent "contact") k (prop extractedData k)) (fun contact =>
      Ok (setOwn cvContent "contact" contact))
  else Ok cvContent.

(** The six assignments under "Final validation". *)
Definition finalValidation (extractedData cvContent : JValue) : Result JValue :=
  let cv1 := setOwn cvContent "name" (prop extractedData "name") in
  bind (overwriteContact extractedData "email" cv1) (fun cv2 =>
  bind (overwriteContact extractedData "phone" cv2) (fun cv3 =>
  bind (overwriteContact extractedData "linkedin" cv3) (fun cv4 =>
  let cv5 := setOwn cv4 "education"
               (orJS (prop extractedData "education") (prop cv4 "education")) in
  let cv6 := setOwn cv5 "languages"
               (orJS (prop extractedData "languages") (prop cv5 "languages")) in
  Ok cv6))).

Definition tailor (provider : Provider) (extractedData : JValue) : Gen JValue :=
  let* reply := infer provider Tailoring in
  lift (finalValidation extractedData (parseTailoring extractedData reply)).

(** *** The analysis summary *)

(** The parts of [analysisSummary] that depend on the job and on the gap
    analysis. *)
Record AnalysisSummary := {
  jobTitle : JValue;
  jobCompany : JValue;
  gapAnalysis_ : Gap.GapAnalysis
}.

(** [extractedData.skills?.slice(0, 8) || []]: the optional chain stops on
    [null] and [undefined] only; arrays and strings have [slice]. *)
Definition topSkills (skills : JValue) : Result unit :=
  match skills with
  | JUndefined | JNull | JArr _ _ | JStr _ => Ok tt
  | JBool _ | JNum _ | JObj _ => Throw TypeError
  end.

Definition summarize (extractedData jobRequirements : JValue) (gap : Gap.GapAnalysis)
  : Result AnalysisSummary :=
  bind (topSkills (prop extractedData "skills")) (fun _ =>
  Ok {| jobTitle := orJS (prop jobRequirements "jobTitle") (JStr "Position");
        jobCompany := orJS (prop jobRequirements "company") (JStr "Company");
        gapAnalysis_ := gap |}).

(** *** [generateCVWithClaude] *)

Record Generated := {
  cvContent : JValue;
  analysisSummary : AnalysisSummary;
  extractedData : JValue
}.

Definition generateCVWithClaude (provider : Provider) (profile : option Profile)
    (cvTexts : list CvText) (jobData : option Region.JobData) (region : Region.Region)
  : Gen Generated :=
  let* extracted := extractFacts provider profile cvTexts in
  let* jobRequirements := analyzeJob provider in
  let* gap := lift (gapAnalysis extracted jobRequirements) in
  let* cv := tailor provider extracted in
  let* summary := lift (summarize extracted jobRequirements gap) in
  ret {| cvContent := cv; analysisSummary := summary; extractedData := extracted |}.

(** *** [generateCoverLetterWithClaude] *)

(** [candidateSkills.slice(0, 10).join(', ')] with
    [candidateSkills = extractedData?.skills || []]: an array is sliced and
    joined; a string is sliced to a string, which has no [join]; any other
    value has no [slice]. *)
Definition coverSkills (extractedData : JValue) : Result unit :=
  match orJS (prop extractedData "skills") (JArr [] []) with
  | JArr _ _ => Ok tt
  | _ => Throw TypeError
  end.

(** The callback [exp => exp.achievements?.slice(0, 2).join('; ') || exp.title]. *)
Definition coverAchievements (exp : JValue) : Result unit :=
  if nullish exp then Throw TypeError
  else
    let achievements := prop exp "achievements" in
    if nullish achievements then Ok tt
    else match achievements with
         | JArr _ _ => Ok tt
         | _ => Throw TypeError
         end.

(** [candidateExperience.slice(0, 2).map(...)] with
    [candidateExperience = extractedData?.experience || []]. *)
Definition coverExperience (extractedData : JValue) : Result unit :=
  match orJS (prop extractedData "experience") (JArr [] []) with
  | JArr items _ => bind (mapM coverAchievements (firstn 2 items)) (fun _ => Ok tt)
  | _ => Throw TypeError
  end.

(** The prompt is built before the call is made. *)
Definition coverPrompt (extractedData : JValue) : Result unit :=
  bind (coverSkills extractedData) (fun _ => coverExperience extractedData).

(** The letter returned when the response holds no JSON object. *)
Definition fallbackCoverLetter (jobData : option Region.JobData) : JValue :=
  let title := Region.field Region.title jobData in
  let company := Region.field Region.company jobData in
  JObj [("opening",
         JStr ("I am writing to express my interest in the "
               +:+ Region.orElse title "position" +:+ " role at "
               +:+ Region.orElse company "your company" +:+ "."));
        ("body",
         JArr [JStr "With my background and experience, I am confident I can contribute to your team."] []);
        ("closing", JStr "I look forward to discussing this opportunity with you.");
        ("companyName", JStr (Region.orElse company "your company"));
        ("jobTitle", JStr (Region.orElse title "this position"))].

Definition generateCoverLetterWithClaude (provider : Provider)
    (jobData : option Region.JobData) (extractedData : JValue) : Gen JValue :=
  let* _ := lift (coverPrompt extractedData) in
  let* reply := infer provider CoverLetter in
  ret match reply with
      | Some props => JObj props
      | None => fallbackCoverLetter jobData
      end.

End Pipeline.

(** ** The session store and the request handlers *)

Module Server.

Import JS Pipeline.

(** *** GenerationSessionStore: the [generatedDocs] map *)

Record Artifact := {
  buffer : string;
  docFilename : string;
  content : JValue
}.

Record Session := {
  cv : Artifact;
  coverLetter : option Artifact;
  createdAt : Z
}.

(** [cleanupOldDocuments], run at time [now = Date.now()]: the loop over
    the entries deletes every one created before [now - 60 * 60 * 1000]. *)
Definition cleanupOldDocuments (now : Z) (generatedDocs : gmap string Session)
  : gmap string Session :=
  let oneHourAgo := now - 60 * 60 * 1000 in
  map_fold
    (fun id doc docs => if createdAt doc <? oneHourAgo then delete id docs else docs)
    generatedDocs generatedDocs.

(** *** [GET /api/download/:sessionId/:docType] *)

Inductive HttpResponse :=
  | Status404 (error : string)
  | Download (name : string) (body : string).

Definition download (generatedDocs : gmap string Session) (sessionId docType : string)
  : HttpResponse :=
  match generatedDocs !! sessionId with
  | None => Status404 "Documents not found or expired"
  | Some docs =>
      match (if String.eqb docType "cv" then Some (cv docs) else coverLetter docs) with
      | None => Status404 "Document not found"
      | Some doc => Download (docFilename doc) (buffer doc)
      end
  end.

(** *** [POST /api/generate] *)

(** The request body, after the saved profile of a logged-in user has been
    merged in; [userId] is [req.userId]. *)
Record Request := {
  profile : option Profile;
  cvTexts : list CvText;
  jobData : option Region.JobData;
  generateCoverLetter : option bool;
  userId : option Z
}.

(** What lies outside the pipeline: the inference provider, the document
    renderer ([generateCV] and [generateCoverLetter] of
    [documentGenerator.js] with the file names; [None] is a failure), the
    outcome of the two [INSERT] queries, the fresh session id and the clock
    at the two places [Date.now()] is read. *)
Record World := {
  provider : Provider;
  renderCV : JValue -> Region.Region -> option (string * string);
  renderCoverLetter : JValue -> JValue -> Region.Region -> option (string * string);
  dbSaveSucceeds : bool;
  uuid : string;
  nowAtStore : Z;
  nowAtCleanup : Z
}.

(** [options?.generateCoverLetter !== false] *)
Definition wantsCoverLetter (req : Request) : bool :=
  match generateCoverLetter req with
  | Some false => false
  | _ => true
  end.

Definition rendered (r : option (string * string)) (c : JValue) : Result Artifact :=
  match r with
  | Some (b, f) => Ok {| buffer := b; docFilename := f; content := c |}
  | None => Throw RenderError
  end.

(** The body of the [try] block up to the documents. *)
Definition produce (w : World) (req : Request)
  : Gen (Artifact * option Artifact * AnalysisSummary) :=
  let region := Region.detectRegion (jobData req) in
  let* cvResult :=
    generateCVWithClaude (provider w) (profile req) (cvTexts req) (jobData req) region in
  let* letter :=
    (if wantsCoverLetter req
     then let* l := generateCoverLetterWithClaude (provider w) (jobData req)
                      (extractedData cvResult) in
          ret (Some l)
     else ret None) in
  let* cvDoc := lift (rendered (renderCV w (cvContent cvResult) region) (cvContent cvResult)) in
  let* letterDoc :=
    (match letter with
     | Some l =>
         let* d := lift (rendered (renderCoverLetter w l (cvContent cvResult) region) l) in
         ret (Some d)
     | None => ret None
     end) in
  ret (cvDoc, letterDoc, analysisSummary cvResult).

(** The event that ends the stream. *)
Inductive Event :=
  | Complete (sessionId : string) (region : Region.Region) (summary : AnalysisSummary)
  | Failed (reason : string).

Record Handled := {
  event : Event;
  docs : gmap string Session;
  calls : list Stage;
  savedToDatabase : bool
}.

(** The handler: on success the documents are stored, saved to the
    database for a logged-in user inside a [try] whose [catch] only logs,
    and the old documents are swept; an exception thrown anywhere else is
    caught and reported by its message. *)
Definition apiGenerate (w : World) (req : Request) (generatedDocs : gmap string Session)
  : Handled :=
  match produce w req [] with
  | (Ok (cvDoc, letterDoc, summary), log) =>
      let stored :=
        <[uuid w := {| cv := cvDoc; coverLetter := letterDoc; createdAt := nowAtStore w |}]>
          generatedDocs in
      {| event := Complete (uuid w) (Region.detectRegion (jobData req)) summary;
         docs := cleanupOldDocuments (nowAtCleanup w) stored;
         calls := log;
         savedToDatabase :=
           match userId req with
           | Some _ => dbSaveSucceeds w
           | None => false
           end |}
  | (Throw e, log) =>
      {| event := Failed (message e);
         docs := generatedDocs;
         calls := log;
         savedToDatabase := false |}
  end.

(** The same world with another outcome of the database queries. *)
Definition withDatabase (w : World) (succeeds : bool) : World :=
  {| provider := provider w;
     renderCV := renderCV w;
     renderCoverLetter := renderCoverLetter w;
     dbSaveSucceeds := succeeds;
     uuid := uuid w;
     nowAtStore := nowAtStore w;
     nowAtCleanup := nowAtCleanup w |}.

End Server.

(** ** Concrete inputs used by the examples below *)

Module Examples.

Import JS Pipeline Server.

Definition job (raw loc : option string) : option Region.JobData :=
  Some {| Region.rawText := raw; Region.title := None;
          Region.company := None; Region.location := loc |}.

(** A request with one CV of 129 characters. *)
Definition janeCv : list CvText :=
  [{| filename := "jane.docx";
      text := "Jane Doe, jane@x.com, 5 years Product Management at Acme Corp; "
              +:+ "skills: Agile, SQL; BSc Computer Science, University of Leeds 2015" |}].

Definition seniorPm : option Region.JobData :=
  Some {| Region.rawText := Some "Senior PM, required: Agile, SQL, Roadmapping";
          Region.title := Some "Senior PM";
          Region.company := Some "Acme";
          Region.location := Some "London" |}.

Definition answering (e j t c : Reply) : Provider :=
  fun stage =>
    match stage with
    | Extraction => e
    | JobAnalysis => j
    | Tailoring => t
    | CoverLetter => c
    end.

Definition str (s : string) : JValue := JStr s.
Definition arr (items : list JValue) : JValue := JArr items [].

(** The facts a faithful extraction finds in [janeCv]. *)
Definition janeFacts : list (string * JValue) :=
  [("name", str "Jane Doe"); ("email", str "jane@x.com"); ("phone", JNull);
   ("linkedin", JNull); ("location", JNull);
   ("currentTitle", str "Product Manager");
   ("skills", arr [str "Agile"; str "SQL"]);
   ("experience", arr []);
   ("education",
    arr [JObj [("degree", str "BSc Computer Science");
               ("institution", str "University of Leeds");
               ("year", str "2015")]]);
   ("certifications", arr []);
   ("languages", arr [str "English"])].

(** The same with an empty email, and no education or languages. *)
Definition janeFactsEmptyEmail : list (string * JValue) :=
  [("name", str "Jane Doe"); ("email", str ""); ("phone", JNull);
   ("linkedin", JNull); ("location", JNull);
   ("skills", arr [str "Agile"; str "SQL"]);
   ("experience", arr []);
   ("education", JNull);
   ("certifications", arr []);
   ("languages", JNull)].

Definition pmRequirements : list (string * JValue) :=
  [("jobTitle", str "Senior PM"); ("company", str "Acme");
   ("requiredSkills", arr [str "Agile"; str "SQL"; str "Roadmapping"]);
   ("preferredSkills", arr []);
   ("keywords", arr [str "roadmap"])].

(** A tailoring response that disagrees with the extracted facts. *)
Definition forgedCv : list (string * JValue) :=
  [("name", str "John Smith");
   ("contact", JObj [("email", str "john@fake.com"); ("phone", str "555-0100")]);
   ("headline", str "Visionary Leader");
   ("education",
    arr [JObj [("degree", str "PhD"); ("institution", str "MIT"); ("year", str "2010")]]);
   ("languages", arr [str "Klingon"])].


(** A tailoring response whose [contact] is a string. *)
Definition cvStringContact : list (string * JValue) :=
  [("name", str "Jane Doe"); ("contact", str "jane@x.com")].

Definition run (p : Provider) : Result Generated * list Stage :=
  generateCVWithClaude p None janeCv seniorPm (Region.detectRegion seniorPm) [].

(** The result of a run, for a run that succeeded. *)
Definition resultOf (p : Provider) : Generated :=
  match fst (run p) with
  | Ok r => r
  | Throw _ =>
      {| cvContent := JUndefined;
         analysisSummary :=
           {| jobTitle := JUndefined; jobCompany := JUndefined;
              gapAnalysis_ := Gap.compare [] [] [] |};
         extractedData := JUndefined |}
  end.

Definition faithful : Provider :=
  answering (Parsed janeFacts) (Parsed pmRequirements) (Parsed forgedCv) Unparsable.

Definition jobUnparsable : Provider :=
  answering (Parsed janeFacts) Unparsable Unparsable Unparsable.

Definition emptyEmail : Provider :=
  answering (Parsed janeFactsEmptyEmail) (Parsed pmRequirements) (Parsed forgedCv)
    Unparsable.

Definition stringContact : Provider :=
  answering (Parsed janeFacts) (Parsed pmRequirements) (Parsed cvStringContact)
    Unparsable.



Definition extractionUnparsable : Provider :=
  answering Unparsable (Parsed pmRequirements) (Parsed forgedCv) Unparsable.

Definition world (p : Provider) : World :=
  {| provider := p;
     renderCV := fun _ _ => Some ("cv-bytes", "CV_Jane_Doe_Senior_PM.docx");
     renderCoverLetter := fun _ _ _ => Some ("letter-bytes", "CoverLetter_Jane_Doe_Senior_PM.docx");
     dbSaveSucceeds := false;
     uuid := "session-1";
     nowAtStore := 1000;
     nowAtCleanup := 1001 |}.

Definition request : Request :=
  {| profile := None; cvTexts := janeCv; jobData := seniorPm;
     generateCoverLetter := None; userId := Some 7 |}.

Definition storedAt (t : Z) : Session :=
  {| cv := {| buffer := "cv-bytes"; docFilename := "CV.docx"; content := JObj [] |};
     coverLetter := None;
     createdAt := t |}.

End Examples.

(** ** The helper functions of [server/index.js] *)

Module Helpers.

Import JS.

(** [\d] *)
Definition isDigit (c : ascii) : bool :=
  let n := N_of_ascii c in (48 <=? n)%N && (n <=? 57)%N.

(** [[a-zA-Z0-9]] *)
Definition isAlnum (c : ascii) : bool :=
  let n := N_of_ascii c in
  isDigit c || ((65 <=? n)%N && (n <=? 90)%N) || ((97 <=? n)%N && (n <=? 122)%N).

(** [s.replace(/[^...]/g, '')] for a character class: the characters of the
    class are kept. *)
Fixpoint keepChars (keep : ascii -> bool) (s : string) : string :=
  match s with
  | EmptyString => EmptyString
  | String c s' => if keep c then String c (keepChars keep s') else keepChars keep s'
  end.

(** [s.replace(/\s+/g, '_')]: every maximal run of white space becomes one
    underscore; [inRun] tells that the character before was white space. *)
Fixpoint underscoreRuns (inRun : bool) (s : string) : string :=
  match s with
  | EmptyString => EmptyString
  | String c s' =>
      if JSString.isWhiteSpace c
      then (if inRun then underscoreRuns true s'
            else String "_" (underscoreRuns true s'))
      else String c (underscoreRuns false s')
  end.

(** [s.slice(0, n)] *)
Fixpoint sliceTo (n : nat) (s : string) : string :=
  match n, s with
  | S n', String c s' => String c (sliceTo n' s')
  | _, _ => EmptyString
  end.

(** [sanitizeFilename], for an argument that is a string or [undefined]:
    [(str || 'Document').replace(/[^a-zA-Z0-9\s-]/g, '')
       .replace(/\s+/g, '_').slice(0, 50)] *)
Definition sanitizeFilename (str : option string) : string :=
  sliceTo 50
    (underscoreRuns false
       (keepChars (fun c => isAlnum c || JSString.isWhiteSpace c || Ascii.eqb c "-")
          (Region.orElse str "Document"))).

(** [Math.max(x, y)]: NaN if one of them is, and [+0] above [-0]. *)
Definition Math_max (x y : spec_float) : spec_float :=
  match SFcompare x y with
  | None => S754_nan
  | Some Lt => y
  | Some Gt => x
  | Some Eq => match x with S754_zero true => y | _ => x end
  end.

(** [calculateKeywordMatch(profileSummary, jobAnalysis)], on
    [profileSummary.topSkills] and [jobAnalysis.keywords]. *)
Definition calculateKeywordMatch (topSkills keywords : list string) : spec_float :=
  let profileKeywords := newSet (map JSString.toLowerCase topSkills) in
  let jobKeywords := newSet (map JSString.toLowerCase keywords) in
  if Z.of_nat (length jobKeywords) =? 0 then Number_of_Z 65
  else
    let matches :=
      List.filter (fun keyword => existsb (String.eqb keyword) profileKeywords)
        jobKeywords in
    let matchPercent :=
      Math_round
        (fmul (fdiv (Number_of_Z (Z.of_nat (length matches)))
                 (Number_of_Z (Z.of_nat (length jobKeywords))))
           (Number_of_Z 100)) in
    Math_max matchPercent (Number_of_Z 55).

(** [s.split(sep)] for a separator of one character. *)
Fixpoint split (sep : ascii) (s : string) : list string :=
  match s with
  | EmptyString => [EmptyString]
  | String c s' =>
      if Ascii.eqb c sep then EmptyString :: split sep s'
      else match split sep s' with
           | [] => [String c EmptyString]
           | line :: rest => String c line :: rest
           end
  end.

Definition lineFeed : ascii := "010"%char.

End Helpers.

(** *** [parseLinkedInPdfText] *)

Module LinkedIn.

Import Helpers.

Record Experience := {
  title : string;
  company : string;
  duration : string
}.

Record Profile := {
  rawText : string;
  name : string;
  headline : string;
  experiences : list Experience;
  skills : list string;
  education : list string
}.

Fixpoint digitsAtStart (n : nat) (s : string) : bool :=
  match n with
  | O => true
  | S n' =>
      match s with
      | String c s' => isDigit c && digitsAtStart n' s'
      | EmptyString => false
      end
  end.

(** [/\d{4}/.test(line)] *)
Fixpoint testFourDigits (line : string) : bool :=
  digitsAtStart 4 line ||
  match line with
  | EmptyString => false
  | String _ rest => testFourDigits rest
  end.

(** The variables of the loop over the lines. *)
Record Loop := {
  inExperience : bool;
  currentExp : option Experience;
  pushed : list Experience
}.

(** One turn of the loop. *)
Definition step (st : Loop) (line : string) : Loop :=
  if JSString.includes line "Experience"
  then {| inExperience := true; currentExp := currentExp st; pushed := pushed st |}
  else
    let inExp :=
      if JSString.includes line "Education" || JSString.includes line "Skills"
      then false else inExperience st in
    if inExp && JSString.nonEmpty (JSString.trim line)
    then
      match currentExp st with
      | None =>
          {| inExperience := inExp;
             currentExp := Some {| title := line; company := ""; duration := "" |};
             pushed := pushed st |}
      | Some exp =>
          if negb (JSString.nonEmpty (company exp))
          then {| inExperience := inExp;
                  currentExp := Some {| title := title exp; company := line;
                                        duration := duration exp |};
                  pushed := pushed st |}
          else if negb (JSString.nonEmpty (duration exp)) && testFourDigits line
          then {| inExperience := inExp;
                  currentExp := None;
                  pushed := (pushed st ++ [{| title := title exp; company := company exp;
                                              duration := line |}])%list |}
          else {| inExperience := inExp; currentExp := currentExp st; pushed := pushed st |}
      end
    else {| inExperience := inExp; currentExp := currentExp st; pushed := pushed st |}.

(** [text.split('\n').filter(l => l.trim())] *)
Definition nonBlankLines (text : string) : list string :=
  List.filter (fun l => JSString.nonEmpty (JSString.trim l)) (split lineFeed text).

Definition parseLinkedInPdfText (text : string) : Profile :=
  let lines := nonBlankLines text in
  let final :=
    fold_left step lines {| inExperience := false; currentExp := None; pushed := [] |} in
  {| rawText := text;
     name := Region.orElse (nth_error lines 0) "Unknown";
     headline := Region.orElse (nth_error lines 1) "";
     experiences := pushed final;
     skills := [];
     education := [] |}.

End LinkedIn.

(** *** [parseJobDescription] *)

Module Job.

Import Helpers.

(** The patterns of [parseJobDescription] all have the shape
    [/\b(a1|a2|...)\b/gi], given here by the list of the alternatives. *)

(** [\w] *)
Definition isWordChar (c : ascii) : bool := isAlnum c || Ascii.eqb c "_".

(** Two characters the flag [i] identifies. *)
Definition sameLetter (a b : ascii) : bool :=
  Ascii.eqb (JSString.toLowerCase_char a) (JSString.toLowerCase_char b).

Definition startsWord (s : string) : bool :=
  match s with
  | String c _ => isWordChar c
  | EmptyString => false
  end.

(** [\b] between a character, a word character or not, and the rest of
    the text; the start of the text counts as no word character. *)
Definition boundary (before : bool) (rest : string) : bool :=
  xorb before (startsWord rest).

(** [alt\b] at the start of [s]: the text matched. *)
Fixpoint matchAlt (before : bool) (alt s : string) : option string :=
  match alt with
  | EmptyString => if boundary before s then Some EmptyString else None
  | String a alt' =>
      match s with
      | String c s' =>
          if sameLetter c a
          then option_map (String c) (matchAlt (isWordChar c) alt' s')
          else None
      | EmptyString => None
      end
  end.

(** [(a1|a2|...)\b] at the start of [s]: the alternatives are tried in
    order. *)
Fixpoint matchAlts (before : bool) (alts : list string) (s : string) : option string :=
  match alts with
  | [] => None
  | alt :: rest =>
      match matchAlt before alt s with
      | Some m => Some m
      | None => matchAlts before rest s
      end
  end.

(** The matches from left to right; the search goes on behind a match, and
    [skip] counts the characters of the last match still to pass. *)
Fixpoint scan (alts : list string) (skip : nat) (before : bool) (s : string)
  : list string :=
  match s with
  | EmptyString => []
  | String c s' =>
      match skip with
      | S k => scan alts k (isWordChar c) s'
      | O =>
          if boundary before s then
            match matchAlts before alts s with
            | Some m => m :: scan alts (String.length m - 1) (isWordChar c) s'
            | None => scan alts 0 (isWordChar c) s'
            end
          else scan alts 0 (isWordChar c) s'
      end
  end.

(** [text.match(pattern) || []] *)
Definition matchAll (alts : list string) (text : string) : list string :=
  scan alts 0 false text.

Definition keywordPatterns : list (list string) :=
  [["python"; "javascript"; "react"; "node"; "sql"; "aws"; "azure"; "gcp"];
   ["agile"; "scrum"; "kanban"; "jira"; "confluence"];
   ["project management"; "product management"; "stakeholder"; "cross-functional"];
   ["saas"; "b2b"; "b2c"; "enterprise"; "startup"];
   ["api"; "rest"; "graphql"; "microservices"];
   ["leadership"; "strategy"; "analytics"; "automation"]].

Definition locationPatterns : list (list string) :=
  [["remote"; "hybrid"; "on-site"; "onsite"];
   ["berlin"; "london"; "paris"; "amsterdam"; "dublin"; "munich"; "barcelona";
    "rome"; "milan"];
   ["germany"; "uk"; "france"; "netherlands"; "ireland"; "spain"; "italy"];
   ["new york"; "san francisco"; "los angeles"; "seattle"; "austin"; "boston"];
   ["usa"; "us"; "united states"; "canada"]].

Record Job := {
  rawText : string;
  title : string;
  company : string;
  location : string;
  requirements : list string;
  responsibilities : list string;
  keywords : list string
}.

(** The loop over [locationPatterns]: the first match of the first pattern
    that has one. *)
Fixpoint detectLocation (patterns : list (list string)) (text : string) : string :=
  match patterns with
  | [] => ""
  | pattern :: rest =>
      match matchAll pattern text with
      | m :: _ => m
      | [] => detectLocation rest text
      end
  end.

Definition parseJobDescription (text : string) : Job :=
  let lines := split lineFeed text in
  {| rawText := text;
     title := match nth_error lines 0 with
              | Some line => JSString.trim line
              | None => ""
              end;
     company := match nth_error lines 1 with
                | Some line => JSString.trim line
                | None => ""
                end;
     location := detectLocation locationPatterns text;
     requirements := [];
     responsibilities := [];
     keywords :=
       JS.newSet
         (map JSString.toLowerCase
            (flat_map (fun pattern => matchAll pattern text) keywordPatterns)) |}.

(** The job as the client posts it back to the generation endpoints. *)
Definition toJobData (job : Job) : option Region.JobData :=
  Some {| Region.rawText := Some (rawText job);
          Region.title := Some (title job);
          Region.company := Some (company job);
          Region.location := Some (location job) |}.

End Job.

(** ** The renderer: [generateCV] of [server/documentGenerator.js] *)

Module DocumentGenerator.

Import JS Helpers.

(** *** [formatAchievement] *)

(** A [TextRun]; size and font are the same for all the runs. *)
Record TextRun := {
  text : string;
  bold : bool
}.

Definition plainRun (s : string) : TextRun := {| text := s; bold := false |}.
Definition boldRun (s : string) : TextRun := {| text := s; bold := true |}.

(** The text before the first digit, and the text from that digit on. *)
Fixpoint untilDigit (s : string) : string * string :=
  match s with
  | EmptyString => (EmptyString, EmptyString)
  | String c s' =>
      if isDigit c then (EmptyString, s)
      else let (before, from) := untilDigit s' in (String c before, from)
  end.

(** [\d+] at the start of [s]: the digits and the text behind them. *)
Fixpoint digits (s : string) : string * string :=
  match s with
  | EmptyString => (EmptyString, EmptyString)
  | String c s' =>
      if isDigit c then let (ds, rest) := digits s' in (String c ds, rest)
      else (EmptyString, s)
  end.

(** [regex.exec(text)] for [/(\d+%?|\d+\+?)/g], on the text from
    [lastIndex] on: the next match starts at the first digit, where the
    first alternative takes all the digits and a percent sign behind them,
    so the second alternative is never tried. The result is the text
    before the match, the match and the text behind it. *)
Definition exec (rest : string) : option (string * string * string) :=
  let (before, from) := untilDigit rest in
  match from with
  | EmptyString => None
  | String _ _ =>
      let (ds, after) := digits from in
      match after with
      | String "%" after' => Some (before, ds +:+ "%", after')
      | _ => Some (before, ds, after)
      end
  end.

(** The [while] loop and the statement behind it; every turn passes at
    least one character, and [fuel] bounds the number of turns. *)
Fixpoint parts (fuel : nat) (rest : string) : list TextRun :=
  match fuel with
  | O => []
  | S fuel' =>
      match exec rest with
      | Some (before, m, after) =>
          ((if JSString.nonEmpty before then [plainRun before] else [])
             ++ boldRun m :: parts fuel' after)%list
      | None => if JSString.nonEmpty rest then [plainRun rest] else []
      end
  end.

Definition formatAchievement (achievement : string) : list TextRun :=
  match parts (S (String.length achievement)) achievement with
  | [] => [plainRun achievement]
  | runs => runs
  end.

(** *** The contact line *)

(** The text of a run of the contact line: a value of [cvContent], the
    template [`Visa Status: ${visaStatus}`], or the bullet between two
    parts. *)
Inductive ContactText :=
  | Value (v : JValue)
  | VisaStatus (v : JValue)
  | Bullet.

Record ContactRun := {
  contactText : ContactText;
  underline : bool
}.

(** [if (contactParts.length > 0) contactParts.push(bullet)] *)
Definition bulletAfter (contactParts : list ContactRun) : list ContactRun :=
  match contactParts with
  | [] => []
  | _ => (contactParts ++ [{| contactText := Bullet; underline := false |}])%list
  end.

(** A destructuring default takes the place of [undefined] only. *)
Definition withDefault (v default : JValue) : JValue :=
  match v with
  | JUndefined => default
  | _ => v
  end.

(** [contactParts] at the end of the block that fills it. Destructuring
    [null] or [undefined] throws, and so does a property read on a
    [contact] that is [null]. *)
Definition contactLine (cvContent : JValue) (region : Region.Region)
  : Result (list ContactRun) :=
  if nullish cvContent then Throw TypeError
  else
    let contact := withDefault (prop cvContent "contact") (JObj []) in
    let nationality := withDefault (prop cvContent "nationality") JNull in
    let visaStatus := withDefault (prop cvContent "visaStatus") JNull in
    if nullish contact then Throw TypeError
    else
      let p1 :=
        if truthy (prop contact "location")
        then [{| contactText := Value (prop contact "location"); underline := false |}]
        else [] in
      let p2 :=
        if truthy (prop contact "email")
        then (bulletAfter p1
                ++ [{| contactText := Value (prop contact "email"); underline := true |}])%list
        else p1 in
      let p3 :=
        if truthy (prop contact "phone")
        then (bulletAfter p2
                ++ [{| contactText := Value (prop contact "phone"); underline := false |}])%list
        else p2 in
      let p4 :=
        if truthy (prop contact "linkedin")
        then (bulletAfter p3
                ++ [{| contactText := Value (prop contact "linkedin"); underline := true |}])%list
        else p3 in
      Ok (if match region with Region.EU => true | _ => false end
             || truthy nationality || truthy visaStatus
          then
            let p5 :=
              if truthy nationality
              then (bulletAfter p4
                      ++ [{| contactText := Value nationality; underline := false |}])%list
              else p4 in
            if truthy visaStatus
            then (bulletAfter p5
                    ++ [{| contactText := VisaStatus visaStatus; underline := false |}])%list
            else p5
          else p4).

(** *** The languages *)

(** [l && l.language && l.language !== 'undefined'
       && l.level && l.level !== 'undefined'] *)
Definition validLanguage (l : JValue) : bool :=
  truthy l
  && truthy (prop l "language") && negb (strictEqStr (prop l "language") "undefined")
  && truthy (prop l "level") && negb (strictEqStr (prop l "level") "undefined").

(** [validLanguages]: [(languages || []).filter(...)], with [languages]
    destructured from [cvContent] with the default [[]]; only an array has
    [filter]. The LANGUAGES section is written when the result is not
    empty. *)
Definition validLanguages (cvContent : JValue) : Result (list JValue) :=
  if nullish cvContent then Throw TypeError
  else
    match orJS (withDefault (prop cvContent "languages") (JArr [] [])) (JArr [] []) with
    | JArr items _ => Ok (List.filter validLanguage items)
    | _ => Throw TypeError
    end.

End DocumentGenerator.

(** ** The other endpoints of [server/index.js] *)

Module Endpoints.

Import JS Pipeline Server.

(** *** [GET /api/preview/:sessionId/:docType] *)

Inductive PreviewResponse :=
  | PreviewStatus404 (error : string)
  | PreviewJson (previewContent : JValue) (type : string) (previewFilename : string).

Definition preview (generatedDocs : gmap string Session) (sessionId docType : string)
  : PreviewResponse :=
  match generatedDocs !! sessionId with
  | None => PreviewStatus404 "Documents not found or expired"
  | Some docs =>
      match (if String.eqb docType "cv" then Some (cv docs) else coverLetter docs) with
      | None => PreviewStatus404 "Document preview not available"
      | Some doc =>
          if truthy (content doc)
          then PreviewJson (content doc) docType (docFilename doc)
          else PreviewStatus404 "Document preview not available"
      end
  end.

(** *** [POST /api/generate-simple] *)

(** [generateCoverLetterWithClaude(anthropic, profile, cvTexts, jobData,
    region, onProgress, extractedData)] with the parameter [onProgress]:
    the first statement calls it, which throws when the value is no
    function. *)
Definition generateCoverLetterWithProgress (provider : Provider)
    (jobData : option Region.JobData) (onProgressIsFunction : bool)
    (extractedData : JValue) : Gen JValue :=
  let* _ := lift (if onProgressIsFunction then Ok tt else Throw TypeError) in
  generateCoverLetterWithClaude provider jobData extractedData.

(** The body of the [try] block up to the documents. The call of
    [generateCoverLetterWithClaude] passes [(anthropic, cvContent,
    extractedData, jobData, profile, region)]: the sixth argument, bound to
    [onProgress], is the region, a string, and there is no seventh, so
    [extractedData] is [undefined]. The renderer and the file names are the
    world's, as in [produce]. *)
Definition produceSimple (w : World) (req : Request)
  : Gen (Artifact * option Artifact * AnalysisSummary) :=
  let region := Region.detectRegion (jobData req) in
  let* cvResult :=
    generateCVWithClaude (provider w) (profile req) (cvTexts req) (jobData req) region in
  let* letter :=
    (if wantsCoverLetter req
     then let* l := generateCoverLetterWithProgress (provider w) (jobData req) false
                      JUndefined in
          ret (Some l)
     else ret None) in
  let* cvDoc := lift (rendered (renderCV w (cvContent cvResult) region) (cvContent cvResult)) in
  let* letterDoc :=
    (match letter with
     | Some l =>
         let* d := lift (rendered (renderCoverLetter w l (cvContent cvResult) region) l) in
         ret (Some d)
     | None => ret None
     end) in
  ret (cvDoc, letterDoc, analysisSummary cvResult).

Inductive SimpleResponse :=
  | SimpleSuccess (sessionId : string) (summary : AnalysisSummary)
  | SimpleStatus500 (error : string).

Record SimpleHandled := {
  response : SimpleResponse;
  store : gmap string Session;
  inferenceCalls : list Stage
}.

(** The handler: on success the documents are stored, and nothing else is
    done to the store; an exception is answered with status 500 and its
    message. *)
Definition apiGenerateSimple (w : World) (req : Request)
    (generatedDocs : gmap string Session) : SimpleHandled :=
  match produceSimple w req [] with
  | (Ok (cvDoc, letterDoc, summary), log) =>
      {| response := SimpleSuccess (uuid w) summary;
         store :=
           <[uuid w := {| cv := cvDoc; coverLetter := letterDoc;
                          createdAt := nowAtStore w |}]> generatedDocs;
         inferenceCalls := log |}
  | (Throw e, log) =>
      {| response := SimpleStatus500 (message e);
         store := generatedDocs;
         inferenceCalls := log |}
  end.

End Endpoints.

(** ** Shapes of values, used to state properties *)

Module Shapes.

Import JS Pipeline.

(** The shape [cleanEducation] gives an entry: the three fields, none of
    them [null] or [undefined], and a year that is not the word "null". *)
Definition cleanedEntry (edu : JValue) : Prop :=
  exists degree institution year,
    edu = JObj [("degree", degree); ("institution", institution); ("year", year)]
    /\ (truthy degree = true \/ degree = JStr "")
    /\ (truthy institution = true \/ institution = JStr "")
    /\ (truthy year = true \/ year = JStr "")
    /\ year <> JStr "null".

(** A line [parseLinkedInPdfText] can take for a field of an experience:
    a line of the text that is not blank and holds none of the three
    section words. *)
Definition experienceLine (text line : string) : Prop :=
  In line (Helpers.split Helpers.lineFeed text)
  /\ JSString.trim line <> EmptyString
  /\ JSString.includes line "Experience" = false
  /\ JSString.includes line "Education" = false
  /\ JSString.includes line "Skills" = false.

(** All the characters of a string satisfy [p]. *)
Fixpoint forallChars (p : ascii -> bool) (s : string) : bool :=
  match s with
  | EmptyString => true
  | String c s' => p c && forallChars p s'
  end.

(** The text of a list of runs. *)
Fixpoint runsText (runs : list DocumentGenerator.TextRun) : string :=
  match runs with
  | [] => EmptyString
  | r :: rest => DocumentGenerator.text r +:+ runsText rest
  end.

(** A run of [formatAchievement] as it should be: a bold run is a number,
    that is one digit or more, with or without a percent sign behind; a
    run that is not bold has no digit and is not empty. *)
Definition numberOrWords (r : DocumentGenerator.TextRun) : Prop :=
  if DocumentGenerator.bold r
  then exists ds, ds <> EmptyString /\ forallChars Helpers.isDigit ds = true
                  /\ (DocumentGenerator.text r = ds \/ DocumentGenerator.text r = ds +:+ "%")
  else DocumentGenerator.text r <> EmptyString
       /\ forallChars (fun c => negb (Helpers.isDigit c)) (DocumentGenerator.text r) = true.

(** Runs with a bullet between every two neighbours. *)
Fixpoint bulleted (fields : list DocumentGenerator.ContactRun)
  : list DocumentGenerator.ContactRun :=
  match fields with
  | [] => []
  | [f] => [f]
  | f :: rest =>
      f :: {| DocumentGenerator.contactText := DocumentGenerator.Bullet;
              DocumentGenerator.underline := false |} :: bulleted rest
  end.

(** The run of a field of the contact line, if the field is truthy. *)
Definition fieldRun (text : JValue -> DocumentGenerator.ContactText) (underlined : bool)
    (v : JValue) : list DocumentGenerator.ContactRun :=
  if truthy v
  then [{| DocumentGenerator.contactText := text v;
           DocumentGenerator.underline := underlined |}]
  else [].

(** What holds of the outcome and the log of a computation that calls the
    provider: a call that was made and rejected makes the outcome the error
    of the inference, the log is a start of [stages], and it is all of
    them when the computation succeeds. *)
Definition orderly {A : Type} (provider : Provider) (stages : list Stage)
    (outcome : Result A * list Stage) : Prop :=
  (forall stage, In stage (snd outcome) -> provider stage = Rejected ->
                 fst outcome = Throw InferenceError)
  /\ (exists rest, (snd outcome ++ rest)%list = stages)
  /\ (forall a, fst outcome = Ok a -> snd outcome = stages).

(** The calls of a request that succeeds. *)
Definition stagesOf (req : Server.Request) : list Stage :=
  [Extraction; JobAnalysis; Tailoring]
    ++ (if Server.wantsCoverLetter req then [CoverLetter] else []).

(** The order in which [detectRegion] prefers the regions. *)
Definition priority (region : Region.Region) : nat :=
  match region with
  | Region.EU => 3
  | Region.UK => 2
  | Region.US => 1
  | Region.GLOBAL => 0
  end.

End Shapes.

(** ** More inputs for the examples *)

Module MoreExamples.

Import JS Pipeline Server Examples.

(** A CV for the contact line: no location, no nationality. *)
Definition contactCv : JValue :=
  JObj [("name", str "Jane Doe");
        ("contact", JObj [("email", str "jane@x.com"); ("phone", str "555-0100");
                          ("linkedin", JNull)]);
        ("visaStatus", str "EU Blue Card")].

Definition berlinJob : string :=
  "Product Manager" +:+ nl +:+ "Acme GmbH" +:+ nl
  +:+ "Join our office in Berlin. You know SQL and agile delivery.".




(** A provider whose job analysis call is rejected. *)
Definition jobRejected : Provider :=
  answering (Parsed janeFacts) Rejected (Parsed forgedCv) Unparsable.

(** The request of the WhatsApp bot: no cover letter. *)
Definition requestWithoutLetter : Request :=
  {| profile := None; cvTexts := janeCv; jobData := seniorPm;
     generateCoverLetter := Some false; userId := None |}.

(** A store with a session of two hours before [world] stores. *)
Definition oldStore : gmap string Session :=
  <["session-0" := storedAt (1000 - 7200000)]> ∅.

End MoreExamples.

(** * Properties *)

(** ** Strings *)

Lemma startsWith_spec (s t : string) :
  JSString.startsWith s t = true <-> exists post, s = t +:+ post.
Proof.
  revert s. induction t as [|b t IH]; intros s; simpl.
  - split; [intros _; exists s; reflexivity | reflexivity].
  - destruct s as [|a s]; simpl.
    + split; [discriminate | intros [post H]; discriminate].
    + rewrite andb_true_iff, Ascii.eqb_eq, IH. split.
      * intros [-> [post ->]]. exists post. reflexivity.
      * intros [post H]. injection H as -> ->. split; [reflexivity | eauto].
Qed.

(** [includes] is substring containment. *)
Lemma includes_spec (s t : string) :
  JSString.includes s t = true <-> exists pre post, s = pre +:+ t +:+ post.
Proof.
  induction s as [|a s IH]; simpl.
  - rewrite orb_false_r, startsWith_spec. split.
    + intros [post H]. exists EmptyString, post. exact H.
    + intros [pre [post H]]. destruct pre; simpl in H.
      * exists post. exact H.
      * discriminate.
  - rewrite orb_true_iff, startsWith_spec, IH. split.
    + intros [[post H] | [pre [post H]]].
      * exists EmptyString, post. exact H.
      * exists (String a pre), post. simpl. rewrite H. reflexivity.
    + intros [pre [post H]]. destruct pre as [|c pre]; simpl in H.
      * left. exists post. exact H.
      * right. injection H as _ H. exists pre, post. exact H.
Qed.

Lemma includes_refl (s : string) : JSString.includes s s = true.
Proof.
  assert (H : JSString.startsWith s s = true).
  { induction s as [|a s IH]; simpl; [reflexivity |].
    rewrite Ascii.eqb_refl. exact IH. }
  destruct s; simpl in *; [reflexivity | rewrite H; reflexivity].
Qed.

Lemma existsb_eqb_In (x : string) (l : list string) :
  existsb (String.eqb x) l = true <-> In x l.
Proof.
  rewrite existsb_exists. split.
  - intros [y [Hy Heq]]. apply String.eqb_eq in Heq. subst. exact Hy.
  - intros H. exists x. split; [exact H | apply String.eqb_refl].
Qed.

(** A [Set] holds exactly the items it was built from. *)
Lemma fold_setAdd_In (x : string) (l acc : list string) :
  In x (fold_left JS.setAdd l acc) <-> In x acc \/ In x l.
Proof.
  revert acc. induction l as [|y l IH]; intros acc; simpl.
  - tauto.
  - rewrite IH. unfold JS.setAdd.
    destruct (existsb (String.eqb y) acc) eqn:E.
    + apply existsb_eqb_In in E. split.
      * intros [H | H]; auto.
      * intros [H | [-> | H]]; auto.
    + rewrite in_app_iff. simpl. tauto.
Qed.

Lemma newSet_In (x : string) (l : list string) : In x (JS.newSet l) <-> In x l.
Proof. unfold JS.newSet. rewrite fold_setAdd_In. simpl. tauto. Qed.

(** ** RegionClassifier *)

(** The classification of a text follows the priority EU, UK, US, GLOBAL. *)
Lemma classify_priority (text : string) :
  Region.classify text =
    if Region.someIncluded Region.euCountries text then Region.EU
    else if Region.someIncluded Region.ukTerms text then Region.UK
    else if Region.someIncluded Region.usTerms text then Region.US
    else Region.GLOBAL.
Proof. reflexivity. Qed.

(** C8: the text that is classified is the job text alone whenever the job
    text is not empty, whatever the location; the location is looked at only
    when there is no job text. A posting whose text names no place and whose
    location is Berlin is classified GLOBAL, while the same location without
    a job text is classified EU. *)
Theorem detectRegion_location_dropped :
  (forall (a : ascii) (raw : string) (t c loc : option string),
      Region.detectRegion
        (Some {| Region.rawText := Some (String a raw); Region.title := t;
                 Region.company := c; Region.location := loc |})
      = Region.classify (JSString.toLowerCase (String a raw)))
  /\ Region.detectRegion (Examples.job (Some "Software engineer role") (Some "Berlin"))
     = Region.GLOBAL
  /\ Region.detectRegion (Examples.job None (Some "Berlin")) = Region.EU
  /\ Region.detectRegion (Examples.job (Some "") (Some "Berlin")) = Region.EU.
Proof.
  split; [intros; reflexivity |].
  repeat split; vm_compute; reflexivity.
Qed.

(** ** GapAnalyzer *)

Lemma skillMatches_spec (candidates : list string) (skill : string) :
  Gap.skillMatches candidates skill = true <->
  exists cs, In cs candidates /\
    (JSString.includes cs (JSString.toLowerCase skill) = true \/
     JSString.includes (JSString.toLowerCase skill) cs = true).
Proof.
  unfold Gap.skillMatches. rewrite orb_true_iff, existsb_eqb_In, existsb_exists.
  split.
  - intros [H | [cs [Hin H]]].
    + exists (JSString.toLowerCase skill). split; [exact H |].
      left. apply includes_refl.
    + exists cs. split; [exact Hin |]. apply orb_true_iff. exact H.
  - intros [cs [Hin H]]. right. exists cs. split; [exact Hin |].
    apply orb_true_iff. exact H.
Qed.

Lemma matches_candidateSkills (skills : list string) (skill : string) :
  Gap.skillMatches (Gap.candidateSkills skills) skill = true <->
  exists cs, In cs skills /\
    (JSString.includes (JSString.toLowerCase cs) (JSString.toLowerCase skill) = true \/
     JSString.includes (JSString.toLowerCase skill) (JSString.toLowerCase cs) = true).
Proof.
  rewrite skillMatches_spec. unfold Gap.candidateSkills. split.
  - intros [lc [Hin H]]. apply newSet_In, in_map_iff in Hin.
    destruct Hin as [cs [<- Hin]]. exists cs. auto.
  - intros [cs [Hin H]]. exists (JSString.toLowerCase cs). split; [| exact H].
    apply newSet_In, in_map_iff. exists cs. auto.
Qed.

(** C3: a required or preferred skill is matched if and only if some
    candidate skill, lowercased, contains the lowercased skill or is
    contained in it; with required skills SQL and Python and the candidate
    skill Advanced SQL, the matched skills are SQL alone and the percentage
    is 50. *)
Theorem skill_matching_bidirectional :
  (forall (skills required preferred : list string) (skill : string),
      (In skill (Gap.matchedRequired (Gap.compare skills required preferred)) <->
       In skill required /\
       exists cs, In cs skills /\
         (JSString.includes (JSString.toLowerCase cs) (JSString.toLowerCase skill) = true \/
          JSString.includes (JSString.toLowerCase skill) (JSString.toLowerCase cs) = true))
      /\
      (In skill (Gap.matchedPreferred (Gap.compare skills required preferred)) <->
       In skill preferred /\
       exists cs, In cs skills /\
         (JSString.includes (JSString.toLowerCase cs) (JSString.toLowerCase skill) = true \/
          JSString.includes (JSString.toLowerCase skill) (JSString.toLowerCase cs) = true)))
  /\ Gap.matchedRequired (Gap.compare ["Advanced SQL"] ["SQL"; "Python"] []) = ["SQL"]
  /\ Gap.matchPercentage (Gap.compare ["Advanced SQL"] ["SQL"; "Python"] [])
     = JS.Number_of_Z 50.
Proof.
  split.
  - intros skills required preferred skill. simpl.
    rewrite !filter_In, !matches_candidateSkills. tauto.
  - split; vm_compute; reflexivity.
Qed.

(** ** GenerationSessionStore *)

Section Sweep.

Import Server.

Variable old : Session -> bool.

(** The loop of [cleanupOldDocuments], started from any map: an entry of
    the map looped over is deleted when it is old, and nothing else
    changes. *)
Lemma sweep_loop_lookup (acc m : gmap string Session) (k : string) :
  map_fold (fun id doc docs => if old doc then delete id docs else docs) acc m !! k
  = match m !! k with
    | Some d => if old d then None else acc !! k
    | None => acc !! k
    end.
Proof.
  revert k.
  apply (map_fold_weak_ind (fun (r m' : gmap string Session) =>
    forall k, r !! k = match m' !! k with
                       | Some d => if old d then None else acc !! k
                       | None => acc !! k
                       end)).
  - intros k. rewrite lookup_empty. reflexivity.
  - intros i x m' r Hfresh IH k.
    destruct (decide (i = k)) as [-> | Hne].
    + rewrite lookup_insert_eq. specialize (IH k). rewrite Hfresh in IH.
      destruct (old x); [apply lookup_delete_eq | exact IH].
    + rewrite lookup_insert_ne by exact Hne.
      destruct (old x); [rewrite lookup_delete_ne by exact Hne |]; apply IH.
Qed.

End Sweep.

Lemma cleanup_lookup (now : Z) (docs : gmap string Server.Session) (id : string) :
  Server.cleanupOldDocuments now docs !! id
  = match docs !! id with
    | Some d => if Server.createdAt d <? now - 3600000 then None else Some d
    | None => None
    end.
Proof.
  unfold Server.cleanupOldDocuments.
  rewrite (sweep_loop_lookup (fun d => Server.createdAt d <? now - 60 * 60 * 1000)).
  change (60 * 60 * 1000) with 3600000.
  destruct (docs !! id) as [d|] eqn:E; [| reflexivity].
  destruct (Server.createdAt d <? now - 3600000); reflexivity.
Qed.

(** C9: a session stored at [t0] is gone after a sweep run later than
    [t0 + 3600000]; the sweep removes exactly the entries created more than
    3600000 ms before it runs and leaves the others as they are; a download
    for a session id that is not in the store answers 404. *)
Theorem session_store_sweep :
  (forall (docs : gmap string Server.Session) (id : string) (s : Server.Session) (now : Z),
      Server.createdAt s + 3600000 < now ->
      Server.cleanupOldDocuments now (<[id := s]> docs) !! id = None)
  /\ (forall (docs : gmap string Server.Session) (id : string) (s : Server.Session) (now : Z),
         docs !! id = Some s ->
         (Server.createdAt s < now - 3600000 ->
          Server.cleanupOldDocuments now docs !! id = None)
         /\ (now - 3600000 <= Server.createdAt s ->
             Server.cleanupOldDocuments now docs !! id = Some s))
  /\ (forall (docs : gmap string Server.Session) (id : string) (now : Z),
         docs !! id = None -> Server.cleanupOldDocuments now docs !! id = None)
  /\ (forall (docs : gmap string Server.Session) (id docType : string),
         docs !! id = None ->
         Server.download docs id docType
         = Server.Status404 "Documents not found or expired")
  /\ (forall (docs : gmap string Server.Session) (id docType : string)
            (s : Server.Session) (now : Z),
         Server.createdAt s + 3600000 < now ->
         Server.download (Server.cleanupOldDocuments now (<[id := s]> docs)) id docType
         = Server.Status404 "Documents not found or expired").
Proof.
  assert (Hgone : forall (docs : gmap string Server.Session) id s now,
             Server.createdAt s + 3600000 < now ->
             Server.cleanupOldDocuments now (<[id := s]> docs) !! id = None).
  { intros docs id s now Hlt. rewrite cleanup_lookup, lookup_insert_eq.
    destruct (Z.ltb_spec (Server.createdAt s) (now - 3600000)); [reflexivity | lia]. }
  split; [exact Hgone |].
  split.
  { intros docs id s now Hs. rewrite cleanup_lookup, Hs.
    destruct (Z.ltb_spec (Server.createdAt s) (now - 3600000)); split; intros;
      first [reflexivity | lia]. }
  split.
  { intros docs id now Hnone. rewrite cleanup_lookup, Hnone. reflexivity. }
  split.
  { intros docs id docType Hnone. unfold Server.download. rewrite Hnone. reflexivity. }
  intros docs id docType s now Hlt. unfold Server.download.
  rewrite (Hgone docs id s now Hlt). reflexivity.
Qed.

(** ** Objects *)

Import JS Pipeline.

Lemma lookup_assign_eq (k : string) (v : JValue) (props : list (string * JValue)) :
  lookup k (assign k v props) = v.
Proof.
  induction props as [|[k' v'] rest IH]; simpl.
  - rewrite String.eqb_refl. reflexivity.
  - destruct (String.eqb k k') eqn:E; simpl.
    + rewrite String.eqb_refl. reflexivity.
    + rewrite E. exact IH.
Qed.

Lemma lookup_assign_ne (k k' : string) (v : JValue) (props : list (string * JValue)) :
  k <> k' -> lookup k' (assign k v props) = lookup k' props.
Proof.
  intros Hne. induction props as [|[k0 v0] rest IH]; simpl.
  - destruct (String.eqb_spec k' k); [congruence | reflexivity].
  - destruct (String.eqb_spec k k0) as [-> | Hk]; simpl.
    + destruct (String.eqb_spec k' k0); [congruence | reflexivity].
    + destruct (String.eqb k' k0); [reflexivity | exact IH].
Qed.

Lemma isRecord_setOwn (o : JValue) (k : string) (v : JValue) :
  isRecord (setOwn o k v) = isRecord o.
Proof. destruct o; reflexivity. Qed.

Lemma prop_setOwn_eq (o : JValue) (k : string) (v : JValue) :
  isRecord o = true -> prop (setOwn o k v) k = v.
Proof. destruct o; simpl; try discriminate; intros _; apply lookup_assign_eq. Qed.

Lemma prop_setOwn_ne (o : JValue) (k k' : string) (v : JValue) :
  k <> k' -> prop (setOwn o k v) k' = prop o k'.
Proof.
  intros Hne. destruct o; simpl; try reflexivity; apply lookup_assign_ne; exact Hne.
Qed.

Lemma setProp_ok (target : JValue) (k : string) (v : JValue) :
  nullish target = false ->
  exists target', setProp target k v = Ok target'
    /\ isRecord target' = isRecord target
    /\ (isRecord target = true -> prop target' k = v)
    /\ (isRecord target = false -> target' = target)
    /\ (forall k', k <> k' -> prop target' k' = prop target k').
Proof.
  intros Hn. destruct target; simpl in *; try discriminate;
    eexists; (split; [reflexivity |]); (split; [reflexivity |]);
    (split; [first [discriminate | intros _; apply lookup_assign_eq] |]);
    (split; [first [discriminate | reflexivity] |]);
    intros k' Hne; first [reflexivity | apply lookup_assign_ne; exact Hne].
Qed.

Lemma setProp_nullish (target : JValue) (k : string) (v : JValue) :
  nullish target = true -> setProp target k v = Throw TypeError.
Proof. destruct target; simpl; try discriminate; reflexivity. Qed.

(** ** Reading the pipeline stage by stage *)

Lemma infer_unfold (provider : Provider) (stage : Stage) (log : list Stage) :
  infer provider stage log =
    match provider stage with
    | Rejected => (Throw InferenceError, (log ++ [stage])%list)
    | r => (Ok (parsedReply r), (log ++ [stage])%list)
    end.
Proof. unfold infer. destruct (provider stage); reflexivity. Qed.

Lemma extractFacts_unfold (provider : Provider) (profile : option Profile)
    (cvTexts : list CvText) (log : list Stage) :
  extractFacts provider profile cvTexts log =
    if insufficient (userProvidedData profile cvTexts)
    then (Throw InsufficientDataError, log)
    else match provider Extraction with
         | Rejected => (Throw InferenceError, (log ++ [Extraction])%list)
         | Unparsable => (Throw ExtractionParseError, (log ++ [Extraction])%list)
         | Parsed props =>
             match postProcessEducation (JObj props) with
             | Throw e => (Throw e, (log ++ [Extraction])%list)
             | Ok extracted =>
                 if nameMissing (prop extracted "name")
                 then (Throw NameMissingError, (log ++ [Extraction])%list)
                 else (Ok extracted, (log ++ [Extraction])%list)
             end
         end.
Proof.
  unfold extractFacts, seq, lift, ret, checkSufficient, infer, validateName.
  destruct (insufficient _); [reflexivity |].
  destruct (provider Extraction); simpl; try reflexivity.
  destruct (postProcessEducation _); [| reflexivity].
  destruct (nameMissing _); reflexivity.
Qed.

Lemma tailor_unfold (provider : Provider) (extracted : JValue) (log : list Stage) :
  tailor provider extracted log =
    match provider Tailoring with
    | Rejected => (Throw InferenceError, (log ++ [Tailoring])%list)
    | r => (finalValidation extracted (parseTailoring extracted (parsedReply r)),
            (log ++ [Tailoring])%list)
    end.
Proof.
  unfold tailor, seq, lift, infer. destruct (provider Tailoring); reflexivity.
Qed.

Lemma generateCV_unfold (provider : Provider) (profile : option Profile)
    (cvTexts : list CvText) (jobData : option Region.JobData) (region : Region.Region)
    (log : list Stage) :
  generateCVWithClaude provider profile cvTexts jobData region log =
    match extractFacts provider profile cvTexts log with
    | (Throw e, log1) => (Throw e, log1)
    | (Ok extracted, log1) =>
        match provider JobAnalysis with
        | Rejected => (Throw InferenceError, (log1 ++ [JobAnalysis])%list)
        | r =>
            let jobRequirements := parseJobRequirements (parsedReply r) in
            match gapAnalysis extracted jobRequirements with
            | Throw e => (Throw e, (log1 ++ [JobAnalysis])%list)
            | Ok gap =>
                match tailor provider extracted (log1 ++ [JobAnalysis])%list with
                | (Throw e, log3) => (Throw e, log3)
                | (Ok cv, log3) =>
                    match summarize extracted jobRequirements gap with
                    | Throw e => (Throw e, log3)
                    | Ok summary =>
                        (Ok {| cvContent := cv; analysisSummary := summary;
                               extractedData := extracted |}, log3)
                    end
                end
            end
        end
    end.
Proof.
  unfold generateCVWithClaude, seq at 1.
  destruct (extractFacts provider profile cvTexts log) as [[extracted | e] log1];
    [| reflexivity].
  unfold analyzeJob, seq, lift, ret, infer.
  destruct (provider JobAnalysis); try reflexivity; simpl;
    destruct (gapAnalysis _ _); try reflexivity;
    destruct (tailor provider extracted _) as [[cv | e] log3]; try reflexivity;
    destruct (summarize _ _ _); reflexivity.
Qed.

(** ** The errors of the later steps are type errors *)

Lemma mapM_throw {A B : Type} (f : A -> Result B) (l : list A) (e : Error) :
  mapM f l = Throw e -> exists x, In x l /\ f x = Throw e.
Proof.
  induction l as [|x rest IH]; simpl; [discriminate |].
  destruct (f x) as [y | e'] eqn:Ex; simpl.
  - destruct (mapM f rest) as [ys | e'']; simpl; [discriminate |].
    intros H. injection H as ->. destruct (IH eq_refl) as [x' [Hin Hx']].
    exists x'. auto.
  - intros H. injection H as ->. exists x. auto.
Qed.

Lemma stringItems_throw (v : JValue) (e : Error) :
  stringItems v = Throw e -> e = TypeError.
Proof.
  unfold stringItems. destruct (orJS v _); try (intros H; congruence).
  intros H. apply mapM_throw in H. destruct H as [x [_ Hx]].
  destruct x; simpl in Hx; congruence.
Qed.

Lemma gapAnalysis_throw (extracted jobRequirements : JValue) (e : Error) :
  gapAnalysis extracted jobRequirements = Throw e -> e = TypeError.
Proof.
  unfold gapAnalysis.
  destruct (stringItems (prop extracted "skills")) eqn:E1; simpl;
    [| intros H; injection H as <-; eapply stringItems_throw; exact E1].
  destruct (stringItems (prop jobRequirements "requiredSkills")) eqn:E2; simpl;
    [| intros H; injection H as <-; eapply stringItems_throw; exact E2].
  destruct (stringItems (prop jobRequirements "preferredSkills")) eqn:E3; simpl;
    [discriminate | intros H; injection H as <-; eapply stringItems_throw; exact E3].
Qed.

Lemma postProcessEducation_throw (parsed : JValue) (e : Error) :
  postProcessEducation parsed = Throw e -> e = TypeError.
Proof.
  unfold postProcessEducation. destruct (truthy _); [| discriminate].
  destruct (prop parsed "education"); try (intros H; congruence).
  destruct (mapM cleanEducation items) eqn:E; simpl; [discriminate |].
  intros H. injection H as <-. apply mapM_throw in E. destruct E as [x [_ Hx]].
  unfold cleanEducation in Hx. destruct (nullish x); congruence.
Qed.

Lemma postProcessEducation_prop (parsed extracted : JValue) (k : string) :
  postProcessEducation parsed = Ok extracted ->
  k <> "education" -> prop extracted k = prop parsed k.
Proof.
  unfold postProcessEducation. destruct (truthy _).
  - destruct (prop parsed "education"); try discriminate.
    destruct (mapM cleanEducation items); simpl; [| discriminate].
    intros H Hne. injection H as <-. apply prop_setOwn_ne. congruence.
  - intros H _. injection H as <-. reflexivity.
Qed.

Lemma overwriteContact_throw (extracted : JValue) (k : string) (cv : JValue) (e : Error) :
  overwriteContact extracted k cv = Throw e -> e = TypeError.
Proof.
  unfold overwriteContact. destruct (truthy _); [| discriminate].
  destruct (prop cv "contact"); simpl; congruence.
Qed.

Lemma finalValidation_throw (extracted cv : JValue) (e : Error) :
  finalValidation extracted cv = Throw e -> e = TypeError.
Proof.
  unfold finalValidation.
  destruct (overwriteContact extracted "email" _) as [cv2|] eqn:E1; simpl;
    [| intros H; injection H as <-; eapply overwriteContact_throw; exact E1].
  destruct (overwriteContact extracted "phone" _) as [cv3|] eqn:E2; simpl;
    [| intros H; injection H as <-; eapply overwriteContact_throw; exact E2].
  destruct (overwriteContact extracted "linkedin" _) as [cv4|] eqn:E3; simpl;
    [discriminate | intros H; injection H as <-; eapply overwriteContact_throw; exact E3].
Qed.

Lemma summarize_throw (extracted jobRequirements : JValue) (gap : Gap.GapAnalysis)
    (e : Error) :
  summarize extracted jobRequirements gap = Throw e -> e = TypeError.
Proof.
  unfold summarize, topSkills. destruct (prop extracted "skills"); simpl; congruence.
Qed.

(** ** Blank input *)

Lemma trimEnd_blank (s : string) :
  JSString.trimEnd s = EmptyString <-> JSString.allWhiteSpace s = true.
Proof.
  induction s as [|c s IH]; simpl; [tauto |].
  destruct (JSString.trimEnd s) eqn:E.
  - destruct (JSString.isWhiteSpace c); simpl.
    + rewrite <- IH. tauto.
    + split; discriminate.
  - split; [discriminate |]. rewrite andb_true_iff. intros [_ H].
    apply IH in H. discriminate.
Qed.

Lemma allWhiteSpace_trimStart (s : string) :
  JSString.allWhiteSpace (JSString.trimStart s) = JSString.allWhiteSpace s.
Proof.
  induction s as [|c s IH]; simpl; [reflexivity |].
  destruct (JSString.isWhiteSpace c) eqn:E; simpl; [exact IH | rewrite E; reflexivity].
Qed.

(** [!s.trim()] holds exactly of the strings made of white space. *)
Lemma trim_blank (s : string) :
  JSString.trim s = EmptyString <-> JSString.allWhiteSpace s = true.
Proof. unfold JSString.trim. rewrite trimEnd_blank, allWhiteSpace_trimStart. tauto. Qed.

Lemma insufficient_spec (data : string) :
  insufficient data = true <->
  JSString.trim data = EmptyString \/ (String.length data < 100)%nat.
Proof.
  unfold insufficient. rewrite orb_true_iff, negb_true_iff, Z.ltb_lt.
  assert (H : JSString.nonEmpty (JSString.trim data) = false
              <-> JSString.trim data = EmptyString).
  { destruct (JSString.trim data); simpl; split; congruence. }
  rewrite H. split; (intros [H1 | H1]; [left; exact H1 | right; lia]).
Qed.

(** ** The handler around the pipeline *)

Lemma produce_throw (w : Server.World) (req : Server.Request) (e : Error)
    (log log1 : list Stage) :
  generateCVWithClaude (Server.provider w) (Server.profile req) (Server.cvTexts req)
    (Server.jobData req) (Region.detectRegion (Server.jobData req)) log = (Throw e, log1) ->
  Server.produce w req log = (Throw e, log1).
Proof. intros H. unfold Server.produce, seq at 1. rewrite H. reflexivity. Qed.

Lemma apiGenerate_failed (w : Server.World) (req : Server.Request)
    (generatedDocs : gmap string Server.Session) (e : Error) (log : list Stage) :
  Server.produce w req [] = (Throw e, log) ->
  Server.apiGenerate w req generatedDocs =
    {| Server.event := Server.Failed (message e);
       Server.docs := generatedDocs;
       Server.calls := log;
       Server.savedToDatabase := false |}.
Proof. intros H. unfold Server.apiGenerate. rewrite H. reflexivity. Qed.

(** ** FactExtractor *)

(** The log after the extraction step. *)
Lemma extractFacts_log (provider : Provider) (profile : option Profile)
    (cvTexts : list CvText) (extracted : JValue) (log1 : list Stage) :
  extractFacts provider profile cvTexts [] = (Ok extracted, log1) ->
  log1 = [Extraction].
Proof.
  rewrite extractFacts_unfold.
  destruct (insufficient _); [discriminate |].
  destruct (provider Extraction); try discriminate.
  destruct (postProcessEducation _); [| discriminate].
  destruct (nameMissing _); [discriminate |].
  intros H. injection H as _ <-. reflexivity.
Qed.

(** Splits the goal on the outcome of the next step of the pipeline. *)
Ltac next_step :=
  match goal with
  | |- context [gapAnalysis ?a ?b] =>
      let E := fresh "Egap" in
      destruct (gapAnalysis a b) eqn:E;
      [| apply gapAnalysis_throw in E; subst]
  | |- context [finalValidation ?a ?b] =>
      let E := fresh "Efin" in
      destruct (finalValidation a b) eqn:E;
      [| apply finalValidation_throw in E; subst]
  | |- context [summarize ?a ?b ?c] =>
      let E := fresh "Esum" in
      destruct (summarize a b c) eqn:E;
      [| apply summarize_throw in E; subst]
  end.

(** Once the name is validated the job analysis call is made, and a
    failure from there on is a type error or a rejected call. *)
Lemma generateCV_after_validation (provider : Provider) (profile : option Profile)
    (cvTexts : list CvText) (jobData : option Region.JobData) (region : Region.Region)
    (extracted : JValue) (log1 : list Stage) :
  extractFacts provider profile cvTexts [] = (Ok extracted, log1) ->
  log1 = [Extraction]
  /\ exists (r : Result Generated) (rest : list Stage),
       generateCVWithClaude provider profile cvTexts jobData region []
       = (r, Extraction :: JobAnalysis :: rest)
       /\ forall e, r = Throw e -> e = TypeError \/ e = InferenceError.
Proof.
  intros Hex. pose proof (extractFacts_log _ _ _ _ _ Hex) as ->.
  split; [reflexivity |].
  rewrite generateCV_unfold, Hex.
  assert (Hok : forall g : Generated, forall e, Ok g = Throw e ->
                  e = TypeError \/ e = InferenceError) by discriminate.
  assert (Hty : forall e, @Throw Generated TypeError = Throw e ->
                  e = TypeError \/ e = InferenceError)
    by (intros e H; injection H as <-; auto).
  assert (Hinf : forall e, @Throw Generated InferenceError = Throw e ->
                   e = TypeError \/ e = InferenceError)
    by (intros e H; injection H as <-; auto).
  destruct (provider JobAnalysis); cbv zeta;
    [eexists; eexists; split; [reflexivity | exact Hinf] | |].
  all: next_step; [| eexists; eexists; split; [reflexivity | exact Hty]].
  all: rewrite tailor_unfold.
  all: destruct (provider Tailoring);
         [eexists; eexists; split; [reflexivity | exact Hinf] | |].
  all: next_step; [| eexists; eexists; split; [reflexivity | exact Hty]].
  all: next_step; eexists; eexists; (split; [reflexivity |]);
         first [exact Hty | apply Hok].
Qed.

(** Where each failure of [generateCVWithClaude] comes from: the three
    errors thrown by name arise before the job analysis, with at most the
    extraction call made. *)
Lemma generateCV_failure_origin (provider : Provider) (profile : option Profile)
    (cvTexts : list CvText) (jobData : option Region.JobData) (region : Region.Region)
    (e : Error) (log : list Stage) :
  generateCVWithClaude provider profile cvTexts jobData region [] = (Throw e, log) ->
  match e with
  | InsufficientDataError =>
      log = [] /\ insufficient (userProvidedData profile cvTexts) = true
  | ExtractionParseError =>
      log = [Extraction] /\ insufficient (userProvidedData profile cvTexts) = false
      /\ provider Extraction = Unparsable
  | NameMissingError =>
      log = [Extraction] /\ insufficient (userProvidedData profile cvTexts) = false
      /\ exists props extracted,
           provider Extraction = Parsed props
           /\ postProcessEducation (JObj props) = Ok extracted
           /\ nameMissing (prop extracted "name") = true
  | TypeError | InferenceError => True
  | RenderError => False
  end.
Proof.
  intros Hrun.
  destruct (extractFacts provider profile cvTexts []) as [[extracted | e1] log1] eqn:Hex.
  - destruct (generateCV_after_validation provider profile cvTexts jobData region
                extracted log1 Hex) as [_ [r [rest [Hrun' Hr]]]].
    rewrite Hrun in Hrun'. injection Hrun' as <- _.
    destruct (Hr e eq_refl) as [-> | ->]; exact I.
  - rewrite generateCV_unfold, Hex in Hrun. injection Hrun as <- <-.
    rewrite extractFacts_unfold in Hex.
    destruct (insufficient _) eqn:Hsuff.
    { injection Hex as <- <-. auto. }
    destruct (provider Extraction) as [| | props] eqn:Hext.
    { injection Hex as <- <-. exact I. }
    { injection Hex as <- <-. auto. }
    destruct (postProcessEducation (JObj props)) as [extracted | e'] eqn:Epost.
    + destruct (nameMissing _) eqn:Hname; [| discriminate].
      injection Hex as <- <-. repeat split. exists props, extracted. auto.
    + injection Hex as <- <-. apply postProcessEducation_throw in Epost.
      subst. exact I.
Qed.

(** With enough input the extraction call is made. *)
Lemma generateCV_calls_extraction (provider : Provider) (profile : option Profile)
    (cvTexts : list CvText) (jobData : option Region.JobData) (region : Region.Region) :
  insufficient (userProvidedData profile cvTexts) = false ->
  exists (r : Result Generated) (rest : list Stage),
    generateCVWithClaude provider profile cvTexts jobData region []
    = (r, Extraction :: rest).
Proof.
  intros Hsuff.
  destruct (extractFacts provider profile cvTexts []) as [[extracted | e1] log1] eqn:Hex.
  - destruct (generateCV_after_validation provider profile cvTexts jobData region
                extracted log1 Hex) as [_ [r [rest [Hrun _]]]].
    eauto.
  - rewrite generateCV_unfold, Hex.
    rewrite extractFacts_unfold, Hsuff in Hex.
    destruct (provider Extraction); try (injection Hex as _ <-; eauto).
    destruct (postProcessEducation _); [| injection Hex as _ <-; eauto].
    destruct (nameMissing _); [injection Hex as _ <-; eauto | discriminate].
Qed.

(** C5: when the concatenated profile and CV text is blank or shorter than
    100 characters, the pipeline fails with InsufficientDataError before any
    inference call, and the request ends with that failure; otherwise the
    extraction call is made and the failure is not InsufficientDataError. *)
Theorem insufficient_data_aborts :
  forall (provider : Provider) (profile : option Profile) (cvTexts : list CvText)
         (jobData : option Region.JobData) (region : Region.Region),
    (JSString.trim (userProvidedData profile cvTexts) = EmptyString
     \/ (String.length (userProvidedData profile cvTexts) < 100)%nat ->
     generateCVWithClaude provider profile cvTexts jobData region []
     = (Throw InsufficientDataError, [])
     /\ forall (w : Server.World) (req : Server.Request)
               (generatedDocs : gmap string Server.Session),
          Server.provider w = provider -> Server.profile req = profile ->
          Server.cvTexts req = cvTexts ->
          Server.apiGenerate w req generatedDocs =
            {| Server.event := Server.Failed (message InsufficientDataError);
               Server.docs := generatedDocs;
               Server.calls := [];
               Server.savedToDatabase := false |})
    /\ (JSString.trim (userProvidedData profile cvTexts) <> EmptyString
        /\ (100 <= String.length (userProvidedData profile cvTexts))%nat ->
        exists (r : Result Generated) (rest : list Stage),
          generateCVWithClaude provider profile cvTexts jobData region []
          = (r, Extraction :: rest)
          /\ r <> Throw InsufficientDataError).
Proof.
  intros provider profile cvTexts jobData region. split.
  - intros Hshort. apply insufficient_spec in Hshort.
    assert (Hgen : forall jd rg,
               generateCVWithClaude provider profile cvTexts jd rg []
               = (Throw InsufficientDataError, [])).
    { intros jd rg. rewrite generateCV_unfold, extractFacts_unfold, Hshort.
      reflexivity. }
    split; [apply Hgen |].
    intros w req generatedDocs Hp Hprofile Hcv. apply apiGenerate_failed.
    apply produce_throw. rewrite Hp, Hprofile, Hcv. apply Hgen.
  - intros [Hnonblank Hlong].
    assert (Hsuff : insufficient (userProvidedData profile cvTexts) = false).
    { destruct (insufficient _) eqn:E; [| reflexivity].
      apply insufficient_spec in E. destruct E; [contradiction | lia]. }
    destruct (generateCV_calls_extraction provider profile cvTexts jobData region Hsuff)
      as [r [rest Hrun]].
    exists r, rest. split; [exact Hrun |].
    intros ->. apply generateCV_failure_origin in Hrun. destruct Hrun; discriminate.
Qed.

Lemma nameMissing_spec (name : JValue) :
  name = JUndefined \/ name = JNull \/ (exists s, name = JStr s) ->
  nameMissing name = true <->
  name = JUndefined \/ name = JNull \/ name = JStr "" \/ name = JStr "null".
Proof.
  intros [-> | [-> | [s ->]]]; simpl.
  - tauto.
  - tauto.
  - unfold nameMissing, strictEqStr. simpl. rewrite orb_true_iff, negb_true_iff.
    split.
    + intros [H | H].
      * destruct s; [auto | discriminate].
      * apply String.eqb_eq in H. subst. auto.
    + intros [H | [H | [H | H]]]; try discriminate; injection H as ->; auto.
Qed.



(** ** The final validation *)

Lemma overwriteContact_falsy (extracted : JValue) (k : string) (cv : JValue) :
  truthy (prop extracted k) = false -> overwriteContact extracted k cv = Ok cv.
Proof. intros H. unfold overwriteContact. rewrite H. reflexivity. Qed.


Lemma overwriteContact_spec (extracted : JValue) (k : string) (cv cv' : JValue) :
  isRecord cv = true ->
  overwriteContact extracted k cv = Ok cv' ->
  isRecord cv' = true
  /\ (forall k', k' <> "contact" -> prop cv' k' = prop cv k')
  /\ isRecord (prop cv' "contact") = isRecord (prop cv "contact")
  /\ nullish (prop cv' "contact") = nullish (prop cv "contact")
  /\ (forall k', k' <> k ->
        prop (prop cv' "contact") k' = prop (prop cv "contact") k')
  /\ (truthy (prop extracted k) = true ->
      nullish (prop cv "contact") = false
      /\ (isRecord (prop cv' "contact") = true ->
          prop (prop cv' "contact") k = prop extracted k)).
Proof.
  intros Hrec. unfold overwriteContact.
  destruct (truthy (prop extracted k)) eqn:Ht.
  - destruct (nullish (prop cv "contact")) eqn:Hn.
    { rewrite (setProp_nullish _ _ _ Hn). discriminate. }
    destruct (setProp_ok _ k (prop extracted k) Hn)
      as [c' [Hset [Hkind [Hval [Hsame Hother]]]]].
    rewrite Hset. simpl. intros H. injection H as <-.
    rewrite isRecord_setOwn, (prop_setOwn_eq _ _ _ Hrec).
    split; [exact Hrec |].
    split.
    { intros k' Hne. apply prop_setOwn_ne. congruence. }
    split; [exact Hkind |].
    split.
    { destruct (isRecord (prop cv "contact")) eqn:Hk.
      - destruct c'; simpl in *; congruence.
      - rewrite (Hsame eq_refl). exact Hn. }
    split.
    { intros k' Hne. apply Hother. congruence. }
    intros _. split; [reflexivity |]. intros Hr. apply Hval. congruence.
  - intros H. injection H as <-.
    split; [exact Hrec |]. split; [reflexivity |]. split; [reflexivity |].
    split; [reflexivity |]. split; [reflexivity |]. discriminate.
Qed.

(** What the six assignments establish when they all go through. *)
Lemma finalValidation_spec (extracted cv0 cv : JValue) :
  isRecord cv0 = true ->
  finalValidation extracted cv0 = Ok cv ->
  prop cv "name" = prop extracted "name"
  /\ isRecord (prop cv "contact") = isRecord (prop cv0 "contact")
  /\ (forall k, k = "email" \/ k = "phone" \/ k = "linkedin" ->
        truthy (prop extracted k) = true ->
        nullish (prop cv0 "contact") = false
        /\ (isRecord (prop cv "contact") = true ->
            prop (prop cv "contact") k = prop extracted k))
  /\ (truthy (prop extracted "education") = true ->
      prop cv "education" = prop extracted "education")
  /\ (truthy (prop extracted "languages") = true ->
      prop cv "languages" = prop extracted "languages").
Proof.
  intros Hrec0. unfold finalValidation.
  set (cv1 := setOwn cv0 "name" (prop extracted "name")).
  assert (Hrec1 : isRecord cv1 = true) by (unfold cv1; rewrite isRecord_setOwn; exact Hrec0).
  assert (Hname1 : prop cv1 "name" = prop extracted "name")
    by (apply prop_setOwn_eq; exact Hrec0).
  assert (Hc1 : prop cv1 "contact" = prop cv0 "contact")
    by (apply prop_setOwn_ne; discriminate).
  destruct (overwriteContact extracted "email" cv1) as [cv2|] eqn:E2; [| discriminate].
  destruct (overwriteContact_spec _ _ _ _ Hrec1 E2)
    as [Hrec2 [Hk2 [Hr2 [Hnull2 [Ho2 Hv2]]]]].
  simpl bind.
  destruct (overwriteContact extracted "phone" cv2) as [cv3|] eqn:E3; [| discriminate].
  destruct (overwriteContact_spec _ _ _ _ Hrec2 E3)
    as [Hrec3 [Hk3 [Hr3 [Hnull3 [Ho3 Hv3]]]]].
  simpl bind.
  destruct (overwriteContact extracted "linkedin" cv3) as [cv4|] eqn:E4; [| discriminate].
  destruct (overwriteContact_spec _ _ _ _ Hrec3 E4)
    as [Hrec4 [Hk4 [Hr4 [Hnull4 [Ho4 Hv4]]]]].
  simpl bind. cbv zeta. intros H. injection H as <-.
  set (cv5 := setOwn cv4 "education" _).
  assert (Hrec5 : isRecord cv5 = true) by (unfold cv5; rewrite isRecord_setOwn; exact Hrec4).
  assert (Hcontact : prop (setOwn cv5 "languages"
                       (orJS (prop extracted "languages") (prop cv5 "languages")))
                       "contact" = prop cv4 "contact").
  { rewrite prop_setOwn_ne by discriminate. unfold cv5.
    apply prop_setOwn_ne. discriminate. }
  assert (Hkind : isRecord (prop cv4 "contact") = isRecord (prop cv0 "contact"))
    by congruence.
  split.
  { rewrite prop_setOwn_ne by discriminate. unfold cv5.
    rewrite prop_setOwn_ne by discriminate.
    rewrite Hk4, Hk3, Hk2 by discriminate. exact Hname1. }
  rewrite Hcontact.
  split; [exact Hkind |].
  split.
  { intros k [-> | [-> | ->]] Ht.
    - destruct (Hv2 Ht) as [Hn Hval]. split; [congruence |].
      intros Hr. rewrite Ho4, Ho3 by discriminate. apply Hval. congruence.
    - destruct (Hv3 Ht) as [Hn Hval]. split; [congruence |].
      intros Hr. rewrite Ho4 by discriminate. apply Hval. congruence.
    - destruct (Hv4 Ht) as [Hn Hval]. split; [congruence |].
      intros Hr. apply Hval. exact Hr. }
  split.
  { intros Ht. rewrite prop_setOwn_ne by discriminate. unfold cv5.
    rewrite (prop_setOwn_eq _ _ _ Hrec4). unfold orJS. rewrite Ht. reflexivity. }
  intros Ht. rewrite (prop_setOwn_eq _ _ _ Hrec5). unfold orJS. rewrite Ht. reflexivity.
Qed.

(** The assignments go through when [contact] is there. *)
Lemma finalValidation_ok (extracted cv0 : JValue) :
  isRecord cv0 = true ->
  nullish (prop cv0 "contact") = false ->
  exists cv, finalValidation extracted cv0 = Ok cv.
Proof.
  intros Hrec0 Hn0. unfold finalValidation.
  set (cv1 := setOwn cv0 "name" (prop extracted "name")).
  assert (Hrec1 : isRecord cv1 = true) by (unfold cv1; rewrite isRecord_setOwn; exact Hrec0).
  assert (Hn1 : nullish (prop cv1 "contact") = false).
  { unfold cv1. rewrite prop_setOwn_ne by discriminate. exact Hn0. }
  assert (Hstep : forall k cv, isRecord cv = true -> nullish (prop cv "contact") = false ->
            exists cv', overwriteContact extracted k cv = Ok cv'
                        /\ isRecord cv' = true /\ nullish (prop cv' "contact") = false).
  { intros k cv Hrec Hn. unfold overwriteContact.
    destruct (truthy (prop extracted k)); [| eauto].
    destruct (setProp_ok _ k (prop extracted k) Hn) as [c' [Hset [Hkind [_ [Hsame _]]]]].
    rewrite Hset. simpl. eexists. split; [reflexivity |].
    rewrite isRecord_setOwn, (prop_setOwn_eq _ _ _ Hrec). split; [exact Hrec |].
    destruct (isRecord (prop cv "contact")) eqn:Hk.
    - destruct c'; simpl in *; congruence.
    - rewrite (Hsame eq_refl). exact Hn. }
  destruct (Hstep "email" cv1 Hrec1 Hn1) as [cv2 [E2 [Hrec2 Hn2]]].
  destruct (Hstep "phone" cv2 Hrec2 Hn2) as [cv3 [E3 [Hrec3 Hn3]]].
  destruct (Hstep "linkedin" cv3 Hrec3 Hn3) as [cv4 [E4 _]].
  rewrite E2. simpl. rewrite E3. simpl. rewrite E4. simpl. eauto.
Qed.


(** No contact field to write: the assignments go through even without a
    [contact]. *)
Lemma finalValidation_nothing_to_write (extracted cv0 : JValue) :
  truthy (prop extracted "email") = false ->
  truthy (prop extracted "phone") = false ->
  truthy (prop extracted "linkedin") = false ->
  exists cv, finalValidation extracted cv0 = Ok cv.
Proof.
  intros He Hp Hl. unfold finalValidation.
  rewrite (overwriteContact_falsy _ _ _ He). simpl bind.
  rewrite (overwriteContact_falsy _ _ _ Hp). simpl bind.
  rewrite (overwriteContact_falsy _ _ _ Hl). simpl bind. eauto.
Qed.

(** ** CvTailorer *)

Import Examples.

(** What a successful run of [generateCVWithClaude] went through. *)
Lemma generateCV_ok_inv (provider : Provider) (profile : option Profile)
    (cvTexts : list CvText) (jobData : option Region.JobData) (region : Region.Region)
    (r : Generated) (log : list Stage) :
  generateCVWithClaude provider profile cvTexts jobData region [] = (Ok r, log) ->
  extractFacts provider profile cvTexts [] = (Ok (extractedData r), [Extraction])
  /\ provider JobAnalysis <> Rejected
  /\ provider Tailoring <> Rejected
  /\ gapAnalysis (extractedData r)
       (parseJobRequirements (parsedReply (provider JobAnalysis)))
     = Ok (gapAnalysis_ (analysisSummary r))
  /\ finalValidation (extractedData r)
       (parseTailoring (extractedData r) (parsedReply (provider Tailoring)))
     = Ok (cvContent r)
  /\ log = [Extraction; JobAnalysis; Tailoring].
Proof.
  rewrite generateCV_unfold.
  destruct (extractFacts provider profile cvTexts []) as [[extracted | e] log1] eqn:Hex;
    [| discriminate].
  destruct (generateCV_after_validation provider profile cvTexts jobData region
              extracted log1 Hex) as [-> _].
  destruct (provider JobAnalysis) as [| |jprops] eqn:Hjob; [discriminate | |]; cbv zeta.
  all: match goal with
       | |- context [gapAnalysis ?a ?b] =>
           destruct (gapAnalysis a b) as [gap | e'] eqn:Egap
       end; [| discriminate].
  all: rewrite tailor_unfold.
  all: destruct (provider Tailoring) as [| |tprops] eqn:Htail; [discriminate | |].
  all: match goal with
       | |- context [finalValidation ?a ?b] =>
           destruct (finalValidation a b) as [cv | e'] eqn:Efin
       end; [| discriminate].
  all: match goal with
       | |- context [summarize ?a ?b ?c] =>
           destruct (summarize a b c) as [summary | e'] eqn:Esum
       end; [| discriminate].
  all: intros H; injection H as <- <-; simpl.
  all: unfold summarize in Esum; destruct (topSkills _); simpl in Esum; [| discriminate].
  all: injection Esum as <-; simpl.
  all: repeat split; first [discriminate | assumption | reflexivity].
Qed.

Lemma parseTailoring_record (extracted : JValue) (reply : option (list (string * JValue))) :
  isRecord (parseTailoring extracted reply) = true.
Proof. destruct reply; reflexivity. Qed.

(** C1, as the code has it: after a successful run the name of the CV is the
    extracted name; a contact field (email, phone, linkedin) that is truthy
    in the extracted profile, that is neither [null] nor empty, is the same
    in the contact of the CV when that contact is a record, which it always
    is on the fallback path; education and languages are the extracted ones
    when the extracted profile has them. This holds whatever the tailoring
    response contained. *)
Theorem identity_fields_overwritten :
  forall (provider : Provider) (profile : option Profile) (cvTexts : list CvText)
         (jobData : option Region.JobData) (region : Region.Region)
         (r : Generated) (log : list Stage),
    generateCVWithClaude provider profile cvTexts jobData region [] = (Ok r, log) ->
    prop (cvContent r) "name" = prop (extractedData r) "name"
    /\ (forall k, k = "email" \/ k = "phone" \/ k = "linkedin" ->
          truthy (prop (extractedData r) k) = true ->
          isRecord (prop (cvContent r) "contact") = true ->
          prop (prop (cvContent r) "contact") k = prop (extractedData r) k)
    /\ (truthy (prop (extractedData r) "education") = true ->
        prop (cvContent r) "education" = prop (extractedData r) "education")
    /\ (truthy (prop (extractedData r) "languages") = true ->
        prop (cvContent r) "languages" = prop (extractedData r) "languages")
    /\ (provider Tailoring = Unparsable ->
        isRecord (prop (cvContent r) "contact") = true).
Proof.
  intros provider profile cvTexts jobData region r log Hrun.
  destruct (generateCV_ok_inv _ _ _ _ _ _ _ Hrun) as [_ [_ [_ [_ [Hfin _]]]]].
  destruct (finalValidation_spec _ _ _ (parseTailoring_record _ _) Hfin)
    as [Hname [Hkind [Hcontact [Hedu Hlang]]]].
  split; [exact Hname |].
  split.
  { intros k Hk Ht Hrec. destruct (Hcontact k Hk Ht) as [_ H]. exact (H Hrec). }
  split; [exact Hedu |].
  split; [exact Hlang |].
  intros Hfallback. rewrite Hkind, Hfallback. reflexivity.
Qed.

(** The run of the example: the tailoring response names John Smith with
    another email, another degree and another language, and the CV comes out
    with Jane Doe's. *)
Lemma identity_fields_overwritten_witness :
  run faithful = (Ok (resultOf faithful), [Extraction; JobAnalysis; Tailoring])
  /\ lookup "name" forgedCv = JStr "John Smith"
  /\ prop (cvContent (resultOf faithful)) "name" = JStr "Jane Doe"
  /\ prop (prop (cvContent (resultOf faithful)) "contact") "email" = JStr "jane@x.com"
  /\ prop (cvContent (resultOf faithful)) "languages"
     = prop (extractedData (resultOf faithful)) "languages".
Proof.
  assert (Hrun : run faithful
                 = (Ok (resultOf faithful), [Extraction; JobAnalysis; Tailoring]))
    by (vm_compute; reflexivity).
  pose proof (identity_fields_overwritten faithful None janeCv seniorPm
                (Region.detectRegion seniorPm) (resultOf faithful)
                [Extraction; JobAnalysis; Tailoring] Hrun)
    as [Hname [Hcontact [_ [Hlang _]]]].
  split; [exact Hrun |].
  split; [reflexivity |].
  split; [rewrite Hname; reflexivity |].
  split.
  - rewrite (Hcontact "email") by (first [left; reflexivity | reflexivity]).
    reflexivity.
  - apply Hlang. reflexivity.
Defined.

(** C1, as stated, fails on three runs that succeed: an extracted email that
    is the empty string, which is not [null], leaves the email of the
    tailoring response in place; an extracted profile whose education and
    languages are [null] leaves those of the tailoring response in place; a
    tailoring response whose contact is a string keeps it, and the extracted
    email is not a field of it. *)
Lemma identity_fields_counterexample :
  (run emptyEmail = (Ok (resultOf emptyEmail), [Extraction; JobAnalysis; Tailoring])
   /\ prop (extractedData (resultOf emptyEmail)) "email" = JStr ""
   /\ prop (prop (cvContent (resultOf emptyEmail)) "contact") "email"
      = JStr "john@fake.com"
   /\ prop (extractedData (resultOf emptyEmail)) "languages" = JNull
   /\ prop (cvContent (resultOf emptyEmail)) "languages" = JArr [JStr "Klingon"] []
   /\ prop (extractedData (resultOf emptyEmail)) "education" = JNull
   /\ prop (cvContent (resultOf emptyEmail)) "education"
      <> prop (extractedData (resultOf emptyEmail)) "education")
  /\ (run stringContact
      = (Ok (resultOf stringContact), [Extraction; JobAnalysis; Tailoring])
      /\ prop (extractedData (resultOf stringContact)) "email" = JStr "jane@x.com"
      /\ prop (cvContent (resultOf stringContact)) "contact" = JStr "jane@x.com"
      /\ prop (prop (cvContent (resultOf stringContact)) "contact") "email"
         = JUndefined).
Proof.
  split.
  - repeat split; try (vm_compute; reflexivity). vm_compute. discriminate.
  - repeat split; vm_compute; reflexivity.
Qed.




(** ** JobRequirementAnalyzer *)







(** ** Propagation of failures *)

Lemma extractFacts_override (provider : Provider) (stage : Stage) (r : Reply)
    (profile : option Profile) (cvTexts : list CvText) (log : list Stage) :
  stage <> Extraction ->
  extractFacts (override provider stage r) profile cvTexts log
  = extractFacts provider profile cvTexts log.
Proof.
  intros Hne. rewrite !extractFacts_unfold.
  destruct stage; [contradiction | reflexivity ..].
Qed.

Lemma tailor_override (provider : Provider) (stage : Stage) (r : Reply)
    (extracted : JValue) (log : list Stage) :
  stage <> Tailoring ->
  tailor (override provider stage r) extracted log = tailor provider extracted log.
Proof.
  intros Hne. rewrite !tailor_unfold.
  destruct stage; [reflexivity | reflexivity | contradiction | reflexivity].
Qed.

(** An unparsable job analysis response is the response with three empty
    lists. *)
Lemma generateCV_job_fallback (provider : Provider) (profile : option Profile)
    (cvTexts : list CvText) (jobData : option Region.JobData) (region : Region.Region)
    (log : list Stage) :
  provider JobAnalysis = Unparsable ->
  generateCVWithClaude provider profile cvTexts jobData region log
  = generateCVWithClaude (override provider JobAnalysis (Parsed fallbackJobRequirements))
      profile cvTexts jobData region log.
Proof.
  intros Hjob. rewrite !generateCV_unfold.
  rewrite extractFacts_override by discriminate.
  destruct (extractFacts provider profile cvTexts log) as [[extracted | e] log1];
    [| reflexivity].
  rewrite Hjob. simpl override. cbv zeta. simpl parsedReply.
  simpl parseJobRequirements.
  rewrite tailor_override by discriminate. reflexivity.
Qed.

Lemma produce_withDatabase (w : Server.World) (b : bool) (req : Server.Request)
    (log : list Stage) :
  Server.produce (Server.withDatabase w b) req log = Server.produce w req log.
Proof. reflexivity. Qed.

(** C4, as the code has it: an error thrown during a request ends it with
    the message of the error and stores nothing; InsufficientDataError,
    ExtractionParseError and NameMissingError arise before the job analysis
    call, on too little input, on an unparsable extraction response and on
    a missing name; an unparsable job analysis response is the same as
    the response with empty lists; an unparsable tailoring response gives a
    CV; an unparsable cover letter response gives the fallback letter; and
    the outcome of saving to the database changes neither the final event
    nor the session store. *)
Theorem abort_policy :
  (forall (w : Server.World) (req : Server.Request)
          (generatedDocs : gmap string Server.Session) (e : Error) (log : list Stage),
      Server.produce w req [] = (Throw e, log) ->
      Server.event (Server.apiGenerate w req generatedDocs) = Server.Failed (message e)
      /\ Server.docs (Server.apiGenerate w req generatedDocs) = generatedDocs)
  /\ (forall (provider : Provider) (profile : option Profile) (cvTexts : list CvText)
             (jobData : option Region.JobData) (region : Region.Region)
             (e : Error) (log : list Stage),
         generateCVWithClaude provider profile cvTexts jobData region [] = (Throw e, log) ->
         e = InsufficientDataError \/ e = ExtractionParseError \/ e = NameMissingError ->
         log = [] \/ log = [Extraction])
  /\ (forall (provider : Provider) (profile : option Profile) (cvTexts : list CvText)
             (jobData : option Region.JobData) (region : Region.Region),
         (insufficient (userProvidedData profile cvTexts) = true ->
          generateCVWithClaude provider profile cvTexts jobData region []
          = (Throw InsufficientDataError, []))
         /\ (insufficient (userProvidedData profile cvTexts) = false ->
             provider Extraction = Unparsable ->
             generateCVWithClaude provider profile cvTexts jobData region []
             = (Throw ExtractionParseError, [Extraction]))
         /\ (forall (props : list (string * JValue)) (extracted : JValue),
               insufficient (userProvidedData profile cvTexts) = false ->
               provider Extraction = Parsed props ->
               postProcessEducation (JObj props) = Ok extracted ->
               nameMissing (prop extracted "name") = true ->
               generateCVWithClaude provider profile cvTexts jobData region []
               = (Throw NameMissingError, [Extraction])))
  /\ (forall (provider : Provider) (profile : option Profile) (cvTexts : list CvText)
             (jobData : option Region.JobData) (region : Region.Region)
             (log : list Stage),
         provider JobAnalysis = Unparsable ->
         generateCVWithClaude provider profile cvTexts jobData region log
         = generateCVWithClaude
             (override provider JobAnalysis (Parsed fallbackJobRequirements))
             profile cvTexts jobData region log)
  /\ (forall (provider : Provider) (extracted : JValue) (log : list Stage),
         provider Tailoring = Unparsable ->
         exists cv,
           finalValidation extracted (fallbackCvContent extracted) = Ok cv
           /\ tailor provider extracted log = (Ok cv, (log ++ [Tailoring])%list))
  /\ (forall (provider : Provider) (jobData : option Region.JobData)
             (extracted : JValue) (log : list Stage),
         provider CoverLetter = Unparsable ->
         coverPrompt extracted = Ok tt ->
         generateCoverLetterWithClaude provider jobData extracted log
         = (Ok (fallbackCoverLetter jobData), (log ++ [CoverLetter])%list))
  /\ (forall (w : Server.World) (succeeds : bool) (req : Server.Request)
             (generatedDocs : gmap string Server.Session),
         Server.event (Server.apiGenerate (Server.withDatabase w succeeds) req generatedDocs)
         = Server.event (Server.apiGenerate w req generatedDocs)
         /\ Server.docs (Server.apiGenerate (Server.withDatabase w succeeds) req generatedDocs)
            = Server.docs (Server.apiGenerate w req generatedDocs)).
Proof.
  split.
  { intros w req generatedDocs e log H.
    rewrite (apiGenerate_failed _ _ generatedDocs _ _ H). split; reflexivity. }
  split.
  { intros provider profile cvTexts jobData region e log H He.
    apply generateCV_failure_origin in H.
    destruct He as [-> | [-> | ->]]; destruct H as [H _]; auto. }
  split.
  { intros provider profile cvTexts jobData region. split; [| split].
    - intros Hsuff.
      rewrite generateCV_unfold, extractFacts_unfold, Hsuff. reflexivity.
    - intros Hsuff Hext.
      rewrite generateCV_unfold, extractFacts_unfold, Hsuff, Hext. reflexivity.
    - intros props extracted Hsuff Hext Hpost Hname.
      rewrite generateCV_unfold, extractFacts_unfold, Hsuff, Hext, Hpost, Hname.
      reflexivity. }
  split; [exact generateCV_job_fallback |].
  split.
  { intros provider extracted log Htail.
    destruct (finalValidation_ok extracted (fallbackCvContent extracted) eq_refl eq_refl)
      as [cv Hcv].
    exists cv. split; [exact Hcv |].
    rewrite tailor_unfold, Htail. simpl parsedReply. simpl parseTailoring.
    rewrite Hcv. reflexivity. }
  split.
  { intros provider jobData extracted log Hcover Hprompt.
    unfold generateCoverLetterWithClaude, seq, lift, ret, infer.
    rewrite Hprompt, Hcover. reflexivity. }
  intros w succeeds req generatedDocs. unfold Server.apiGenerate.
  rewrite produce_withDatabase.
  destruct (Server.produce w req []) as [[[[cvDoc letterDoc] summary] | e] log];
    split; reflexivity.
Qed.

(** A request whose job analysis, tailoring and cover letter responses are
    all unparsable, and whose database save fails, completes. *)
Lemma abort_policy_witness :
  Server.event (Server.apiGenerate (Server.withDatabase (world jobUnparsable) false)
                  request ∅)
  = Server.Complete "session-1" Region.GLOBAL
      {| jobTitle := JStr "Position"; jobCompany := JStr "Company";
         gapAnalysis_ := {| Gap.matchedRequired := [];
                            Gap.missingRequired := [];
                            Gap.matchedPreferred := [];
                            Gap.matchPercentage := Number_of_Z 70 |} |}
  /\ Server.savedToDatabase
       (Server.apiGenerate (Server.withDatabase (world jobUnparsable) false) request ∅)
     = false.
Proof.
  destruct abort_policy as [_ [_ [_ [_ [_ [_ Hdb]]]]]].
  destruct (Hdb (world jobUnparsable) false request ∅) as [Hevent _].
  split; [rewrite Hevent |]; vm_compute; reflexivity.
Defined.

(** C4, as stated, fails: an extraction response that cannot be parsed
    aborts the request with ExtractionParseError, which is neither
    InsufficientDataError nor NameMissingError. *)
Lemma extraction_parse_failure_aborts :
  run extractionUnparsable = (Throw ExtractionParseError, [Extraction])
  /\ Server.event (Server.apiGenerate (world extractionUnparsable) request ∅)
     = Server.Failed "Could not extract profile data. Please ensure your CV is readable."
  /\ ExtractionParseError <> InsufficientDataError
  /\ ExtractionParseError <> NameMissingError.
Proof.
  split; [vm_compute; reflexivity |].
  split; [vm_compute; reflexivity |].
  split; discriminate.
Qed.

(** ** Instances of the statements above *)

Lemma insufficient_data_aborts_witness :
  generateCVWithClaude faithful None [] seniorPm Region.UK []
  = (Throw InsufficientDataError, []).
Proof.
  apply (insufficient_data_aborts faithful None [] seniorPm Region.UK).
  right. vm_compute. lia.
Defined.



Lemma session_store_sweep_witness :
  Server.cleanupOldDocuments (1000 + 3601000) (<["session-1" := storedAt 1000]> ∅)
    !! "session-1" = None
  /\ Server.download
       (Server.cleanupOldDocuments (1000 + 3601000) (<["session-1" := storedAt 1000]> ∅))
       "session-1" "cv"
     = Server.Status404 "Documents not found or expired".
Proof.
  destruct session_store_sweep as [Hgone [_ [_ [_ Hget]]]].
  split.
  - apply Hgone. simpl. lia.
  - apply Hget. simpl. lia.
Defined.

(** ** Numbers: the rounding of binary64 arithmetic *)

(** The number of binary digits of a positive integer. *)
Lemma digits2_pos_bounds (p : positive) :
  2 ^ (Zpos (digits2_pos p) - 1) <= Zpos p < 2 ^ Zpos (digits2_pos p).
Proof.
  induction p as [p IH | p IH |]; simpl digits2_pos.
  - rewrite Pos2Z.inj_succ, Pos2Z.inj_xI.
    replace (Z.succ (Zpos (digits2_pos p)) - 1) with (Z.succ (Zpos (digits2_pos p) - 1)) by lia.
    rewrite !Z.pow_succ_r by lia.
    set (lo := 2 ^ (Zpos (digits2_pos p) - 1)) in *.
    set (hi := 2 ^ Zpos (digits2_pos p)) in *. clearbody lo hi. lia.
  - rewrite Pos2Z.inj_succ. change (Zpos p~0) with (2 * Zpos p).
    replace (Z.succ (Zpos (digits2_pos p)) - 1) with (Z.succ (Zpos (digits2_pos p) - 1)) by lia.
    rewrite !Z.pow_succ_r by lia.
    set (lo := 2 ^ (Zpos (digits2_pos p) - 1)) in *.
    set (hi := 2 ^ Zpos (digits2_pos p)) in *. clearbody lo hi. lia.
  - simpl. lia.
Qed.

(** A nonnegative integer below [2 ^ k] has at most [k] digits. *)
Lemma Zdigits2_le (m k : Z) : 0 <= m -> 0 <= k -> m < 2 ^ k -> Zdigits2 m <= k.
Proof.
  intros Hm Hk Hlt. destruct m as [|p|p]; simpl; [lia | | lia].
  destruct (Z_le_gt_dec (Zpos (digits2_pos p)) k) as [H | H]; [exact H |].
  pose proof (digits2_pos_bounds p) as [Hlo _].
  assert (2 ^ k <= 2 ^ (Zpos (digits2_pos p) - 1)) by (apply Z.pow_le_mono_r; lia).
  lia.
Qed.

Lemma digits2_pos_unique (p : positive) (d : Z) :
  2 ^ (d - 1) <= Zpos p < 2 ^ d -> Zpos (digits2_pos p) = d.
Proof.
  intros [Hlo Hhi]. pose proof (digits2_pos_bounds p) as [Hlo' Hhi'].
  assert (0 < d).
  { destruct (Z_lt_le_dec 0 d); [assumption |].
    assert (2 ^ d <= 2 ^ 0) by (apply Z.pow_le_mono_r; lia). simpl in *. lia. }
  destruct (Z.lt_trichotomy (Zpos (digits2_pos p)) d) as [H1 | [H1 | H1]]; [| exact H1 |].
  - assert (2 ^ Zpos (digits2_pos p) <= 2 ^ (d - 1)) by (apply Z.pow_le_mono_r; lia). lia.
  - assert (2 ^ d <= 2 ^ (Zpos (digits2_pos p) - 1)) by (apply Z.pow_le_mono_r; lia). lia.
Qed.

(** One step of the right shift halves the mantissa. *)
Lemma shr_1_m (mrs : shr_record) :
  0 <= shr_m mrs -> shr_m (shr_1 mrs) = shr_m mrs / 2.
Proof.
  destruct mrs as [m r s]. cbn [shr_m]. intros Hm.
  destruct m as [|[p|p|]|p]; cbn [shr_1 shr_m]; try lia; try reflexivity.
  - apply (Z.div_unique _ 2 _ 1); lia.
  - apply (Z.div_unique _ 2 _ 0); lia.
Qed.

Lemma iter_shr_1_m (p : positive) (mrs : shr_record) :
  0 <= shr_m mrs ->
  shr_m (SpecFloat.iter_pos shr_1 p mrs) = shr_m mrs / 2 ^ Zpos p.
Proof.
  revert mrs. induction p as [p IH | p IH |]; intros mrs Hm.
  - change (SpecFloat.iter_pos shr_1 p~1 mrs)
      with (SpecFloat.iter_pos shr_1 p (SpecFloat.iter_pos shr_1 p (shr_1 mrs))).
    assert (H1 : 0 <= shr_m (shr_1 mrs)) by (rewrite shr_1_m by exact Hm; apply Z.div_pos; lia).
    assert (H2 : 0 <= shr_m (SpecFloat.iter_pos shr_1 p (shr_1 mrs)))
      by (rewrite IH by exact H1; apply Z.div_pos; lia).
    rewrite IH by exact H2. rewrite IH by exact H1. rewrite shr_1_m by exact Hm.
    rewrite !Z.div_div by lia. f_equal.
    rewrite Pos2Z.inj_xI. replace (2 * Zpos p + 1) with (1 + Zpos p + Zpos p) by lia.
    rewrite !Z.pow_add_r by lia. lia.
  - change (SpecFloat.iter_pos shr_1 p~0 mrs)
      with (SpecFloat.iter_pos shr_1 p (SpecFloat.iter_pos shr_1 p mrs)).
    assert (H2 : 0 <= shr_m (SpecFloat.iter_pos shr_1 p mrs))
      by (rewrite IH by exact Hm; apply Z.div_pos; lia).
    rewrite IH by exact H2. rewrite IH by exact Hm.
    rewrite !Z.div_div by lia. f_equal.
    change (Zpos p~0) with (2 * Zpos p). replace (2 * Zpos p) with (Zpos p + Zpos p) by lia.
    rewrite !Z.pow_add_r by lia. lia.
  - change (SpecFloat.iter_pos shr_1 1 mrs) with (shr_1 mrs).
    rewrite shr_1_m by exact Hm. reflexivity.
Qed.

(** The right shift by [n] places, none when [n] is not positive. *)
Lemma shr_spec (mrs : shr_record) (e n : Z) :
  0 <= shr_m mrs ->
  shr_m (fst (shr mrs e n)) = shr_m mrs / 2 ^ Z.max n 0
  /\ snd (shr mrs e n) = e + Z.max n 0.
Proof.
  intros Hm. destruct n as [|p|p]; simpl.
  - rewrite Z.div_1_r. lia.
  - rewrite iter_shr_1_m by exact Hm. split; [reflexivity | lia].
  - rewrite Z.div_1_r. lia.
Qed.

Lemma shr_record_of_loc_m (m : Z) (l : location) : shr_m (shr_record_of_loc m l) = m.
Proof. destruct l as [|[| |]]; reflexivity. Qed.

Lemma shr_fexp_spec (m e : Z) (l : location) :
  0 <= m ->
  shr_m (fst (shr_fexp prec emax m e l))
  = m / 2 ^ Z.max (fexp prec emax (Zdigits2 m + e) - e) 0
  /\ snd (shr_fexp prec emax m e l)
     = e + Z.max (fexp prec emax (Zdigits2 m + e) - e) 0.
Proof.
  intros Hm. unfold shr_fexp.
  pose proof (shr_spec (shr_record_of_loc m l) e
                (fexp prec emax (Zdigits2 m + e) - e)) as H.
  rewrite shr_record_of_loc_m in H. apply H. exact Hm.
Qed.

Lemma round_nearest_even_bounds (m : Z) (l : location) :
  m <= round_nearest_even m l <= m + 1.
Proof.
  destruct l as [|[| |]]; simpl; try lia. destruct (Z.even m); lia.
Qed.

(** The exponent after a shift stays below [eb] when the mantissa is below
    [b * 2 ^ (eb - e)] for some [b] of at most 53 digits. *)
Lemma shifted_exponent_le (m e b eb : Z) :
  0 <= m -> 0 < b < 2 ^ 53 -> -1074 <= eb -> e <= eb ->
  m <= b * 2 ^ (eb - e) ->
  e + Z.max (fexp prec emax (Zdigits2 m + e) - e) 0 <= eb.
Proof.
  intros Hm Hb Heb He Hle.
  assert (Hpow : 0 < 2 ^ (eb - e)) by (apply Z.pow_pos_nonneg; lia).
  assert (Hlt : m < 2 ^ (53 + (eb - e))).
  { rewrite Z.pow_add_r by lia. nia. }
  pose proof (Zdigits2_le m (53 + (eb - e)) Hm ltac:(lia) Hlt) as Hd.
  unfold fexp, emin, prec, emax. lia.
Qed.

(** Rounding a nonnegative number that lies strictly below [b * 2 ^ eb],
    where [b] has at most 53 digits, gives a number no larger than
    [b * 2 ^ eb]. *)
Lemma binary_round_aux_le (mx ex : Z) (lx : location) (b eb : Z) :
  0 <= mx -> 0 < b < 2 ^ 53 -> -1074 <= eb <= 971 -> ex <= eb ->
  mx + 1 <= b * 2 ^ (eb - ex) ->
  binary_round_aux prec emax false mx ex lx = S754_zero false
  \/ exists m e,
       binary_round_aux prec emax false mx ex lx = S754_finite false m e
       /\ e <= eb /\ Zpos m <= b * 2 ^ (eb - e).
Proof.
  intros Hmx Hb Heb Hex Hlt. unfold binary_round_aux.
  destruct (shr_fexp_spec mx ex lx Hmx) as [Hm1 He1].
  destruct (shr_fexp prec emax mx ex lx) as [mrs1 e1]. simpl in Hm1, He1.
  set (k1 := Z.max (fexp prec emax (Zdigits2 mx + ex) - ex) 0) in *.
  assert (Hk1 : 0 <= k1) by (unfold k1; lia).
  assert (He1le : e1 <= eb).
  { rewrite He1. apply (shifted_exponent_le mx ex b eb); lia. }
  assert (Hm1nn : 0 <= shr_m mrs1) by (rewrite Hm1; apply Z.div_pos; lia).
  assert (Hm1lt : shr_m mrs1 + 1 <= b * 2 ^ (eb - e1)).
  { assert (shr_m mrs1 < b * 2 ^ (eb - e1)); [| lia].
    rewrite Hm1. apply Z.div_lt_upper_bound; [lia |].
    replace (eb - ex) with (k1 + (eb - e1)) in Hlt by lia.
    rewrite Z.pow_add_r in Hlt by lia. nia. }
  set (m2 := round_nearest_even (shr_m mrs1) (loc_of_shr_record mrs1)).
  pose proof (round_nearest_even_bounds (shr_m mrs1) (loc_of_shr_record mrs1)) as Hm2.
  fold m2 in Hm2.
  assert (Hm2nn : 0 <= m2) by lia.
  destruct (shr_fexp_spec m2 e1 loc_Exact Hm2nn) as [Hm3 He3].
  destruct (shr_fexp prec emax m2 e1 loc_Exact) as [mrs3 e3]. simpl in Hm3, He3.
  set (k2 := Z.max (fexp prec emax (Zdigits2 m2 + e1) - e1) 0) in *.
  assert (Hk2 : 0 <= k2) by (unfold k2; lia).
  assert (He3le : e3 <= eb).
  { rewrite He3. apply (shifted_exponent_le m2 e1 b eb); lia. }
  assert (Hm3le : shr_m mrs3 <= b * 2 ^ (eb - e3)).
  { rewrite Hm3.
    assert (Hp : 0 < 2 ^ k2) by (apply Z.pow_pos_nonneg; lia).
    apply Z.div_le_upper_bound; [exact Hp |].
    replace (eb - e1) with (k2 + (eb - e3)) in Hm1lt by lia.
    rewrite Z.pow_add_r in Hm1lt by lia. nia. }
  assert (Hm3nn : 0 <= shr_m mrs3) by (rewrite Hm3; apply Z.div_pos; lia).
  destruct (shr_m mrs3) as [|m|m]; [left; reflexivity | | lia].
  right. exists m, e3.
  assert (Hleb : (e3 <=? emax - prec) = true) by (apply Z.leb_le; unfold emax, prec; lia).
  rewrite Hleb. auto.
Qed.


(** A mantissa of 53 digits needs no rounding. *)
Lemma binary_round_aux_exact (m : positive) (e : Z) :
  2 ^ 52 <= Zpos m < 2 ^ 53 -> -1074 <= e <= 971 ->
  binary_round_aux prec emax false (Zpos m) e loc_Exact = S754_finite false m e.
Proof.
  intros Hm He.
  assert (Hd : Zpos (digits2_pos m) = 53) by (apply digits2_pos_unique; exact Hm).
  assert (Hshift : fexp prec emax (Zdigits2 (Zpos m) + e) - e = 0).
  { simpl Zdigits2. rewrite Hd. unfold fexp, emin, prec, emax. lia. }
  unfold binary_round_aux, shr_fexp. rewrite Hshift. cbn.
  simpl Zdigits2 in Hshift. rewrite Hshift. cbn.
  assert (Hleb : (e <=? emax - prec) = true) by (apply Z.leb_le; unfold emax, prec; lia).
  rewrite Hleb. reflexivity.
Qed.

Lemma iter_xO_pow (p k : positive) : Zpos (Pos.iter xO p k) = Zpos p * 2 ^ Zpos k.
Proof.
  rewrite (Pos.iter_swap_gen _ _ Zpos xO (Z.mul 2)) by reflexivity.
  induction k as [|k IH] using Pos.peano_ind.
  - simpl. lia.
  - rewrite Pos.iter_succ, IH, Pos2Z.inj_succ, Z.pow_succ_r by lia. lia.
Qed.

(** A positive integer below [2 ^ 53] is a number, with a mantissa of 53
    digits. *)
Lemma Number_of_Z_pos (n : Z) :
  0 < n < 2 ^ 53 ->
  exists mx ex,
    Number_of_Z n = S754_finite false mx ex
    /\ Zpos mx = n * 2 ^ (- ex)
    /\ -52 <= ex <= 0
    /\ 2 ^ 52 <= Zpos mx < 2 ^ 53.
Proof.
  intros [Hpos Hlt]. destruct n as [|p|p]; try lia.
  pose proof (digits2_pos_bounds p) as [Hlo Hhi].
  assert (Hd : Zpos (digits2_pos p) <= 53).
  { apply (Zdigits2_le (Zpos p) 53); lia. }
  unfold Number_of_Z, binary_normalize, binary_round.
  assert (Hfexp : fexp prec emax (Zpos (digits2_pos p) + 0) = Zpos (digits2_pos p) - 53).
  { unfold fexp, emin, prec, emax. lia. }
  rewrite Hfexp. unfold shl_align.
  destruct (Zpos (digits2_pos p) - 53 - 0) as [|k|k] eqn:Hk; try lia.
  - assert (Hd53 : Zpos (digits2_pos p) = 53) by lia.
    rewrite Hd53 in Hlo. simpl in Hlo.
    exists p, 0. rewrite binary_round_aux_exact by (simpl; lia).
    simpl. repeat split; lia.
  - assert (Hkd : Zpos k = 53 - Zpos (digits2_pos p)) by lia.
    assert (Hm : Zpos (Pos.iter xO p k) = Zpos p * 2 ^ Zpos k) by apply iter_xO_pow.
    assert (Hrange : 2 ^ 52 <= Zpos (Pos.iter xO p k) < 2 ^ 53).
    { rewrite Hm.
      replace (2 ^ 52) with (2 ^ ((Zpos (digits2_pos p) - 1) + Zpos k))
        by (f_equal; lia).
      replace (2 ^ 53) with (2 ^ (Zpos (digits2_pos p) + Zpos k))
        by (f_equal; lia).
      rewrite !Z.pow_add_r by lia.
      assert (0 < 2 ^ Zpos k) by (apply Z.pow_pos_nonneg; lia). nia. }
    exists (Pos.iter xO p k), (Zpos (digits2_pos p) - 53).
    rewrite binary_round_aux_exact by (try exact Hrange; lia).
    split; [reflexivity |]. split; [| split; [lia | exact Hrange]].
    rewrite Hm. f_equal. f_equal. lia.
Qed.

Lemma new_location_zero (nb : Z) : new_location nb 0 = loc_Exact.
Proof.
  unfold new_location, new_location_even, new_location_odd.
  destruct (Z.even nb); reflexivity.
Qed.

(** The quotient of two mantissas of 53 digits, before rounding. *)
Lemma SFdiv_core_binary_53 (mx my : positive) (ex ey : Z) :
  2 ^ 52 <= Zpos mx < 2 ^ 53 -> 2 ^ 52 <= Zpos my < 2 ^ 53 ->
  -52 <= ex <= 0 -> -52 <= ey <= 0 ->
  SFdiv_core_binary prec emax (Zpos mx) ex (Zpos my) ey
  = (Zpos mx * 2 ^ 53 / Zpos my, ex - ey - 53,
     new_location (Zpos my) ((Zpos mx * 2 ^ 53) mod Zpos my)).
Proof.
  intros Hmx Hmy Hex Hey. unfold SFdiv_core_binary. simpl Zdigits2.
  rewrite (digits2_pos_unique mx 53 Hmx), (digits2_pos_unique my 53 Hmy).
  assert (He : Z.min (fexp prec emax (53 + ex - (53 + ey))) (ex - ey) = ex - ey - 53).
  { unfold fexp, emin, prec, emax. lia. }
  rewrite He.
  replace (ex - ey - (ex - ey - 53)) with 53 by lia.
  rewrite Z.shiftl_mul_pow2 by lia.
  unfold Z.div, Z.modulo.
  destruct (Z.div_eucl (Zpos mx * 2 ^ 53) (Zpos my)) as [q r]. reflexivity.
Qed.

(** The quotient of a number by a larger one is at most one. *)
Lemma fdiv_lt_one (mx my : positive) (ex ey : Z) :
  2 ^ 52 <= Zpos mx < 2 ^ 53 -> 2 ^ 52 <= Zpos my < 2 ^ 53 ->
  -52 <= ex <= 0 -> -52 <= ey <= 0 ->
  Zpos mx * 2 ^ (- ey) < Zpos my * 2 ^ (- ex) ->
  fdiv (S754_finite false mx ex) (S754_finite false my ey) = S754_zero false
  \/ exists m e,
       fdiv (S754_finite false mx ex) (S754_finite false my ey) = S754_finite false m e
       /\ e <= 0 /\ Zpos m <= 2 ^ (- e).
Proof.
  intros Hmx Hmy Hex Hey Hlt. unfold fdiv, SFdiv.
  rewrite (SFdiv_core_binary_53 mx my ex ey Hmx Hmy Hex Hey). simpl xorb.
  destruct (binary_round_aux_le (Zpos mx * 2 ^ 53 / Zpos my) (ex - ey - 53)
              (new_location (Zpos my) ((Zpos mx * 2 ^ 53) mod Zpos my)) 1 0)
    as [H | [m [e [H [He Hm]]]]].
  - apply Z.div_pos; lia.
  - simpl. lia.
  - lia.
  - lia.
  - assert (Zpos mx * 2 ^ 53 / Zpos my < 2 ^ (0 - (ex - ey - 53))); [| lia].
    apply Z.div_lt_upper_bound; [lia |].
    assert (E1 : 2 ^ 53 = 2 ^ (- ey) * 2 ^ (53 + ey))
      by (rewrite <- Z.pow_add_r by lia; f_equal; lia).
    assert (E2 : 2 ^ (0 - (ex - ey - 53)) = 2 ^ (- ex) * 2 ^ (53 + ey))
      by (rewrite <- Z.pow_add_r by lia; f_equal; lia).
    rewrite E1, E2.
    assert (0 < 2 ^ (53 + ey)) by (apply Z.pow_pos_nonneg; lia). nia.
  - left. exact H.
  - right. exists m, e. split; [exact H |]. split; [exact He |].
    rewrite Z.mul_1_l in Hm. exact Hm.
Qed.

(** The quotient of a number by itself is one. *)
Lemma fdiv_same (mx : positive) (ex : Z) :
  2 ^ 52 <= Zpos mx < 2 ^ 53 -> -52 <= ex <= 0 ->
  fdiv (S754_finite false mx ex) (S754_finite false mx ex)
  = S754_finite false 4503599627370496 (-52).
Proof.
  intros Hmx Hex. unfold fdiv, SFdiv.
  rewrite (SFdiv_core_binary_53 mx mx ex ex Hmx Hmx Hex Hex).
  rewrite Z.mul_comm, Z_div_mult, Z_mod_mult by lia.
  rewrite new_location_zero. replace (ex - ex - 53) with (-53) by lia.
  vm_compute. reflexivity.
Qed.

(** A hundred times a number that is at most one stays below 100.25. *)
Lemma fmul_hundred_le (m : positive) (e : Z) :
  e <= 0 -> Zpos m <= 2 ^ (- e) ->
  fmul (S754_finite false m e) (Number_of_Z 100) = S754_zero false
  \/ exists mp ep,
       fmul (S754_finite false m e) (Number_of_Z 100) = S754_finite false mp ep
       /\ ep <= -2 /\ Zpos mp <= 401 * 2 ^ (-2 - ep).
Proof.
  intros He Hm.
  change (Number_of_Z 100) with (S754_finite false 7036874417766400 (-46)).
  unfold fmul, SFmul. simpl xorb.
  apply binary_round_aux_le.
  - lia.
  - simpl. lia.
  - lia.
  - lia.
  - rewrite Pos2Z.inj_mul.
    replace (-2 - (e + -46)) with ((- e) + 44) by lia.
    rewrite Z.pow_add_r by lia.
    assert (0 < 2 ^ (- e)) by (apply Z.pow_pos_nonneg; lia).
    change (Zpos 7036874417766400) with (400 * 2 ^ 44).
    change (2 ^ 44) with 17592186044416. nia.
Qed.

(** Rounding a number between 0 and 100.25 gives an integer between 0 and
    100. *)
Lemma Math_round_le (mp : positive) (ep : Z) :
  ep <= -2 -> Zpos mp <= 401 * 2 ^ (-2 - ep) ->
  exists k, 0 <= k <= 100 /\ Math_round (S754_finite false mp ep) = Number_of_Z k.
Proof.
  intros Hep Hmp. unfold Math_round.
  assert (Hneg : (0 <=? ep) = false) by (apply Z.leb_gt; lia).
  rewrite Hneg. simpl cond_Zopp.
  exists ((2 * Zpos mp + 2 ^ (- ep)) / 2 ^ (1 - ep)).
  split; [| reflexivity].
  replace (- ep) with (2 + (-2 - ep)) by lia.
  replace (1 - ep) with (3 + (-2 - ep)) by lia.
  rewrite !Z.pow_add_r by lia.
  assert (Hp : 0 < 2 ^ (-2 - ep)) by (apply Z.pow_pos_nonneg; lia).
  change (2 ^ 2) with 4. change (2 ^ 3) with 8.
  split.
  - apply Z.div_pos; nia.
  - assert ((2 * Zpos mp + 4 * 2 ^ (-2 - ep)) / (8 * 2 ^ (-2 - ep)) < 101); [| lia].
    apply Z.div_lt_upper_bound; nia.
Qed.

(** [Math.round(m / n * 100)] for integers [0 <= m <= n], [0 < n]. *)
Lemma round_percentage (m n : Z) :
  0 <= m <= n -> 0 < n < 2 ^ 53 ->
  exists k, 0 <= k <= 100
    /\ Math_round (fmul (fdiv (Number_of_Z m) (Number_of_Z n)) (Number_of_Z 100))
       = Number_of_Z k.
Proof.
  intros Hm Hn.
  destruct (Number_of_Z_pos n Hn) as [my [ey [Hy [Hmy [Hey Hry]]]]].
  destruct (Z.eq_dec m 0) as [-> | Hm0].
  { exists 0. split; [lia |]. rewrite Hy. reflexivity. }
  destruct (Z.eq_dec m n) as [-> | Hmn].
  { exists 100. split; [lia |]. rewrite Hy, (fdiv_same my ey Hry Hey).
    vm_compute. reflexivity. }
  destruct (Number_of_Z_pos m ltac:(lia)) as [mx [ex [Hx [Hmx [Hex Hrx]]]]].
  rewrite Hx, Hy.
  assert (Hlt : Zpos mx * 2 ^ (- ey) < Zpos my * 2 ^ (- ex)).
  { rewrite Hmx, Hmy.
    assert (0 < 2 ^ (- ex)) by (apply Z.pow_pos_nonneg; lia).
    assert (0 < 2 ^ (- ey)) by (apply Z.pow_pos_nonneg; lia). nia. }
  destruct (fdiv_lt_one mx my ex ey Hrx Hry Hex Hey Hlt) as [-> | [mq [eq [-> [Heq Hmq]]]]].
  { exists 0. split; [lia | reflexivity]. }
  destruct (fmul_hundred_le mq eq Heq Hmq) as [-> | [mp [ep [-> [Hep Hmp]]]]].
  { exists 0. split; [lia | reflexivity]. }
  apply Math_round_le; assumption.
Qed.

(** ** The match percentage *)

Lemma gapAnalysis_compare (extracted jobRequirements : JValue) (gap : Gap.GapAnalysis) :
  gapAnalysis extracted jobRequirements = Ok gap ->
  exists skills requiredSkills preferredSkills,
    stringItems (prop extracted "skills") = Ok skills
    /\ stringItems (prop jobRequirements "requiredSkills") = Ok requiredSkills
    /\ stringItems (prop jobRequirements "preferredSkills") = Ok preferredSkills
    /\ gap = Gap.compare skills requiredSkills preferredSkills.
Proof.
  unfold gapAnalysis.
  destruct (stringItems (prop extracted "skills")) as [skills |]; [| discriminate].
  destruct (stringItems (prop jobRequirements "requiredSkills")) as [required |];
    [| discriminate].
  destruct (stringItems (prop jobRequirements "preferredSkills")) as [preferred |];
    [| discriminate].
  simpl. intros H. injection H as <-. exists skills, required, preferred. auto.
Qed.

Lemma filter_length_le_Z {A : Type} (f : A -> bool) (l : list A) :
  0 <= Z.of_nat (length (List.filter f l)) <= Z.of_nat (length l).
Proof.
  induction l as [|x l IH]; simpl; [lia |].
  destruct (f x); simpl; lia.
Qed.

(** C2: for skill lists of a length an array can have, the match
    percentage is an integer between 0 and 100; it is
    [Math.round(matched / required * 100)] when there are required skills,
    and 70 when there are none, whatever the skills of the profile. *)
Theorem match_percentage_range :
  forall (skills requiredSkills preferredSkills : list string),
    Z.of_nat (length requiredSkills) < 2 ^ 32 ->
    (exists k, 0 <= k <= 100
       /\ Gap.matchPercentage (Gap.compare skills requiredSkills preferredSkills)
          = Number_of_Z k)
    /\ (requiredSkills <> [] ->
        Gap.matchPercentage (Gap.compare skills requiredSkills preferredSkills)
        = Math_round
            (fmul (fdiv (Number_of_Z
                           (Z.of_nat
                              (length (Gap.matchedRequired
                                         (Gap.compare skills requiredSkills
                                            preferredSkills)))))
                        (Number_of_Z (Z.of_nat (length requiredSkills))))
                  (Number_of_Z 100)))
    /\ (requiredSkills = [] ->
        Gap.matchPercentage (Gap.compare skills requiredSkills preferredSkills)
        = Number_of_Z 70).
Proof.
  intros skills requiredSkills preferredSkills Hlen. simpl.
  unfold Gap.matchPercent.
  destruct requiredSkills as [|skill rest].
  - split; [exists 70; split; [lia | reflexivity] |].
    split; [intros H; contradiction | reflexivity].
  - assert (Hpos : (0 <? Z.of_nat (length (skill :: rest))) = true)
      by (apply Z.ltb_lt; simpl length; lia).
    rewrite Hpos.
    split; [| split; [reflexivity | discriminate]].
    apply round_percentage.
    + apply filter_length_le_Z.
    + assert (2 ^ 32 < 2 ^ 53) by reflexivity. simpl length in *. lia.
Qed.

(** The scenario of the specification: two of three required skills are
    matched and the percentage is 67. *)
Lemma match_percentage_range_witness :
  (exists k, 0 <= k <= 100
     /\ Gap.matchPercentage
          (Gap.compare ["Agile"; "SQL"] ["Agile"; "SQL"; "Roadmapping"] [])
        = Number_of_Z k)
  /\ Gap.matchedRequired (Gap.compare ["Agile"; "SQL"] ["Agile"; "SQL"; "Roadmapping"] [])
     = ["Agile"; "SQL"]
  /\ Gap.missingRequired (Gap.compare ["Agile"; "SQL"] ["Agile"; "SQL"; "Roadmapping"] [])
     = ["Roadmapping"]
  /\ Gap.matchPercentage (Gap.compare ["Agile"; "SQL"] ["Agile"; "SQL"; "Roadmapping"] [])
     = Number_of_Z 67.
Proof.
  split.
  - apply (match_percentage_range ["Agile"; "SQL"] ["Agile"; "SQL"; "Roadmapping"] []).
    vm_compute. reflexivity.
  - repeat split; vm_compute; reflexivity.
Defined.

(** Binary64 rounding is what the code computes: 29 matched skills of 200
    give 14, where the exact quotient 14.5 would round to 15. *)
Example match_percentage_binary64 :
  Math_round (fmul (fdiv (Number_of_Z 29) (Number_of_Z 200)) (Number_of_Z 100))
  = Number_of_Z 14.
Proof. vm_compute. reflexivity. Qed.

(** * More of the code *)

(** ** File names *)

Lemma sliceTo_length (n : nat) (s : string) : (String.length (Helpers.sliceTo n s) <= n)%nat.
Proof.
  revert s. induction n as [|n IH]; intros [|c s]; simpl; try lia.
  specialize (IH s). lia.
Qed.

Lemma sliceTo_chars (P : ascii -> Prop) (n : nat) (s : string) :
  Forall P (list_ascii_of_string s) ->
  Forall P (list_ascii_of_string (Helpers.sliceTo n s)).
Proof.
  revert s. induction n as [|n IH]; intros [|c s] H; simpl; try constructor.
  - inversion H; assumption.
  - apply IH. inversion H; assumption.
Qed.

Lemma underscoreRuns_chars (P : ascii -> Prop) (inRun : bool) (s : string) :
  P "_"%char ->
  Forall (fun c => JSString.isWhiteSpace c = false -> P c) (list_ascii_of_string s) ->
  Forall P (list_ascii_of_string (Helpers.underscoreRuns inRun s)).
Proof.
  intros Hu. revert inRun. induction s as [|c s IH]; intros inRun H; simpl.
  - constructor.
  - inversion H as [|c' l' Hc Hs]; subst.
    destruct (JSString.isWhiteSpace c) eqn:E.
    + destruct inRun; simpl; [| constructor; [exact Hu |]]; apply IH; exact Hs.
    + simpl. constructor; [apply Hc; reflexivity | apply IH; exact Hs].
Qed.

Lemma keepChars_chars (keep : ascii -> bool) (s : string) :
  Forall (fun c => keep c = true) (list_ascii_of_string (Helpers.keepChars keep s)).
Proof.
  induction s as [|c s IH]; simpl; [constructor |].
  destruct (keep c) eqn:E; simpl; [constructor; assumption | assumption].
Qed.

(** X1: whatever it is given, [sanitizeFilename] returns at most 50
    characters, each of them a letter A-Z or a-z, a digit, a hyphen or an
    underscore. *)
Theorem sanitizeFilename_safe :
  forall (str : option string),
    (String.length (Helpers.sanitizeFilename str) <= 50)%nat
    /\ Forall (fun c => Helpers.isAlnum c = true \/ c = "-"%char \/ c = "_"%char)
         (list_ascii_of_string (Helpers.sanitizeFilename str)).
Proof.
  intros str. unfold Helpers.sanitizeFilename. split; [apply sliceTo_length |].
  apply sliceTo_chars, underscoreRuns_chars; [auto |].
  eapply List.Forall_impl; [| apply keepChars_chars].
  intros c Hkeep Hws. simpl in Hkeep. rewrite Hws, orb_false_r in Hkeep.
  apply orb_true_iff in Hkeep as [H | H]; [auto |].
  apply Ascii.eqb_eq in H. auto.
Qed.

Lemma keepChars_none (keep : ascii -> bool) (s : string) :
  Forall (fun c => keep c = false) (list_ascii_of_string s) ->
  Helpers.keepChars keep s = EmptyString.
Proof.
  induction s as [|c s IH]; intros H; simpl; [reflexivity |].
  inversion H as [|c' l' Hc Hs]; subst. rewrite Hc. apply IH, Hs.
Qed.

(** X2: the default name is used for a missing or empty argument only: a
    string none of whose characters is a letter, a digit, a hyphen or white
    space is sanitized to the empty string, not to "Document". *)
Theorem sanitizeFilename_empty :
  Helpers.sanitizeFilename None = "Document"
  /\ Helpers.sanitizeFilename (Some "") = "Document"
  /\ forall (c : ascii) (s : string),
       Forall (fun c => Helpers.isAlnum c = false /\ JSString.isWhiteSpace c = false
                        /\ c <> "-"%char)
         (list_ascii_of_string (String c s)) ->
       Helpers.sanitizeFilename (Some (String c s)) = "".
Proof.
  split; [reflexivity | split; [reflexivity |]].
  intros c s H. unfold Helpers.sanitizeFilename.
  change (Region.orElse (Some (String c s)) "Document") with (String c s).
  rewrite keepChars_none; [reflexivity |].
  eapply List.Forall_impl; [| exact H].
  intros a [Ha [Hw Hh]]. simpl. rewrite Ha, Hw. simpl.
  apply Ascii.eqb_neq. exact Hh.
Qed.

Lemma sanitizeFilename_empty_witness :
  Helpers.sanitizeFilename (Some "!?.") = "".
Proof.
  apply (proj2 (proj2 sanitizeFilename_empty)).
  repeat constructor; vm_compute; discriminate.
Defined.

(** ** The keyword score *)

Lemma fold_setAdd_length (l acc : list string) :
  (length (fold_left setAdd l acc) <= length acc + length l)%nat.
Proof.
  revert acc. induction l as [|x l IH]; intros acc; simpl; [lia |].
  specialize (IH (setAdd acc x)). unfold setAdd in *.
  destruct (existsb (String.eqb x) acc); [lia |].
  rewrite length_app in IH. simpl in IH. lia.
Qed.

Lemma newSet_length (l : list string) : (length (newSet l) <= length l)%nat.
Proof. unfold newSet. pose proof (fold_setAdd_length l []). simpl in *. lia. Qed.

Lemma Math_max_55 (k : Z) :
  0 <= k <= 100 ->
  Helpers.Math_max (Number_of_Z k) (Number_of_Z 55) = Number_of_Z (Z.max k 55).
Proof.
  intros Hk. rewrite <- (Z2Nat.id k) by lia.
  assert (Hn : (Z.to_nat k <= 100)%nat) by lia.
  clear Hk. generalize dependent (Z.to_nat k). clear k. intros n Hn.
  do 101 (destruct n as [|n]; [vm_compute; reflexivity |]).
  lia.
Qed.

(** X3: for keyword lists of a length an array can have, the keyword score
    is an integer between 55 and 100; it is 65 when the job has no
    keywords. *)
Theorem keyword_match_range :
  forall (topSkills keywords : list string),
    Z.of_nat (length keywords) < 2 ^ 32 ->
    (exists k, 55 <= k <= 100
       /\ Helpers.calculateKeywordMatch topSkills keywords = Number_of_Z k)
    /\ (keywords = [] ->
        Helpers.calculateKeywordMatch topSkills keywords = Number_of_Z 65).
Proof.
  intros topSkills keywords Hlen. split; [| intros ->; reflexivity].
  unfold Helpers.calculateKeywordMatch.
  set (jobKeywords := newSet (map JSString.toLowerCase keywords)).
  set (profileKeywords := newSet (map JSString.toLowerCase topSkills)).
  destruct (Z.of_nat (length jobKeywords) =? 0) eqn:E.
  - exists 65. split; [lia | reflexivity].
  - apply Z.eqb_neq in E.
    assert (Hsize : (length jobKeywords <= length keywords)%nat).
    { unfold jobKeywords. pose proof (newSet_length (map JSString.toLowerCase keywords)) as H.
      rewrite length_map in H. exact H. }
    destruct (round_percentage
                (Z.of_nat (length (List.filter
                                     (fun keyword => existsb (String.eqb keyword) profileKeywords)
                                     jobKeywords)))
                (Z.of_nat (length jobKeywords))) as [k [Hk Hr]].
    + apply filter_length_le_Z.
    + assert (2 ^ 32 < 2 ^ 53) by reflexivity. lia.
    + rewrite Hr, (Math_max_55 k Hk). exists (Z.max k 55). split; [lia | reflexivity].
Qed.

Lemma keyword_match_range_witness :
  (exists k, 55 <= k <= 100
     /\ Helpers.calculateKeywordMatch ["SQL"; "Agile"] ["sql"; "SQL"; "Python"; "Go"]
        = Number_of_Z k)
  /\ Helpers.calculateKeywordMatch ["SQL"; "Agile"] ["sql"; "SQL"; "Python"; "Go"]
     = Number_of_Z 55.
Proof.
  split.
  - apply (keyword_match_range ["SQL"; "Agile"] ["sql"; "SQL"; "Python"; "Go"]).
    vm_compute. reflexivity.
  - vm_compute. reflexivity.
Defined.


(** ** The gap analysis: matched and missing skills *)

Lemma missingRequired_filter (skills required preferred : list string) :
  Gap.missingRequired (Gap.compare skills required preferred)
  = List.filter (fun skill => negb (Gap.skillMatches (Gap.candidateSkills skills) skill))
      required.
Proof.
  simpl. apply filter_ext_in. intros skill Hin. f_equal.
  apply eq_true_iff_eq. rewrite existsb_eqb_In, filter_In. tauto.
Qed.

Lemma filter_negb_length {A : Type} (f : A -> bool) (l : list A) :
  (length (List.filter f l) + length (List.filter (fun x => negb (f x)) l) = length l)%nat.
Proof.
  induction l as [|x l IH]; simpl; [reflexivity |].
  destruct (f x); simpl; lia.
Qed.

(** X4: the gap analysis splits the required skills in two: every
    required skill is listed as matched or as missing and never as both,
    both lists keep the order of the required skills, and their lengths add
    up to the number of required skills. *)
Theorem gap_partition :
  forall (skills required preferred : list string),
    Gap.matchedRequired (Gap.compare skills required preferred)
    = List.filter (Gap.skillMatches (Gap.candidateSkills skills)) required
    /\ Gap.missingRequired (Gap.compare skills required preferred)
       = List.filter (fun skill => negb (Gap.skillMatches (Gap.candidateSkills skills) skill))
           required
    /\ (length (Gap.matchedRequired (Gap.compare skills required preferred))
        + length (Gap.missingRequired (Gap.compare skills required preferred))
        = length required)%nat
    /\ forall skill,
         (In skill required <->
          In skill (Gap.matchedRequired (Gap.compare skills required preferred))
          \/ In skill (Gap.missingRequired (Gap.compare skills required preferred)))
         /\ ~ (In skill (Gap.matchedRequired (Gap.compare skills required preferred))
               /\ In skill (Gap.missingRequired (Gap.compare skills required preferred))).
Proof.
  intros skills required preferred.
  rewrite missingRequired_filter.
  change (Gap.matchedRequired (Gap.compare skills required preferred))
    with (List.filter (Gap.skillMatches (Gap.candidateSkills skills)) required).
  split; [reflexivity | split; [reflexivity | split; [apply filter_negb_length |]]].
  intros skill. rewrite !filter_In.
  destruct (Gap.skillMatches (Gap.candidateSkills skills) skill); simpl; split;
    try tauto; intuition discriminate.
Qed.

Lemma round_percentage_all (n : Z) :
  0 < n < 2 ^ 53 ->
  Math_round (fmul (fdiv (Number_of_Z n) (Number_of_Z n)) (Number_of_Z 100))
  = Number_of_Z 100.
Proof.
  intros Hn.
  destruct (Number_of_Z_pos n Hn) as [my [ey [Hy [Hmy [Hey Hry]]]]].
  rewrite Hy, (fdiv_same my ey Hry Hey). vm_compute. reflexivity.
Qed.

Lemma includes_empty (s : string) : JSString.includes s "" = true.
Proof. destruct s; reflexivity. Qed.

Lemma filter_all {A : Type} (f : A -> bool) (l : list A) :
  (forall x, In x l -> f x = true) -> List.filter f l = l.
Proof.
  induction l as [|x l IH]; intros H; simpl; [reflexivity |].
  rewrite (H x) by (left; reflexivity). f_equal. apply IH.
  intros y Hy. apply H. right. exact Hy.
Qed.

Lemma filter_none {A : Type} (f : A -> bool) (l : list A) :
  (forall x, In x l -> f x = false) -> List.filter f l = [].
Proof.
  induction l as [|x l IH]; intros H; simpl; [reflexivity |].
  rewrite (H x) by (left; reflexivity). apply IH.
  intros y Hy. apply H. right. exact Hy.
Qed.

(** X5: an empty string among the skills of the profile matches every
    skill of the job: all the required and preferred skills are matched,
    none is missing, and the match percentage is 100 when there are
    required skills. *)
Theorem empty_skill_matches_everything :
  forall (skills required preferred : list string),
    In "" skills ->
    Gap.matchedRequired (Gap.compare skills required preferred) = required
    /\ Gap.missingRequired (Gap.compare skills required preferred) = []
    /\ Gap.matchedPreferred (Gap.compare skills required preferred) = preferred
    /\ (required <> [] -> Z.of_nat (length required) < 2 ^ 32 ->
        Gap.matchPercentage (Gap.compare skills required preferred) = Number_of_Z 100).
Proof.
  intros skills required preferred Hin.
  assert (Hall : forall skill, Gap.skillMatches (Gap.candidateSkills skills) skill = true).
  { intros skill. apply matches_candidateSkills. exists "". split; [exact Hin |].
    right. apply includes_empty. }
  assert (Hm : Gap.matchedRequired (Gap.compare skills required preferred) = required).
  { simpl. apply filter_all. intros; apply Hall. }
  split; [exact Hm |]. split; [| split].
  - rewrite missingRequired_filter. apply filter_none. intros x _. rewrite Hall. reflexivity.
  - simpl. apply filter_all. intros; apply Hall.
  - intros Hne Hlen.
    change (Gap.matchPercentage (Gap.compare skills required preferred))
      with (Gap.matchPercent (Gap.matchedRequired (Gap.compare skills required preferred))
              required).
    rewrite Hm. unfold Gap.matchPercent.
    destruct required as [|skill rest]; [contradiction |].
    assert (Hpos : (0 <? Z.of_nat (length (skill :: rest))) = true)
      by (apply Z.ltb_lt; simpl length; lia).
    rewrite Hpos. apply round_percentage_all.
    assert (2 ^ 32 < 2 ^ 53) by reflexivity. simpl length in *. lia.
Qed.

Lemma empty_skill_matches_everything_witness :
  Gap.matchedRequired (Gap.compare ["Agile"; ""] ["Kubernetes"; "Rust"; "Go"] ["Haskell"])
  = ["Kubernetes"; "Rust"; "Go"]
  /\ Gap.matchPercentage (Gap.compare ["Agile"; ""] ["Kubernetes"; "Rust"; "Go"] ["Haskell"])
     = Number_of_Z 100
  /\ Gap.matchPercentage (Gap.compare ["Agile"] ["Kubernetes"; "Rust"; "Go"] ["Haskell"])
     = Number_of_Z 0.
Proof.
  destruct (empty_skill_matches_everything ["Agile"; ""] ["Kubernetes"; "Rust"; "Go"]
              ["Haskell"]) as [Hm [_ [_ Hp]]].
  - right. left. reflexivity.
  - split; [exact Hm |]. split.
    + apply Hp; [discriminate | vm_compute; reflexivity].
    + vm_compute. reflexivity.
Defined.


(** ** The education entries after extraction *)

Lemma mapM_ok {A B : Type} (f : A -> Result B) (l : list A) (l' : list B) :
  mapM f l = Ok l' -> Forall (fun y => exists x, In x l /\ f x = Ok y) l'.
Proof.
  revert l'. induction l as [|x l IH]; simpl; intros l' H.
  - injection H as <-. constructor.
  - destruct (f x) as [y|] eqn:Ef; simpl in H; [| discriminate].
    destruct (mapM f l) as [ys|] eqn:Em; simpl in H; [| discriminate].
    injection H as <-. constructor.
    + exists x. auto.
    + eapply List.Forall_impl; [| apply IH; reflexivity].
      simpl. intros b [a [Ha Hb]]. exists a. auto.
Qed.

Lemma cleanEducation_shape (edu cleaned : JValue) :
  cleanEducation edu = Ok cleaned -> Shapes.cleanedEntry cleaned.
Proof.
  unfold cleanEducation. destruct (nullish edu); [discriminate |].
  intros H. injection H as <-.
  eexists _, _, _. split; [reflexivity |].
  unfold orJS.
  destruct (truthy (prop edu "degree")) eqn:Ed;
  destruct (truthy (prop edu "institution")) eqn:Ei;
  destruct (truthy (prop edu "year")) eqn:Ey; simpl;
  try destruct (strictEqStr (prop edu "year") "null") eqn:En; simpl;
  repeat split; auto; try discriminate;
  intros Hy; rewrite Hy in En; discriminate.
Qed.

Lemma postProcessEducation_entries (parsed extracted : JValue) :
  isRecord parsed = true ->
  postProcessEducation parsed = Ok extracted ->
  truthy (prop extracted "education") = true ->
  exists items,
    prop extracted "education" = JArr items []
    /\ Forall (fun edu => Shapes.cleanedEntry edu /\ truthy (prop edu "institution") = true) items.
Proof.
  intros Hrec. unfold postProcessEducation.
  destruct (truthy (prop parsed "education")) eqn:Et.
  - destruct (prop parsed "education") as [| | | | |items named|]; try discriminate.
    destruct (mapM cleanEducation items) as [cleaned|] eqn:Em; [| discriminate].
    simpl. intros H _. injection H as <-.
    eexists. split; [apply prop_setOwn_eq; exact Hrec |].
    apply List.Forall_forall. intros edu Hin. apply filter_In in Hin as [Hin Hinst].
    split; [| exact Hinst].
    pose proof (mapM_ok _ _ _ Em) as Hall.
    rewrite List.Forall_forall in Hall. destruct (Hall edu Hin) as [x [_ Hx]].
    eapply cleanEducation_shape. exact Hx.
  - intros H. injection H as <-. rewrite Et. discriminate.
Qed.

Lemma extractFacts_ok_inv (provider : Provider) (profile : option Profile)
    (cvTexts : list CvText) (extracted : JValue) (log log1 : list Stage) :
  extractFacts provider profile cvTexts log = (Ok extracted, log1) ->
  exists props,
    provider Extraction = Parsed props
    /\ postProcessEducation (JObj props) = Ok extracted
    /\ nameMissing (prop extracted "name") = false.
Proof.
  rewrite extractFacts_unfold.
  destruct (insufficient (userProvidedData profile cvTexts)); [discriminate |].
  destruct (provider Extraction) as [| |props]; try discriminate.
  destruct (postProcessEducation (JObj props)) as [ex|] eqn:Ep; [| discriminate].
  destruct (nameMissing (prop ex "name")) eqn:En; [discriminate |].
  intros H. injection H as <- _. exists props. auto.
Qed.

(** X6: in a successful run, when the extracted data has an education list
    it is an array of entries with exactly the fields degree, institution
    and year: the institution is never empty, no field is [null] or
    [undefined], the year is never the word "null", and the CV carries
    this very list. *)
Theorem education_cleaned :
  forall (provider : Provider) (profile : option Profile) (cvTexts : list CvText)
         (jobData : option Region.JobData) (region : Region.Region)
         (r : Generated) (log : list Stage),
    generateCVWithClaude provider profile cvTexts jobData region [] = (Ok r, log) ->
    truthy (prop (extractedData r) "education") = true ->
    exists items,
      prop (extractedData r) "education" = JArr items []
      /\ prop (cvContent r) "education" = JArr items []
      /\ Forall (fun edu => Shapes.cleanedEntry edu /\ truthy (prop edu "institution") = true)
           items.
Proof.
  intros provider profile cvTexts jobData region r log Hrun Htruthy.
  destruct (generateCV_ok_inv _ _ _ _ _ _ _ Hrun) as [Hex [_ [_ [_ [Hfinal _]]]]].
  destruct (extractFacts_ok_inv _ _ _ _ _ _ Hex) as [props [_ [Hpost _]]].
  destruct (postProcessEducation_entries (JObj props) _ eq_refl Hpost Htruthy)
    as [items [Hedu Hall]].
  exists items. split; [exact Hedu |]. split; [| exact Hall].
  destruct (finalValidation_spec _ _ _ (parseTailoring_record _ _) Hfinal)
    as [_ [_ [_ [He _]]]].
  rewrite (He Htruthy). exact Hedu.
Qed.


Lemma education_cleaned_witness :
  exists items,
    prop (extractedData (resultOf faithful)) "education" = JArr items []
    /\ prop (cvContent (resultOf faithful)) "education" = JArr items []
    /\ Forall (fun edu => Shapes.cleanedEntry edu /\ truthy (prop edu "institution") = true)
         items.
Proof.
  apply (education_cleaned faithful None janeCv seniorPm (Region.detectRegion seniorPm)
           (resultOf faithful) [Extraction; JobAnalysis; Tailoring]);
    vm_compute; reflexivity.
Defined.

(** ** The languages of the CV *)

Lemma validLanguage_string (v : JValue) : isString v = true -> DocumentGenerator.validLanguage v = false.
Proof.
  destruct v; try discriminate. intros _. unfold DocumentGenerator.validLanguage.
  simpl. rewrite andb_false_r. reflexivity.
Qed.

Lemma finalValidation_record (extracted cv0 cv : JValue) :
  isRecord cv0 = true -> finalValidation extracted cv0 = Ok cv -> isRecord cv = true.
Proof.
  intros Hrec. unfold finalValidation.
  set (cv1 := setOwn cv0 "name" (prop extracted "name")).
  assert (H1 : isRecord cv1 = true) by (unfold cv1; rewrite isRecord_setOwn; exact Hrec).
  destruct (overwriteContact extracted "email" cv1) as [cv2|] eqn:E2; [| discriminate].
  destruct (overwriteContact_spec _ _ _ _ H1 E2) as [H2 _].
  simpl. destruct (overwriteContact extracted "phone" cv2) as [cv3|] eqn:E3; [| discriminate].
  destruct (overwriteContact_spec _ _ _ _ H2 E3) as [H3 _].
  simpl. destruct (overwriteContact extracted "linkedin" cv3) as [cv4|] eqn:E4; [| discriminate].
  destruct (overwriteContact_spec _ _ _ _ H3 E4) as [H4 _].
  simpl. intros H. injection H as <-. rewrite !isRecord_setOwn. exact H4.
Qed.

Lemma generateCV_record (provider : Provider) (profile : option Profile)
    (cvTexts : list CvText) (jobData : option Region.JobData) (region : Region.Region)
    (r : Generated) (log : list Stage) :
  generateCVWithClaude provider profile cvTexts jobData region [] = (Ok r, log) ->
  isRecord (cvContent r) = true.
Proof.
  intros Hrun.
  destruct (generateCV_ok_inv _ _ _ _ _ _ _ Hrun) as [_ [_ [_ [_ [Hfinal _]]]]].
  eapply finalValidation_record; [apply parseTailoring_record | exact Hfinal].
Qed.

Lemma isRecord_not_nullish (v : JValue) : isRecord v = true -> nullish v = false.
Proof. destruct v; simpl; congruence. Qed.

(** X7: languages extracted as plain strings, the form the extraction
    prompt asks for, never reach the document: in a successful run whose
    extracted languages are an array of strings, the CV carries that array
    and the renderer keeps none of its entries, so no LANGUAGES section is
    written. *)
Theorem string_languages_dropped :
  forall (provider : Provider) (profile : option Profile) (cvTexts : list CvText)
         (jobData : option Region.JobData) (region : Region.Region)
         (r : Generated) (log : list Stage),
    generateCVWithClaude provider profile cvTexts jobData region [] = (Ok r, log) ->
    isStringArray (prop (extractedData r) "languages") = true ->
    prop (cvContent r) "languages" = prop (extractedData r) "languages"
    /\ DocumentGenerator.validLanguages (cvContent r) = Ok [].
Proof.
  intros provider profile cvTexts jobData region r log Hrun Hstrings.
  destruct (generateCV_ok_inv _ _ _ _ _ _ _ Hrun) as [_ [_ [_ [_ [Hfinal _]]]]].
  destruct (finalValidation_spec _ _ _ (parseTailoring_record _ _) Hfinal)
    as [_ [_ [_ [_ Hl]]]].
  pose proof (generateCV_record _ _ _ _ _ _ _ Hrun) as Hrec.
  destruct (prop (extractedData r) "languages") as [| | | | |items named|] eqn:El;
    try discriminate.
  specialize (Hl eq_refl). split; [exact Hl |].
  unfold DocumentGenerator.validLanguages.
  rewrite (isRecord_not_nullish _ Hrec), Hl. simpl.
  f_equal. apply filter_none. intros x Hx. apply validLanguage_string.
  simpl in Hstrings. rewrite forallb_forall in Hstrings. apply Hstrings, Hx.
Qed.

Lemma string_languages_dropped_witness :
  prop (cvContent (resultOf faithful)) "languages" = JArr [JStr "English"] []
  /\ DocumentGenerator.validLanguages (cvContent (resultOf faithful)) = Ok [].
Proof.
  destruct (string_languages_dropped faithful None janeCv seniorPm
              (Region.detectRegion seniorPm) (resultOf faithful)
              [Extraction; JobAnalysis; Tailoring]) as [Hl Hv];
    [vm_compute; reflexivity | vm_compute; reflexivity |].
  split; [rewrite Hl; reflexivity | exact Hv].
Defined.


(** ** The LinkedIn export *)

Lemma nonEmpty_true (s : string) : JSString.nonEmpty s = true <-> s <> EmptyString.
Proof. destruct s; simpl; split; congruence. Qed.

Lemma nonBlankLines_In (text line : string) :
  In line (LinkedIn.nonBlankLines text) <->
  In line (Helpers.split Helpers.lineFeed text) /\ JSString.trim line <> EmptyString.
Proof.
  unfold LinkedIn.nonBlankLines. rewrite filter_In, nonEmpty_true. reflexivity.
Qed.

Lemma trim_nonEmpty (s : string) : JSString.trim s <> EmptyString -> s <> EmptyString.
Proof. intros H ->. apply H. reflexivity. Qed.

(** X8: the name of a parsed LinkedIn export is the first line of the text
    that is not blank, and "Unknown" when every line is blank; it is never
    blank. The headline is the second such line, or empty. *)
Theorem linkedin_name :
  forall (text : string),
    LinkedIn.name (LinkedIn.parseLinkedInPdfText text)
    = match LinkedIn.nonBlankLines text with
      | first :: _ => first
      | [] => "Unknown"
      end
    /\ LinkedIn.headline (LinkedIn.parseLinkedInPdfText text)
       = match LinkedIn.nonBlankLines text with
         | _ :: second :: _ => second
         | _ => ""
         end
    /\ JSString.trim (LinkedIn.name (LinkedIn.parseLinkedInPdfText text)) <> EmptyString.
Proof.
  intros text. unfold LinkedIn.parseLinkedInPdfText. simpl.
  assert (Hne : forall line, In line (LinkedIn.nonBlankLines text) ->
                  JSString.trim line <> EmptyString /\ line <> EmptyString).
  { intros line Hin. apply nonBlankLines_In in Hin as [_ Ht].
    split; [exact Ht | apply trim_nonEmpty, Ht]. }
  destruct (LinkedIn.nonBlankLines text) as [|first rest]; simpl.
  - split; [reflexivity | split; [reflexivity | vm_compute; discriminate]].
  - destruct (Hne first (or_introl eq_refl)) as [Ht Hf].
    apply nonEmpty_true in Hf. rewrite Hf.
    split; [reflexivity | split; [| exact Ht]].
    destruct rest as [|second rest]; simpl; [reflexivity |].
    destruct (Hne second (or_intror (or_introl eq_refl))) as [_ Hs].
    apply nonEmpty_true in Hs. rewrite Hs. reflexivity.
Qed.

Section LinkedInLoop.

Variable text : string.

Let usable (line : string) : Prop := Shapes.experienceLine text line.

Let complete (e : LinkedIn.Experience) : Prop :=
  usable (LinkedIn.title e) /\ usable (LinkedIn.company e)
  /\ usable (LinkedIn.duration e)
  /\ LinkedIn.testFourDigits (LinkedIn.duration e) = true.

Let invariant (st : LinkedIn.Loop) : Prop :=
  Forall complete (LinkedIn.pushed st)
  /\ match LinkedIn.currentExp st with
     | None => True
     | Some e =>
         usable (LinkedIn.title e)
         /\ (LinkedIn.company e = EmptyString \/ usable (LinkedIn.company e))
     end.

Lemma step_invariant (st : LinkedIn.Loop) (line : string) :
  In line (LinkedIn.nonBlankLines text) ->
  invariant st -> invariant (LinkedIn.step st line).
Proof.
  intros Hin [Hpushed Hcur]. apply nonBlankLines_In in Hin as [Hin Hblank].
  unfold LinkedIn.step.
  destruct (JSString.includes line "Experience") eqn:Eexp; [split; assumption |].
  destruct (JSString.includes line "Education") eqn:Eedu; simpl;
    [split; assumption |].
  destruct (JSString.includes line "Skills") eqn:Eski; simpl;
    [split; assumption |].
  assert (Hline : usable line) by (repeat split; assumption).
  destruct (LinkedIn.inExperience st); simpl; [| split; assumption].
  destruct (JSString.nonEmpty (JSString.trim line)); [| split; assumption].
  destruct (LinkedIn.currentExp st) as [e|] eqn:Ec.
  - destruct Hcur as [Htitle Hcompany].
    destruct (JSString.nonEmpty (LinkedIn.company e)) eqn:Ecomp; simpl.
    + destruct (negb (JSString.nonEmpty (LinkedIn.duration e))
                && LinkedIn.testFourDigits line) eqn:Edur.
      * split; simpl; [| exact I].
        apply Forall_app. split; [exact Hpushed |].
        constructor; [| constructor].
        apply andb_true_iff in Edur as [_ Hdigits].
        destruct Hcompany as [Hempty | Hcompany];
          [rewrite Hempty in Ecomp; discriminate |].
        repeat split; simpl; solve [apply Htitle | apply Hcompany | apply Hline | exact Hdigits].
      * split; simpl; [exact Hpushed |]. split; assumption.
    + split; simpl; [exact Hpushed |]. split; [exact Htitle | right; exact Hline].
  - split; simpl; [exact Hpushed |]. split; [exact Hline | left; reflexivity].
Qed.

Lemma loop_invariant (lines : list string) (st : LinkedIn.Loop) :
  (forall line, In line lines -> In line (LinkedIn.nonBlankLines text)) ->
  invariant st -> invariant (fold_left LinkedIn.step lines st).
Proof.
  revert st. induction lines as [|line lines IH]; intros st Hsub Hinv; simpl; [exact Hinv |].
  apply IH.
  - intros l Hl. apply Hsub. right. exact Hl.
  - apply step_invariant; [apply Hsub; left; reflexivity | exact Hinv].
Qed.

End LinkedInLoop.

(** X9: every experience [parseLinkedInPdfText] returns is complete: its
    title, company and duration are lines of the text that are not blank
    and hold none of the words Experience, Education and Skills, and the
    duration has four digits in a row. *)
Theorem linkedin_experiences_complete :
  forall (text : string),
    Forall (fun e =>
              Shapes.experienceLine text (LinkedIn.title e)
              /\ Shapes.experienceLine text (LinkedIn.company e)
              /\ Shapes.experienceLine text (LinkedIn.duration e)
              /\ LinkedIn.testFourDigits (LinkedIn.duration e) = true)
      (LinkedIn.experiences (LinkedIn.parseLinkedInPdfText text)).
Proof.
  intros text. unfold LinkedIn.parseLinkedInPdfText. simpl.
  apply (loop_invariant text (LinkedIn.nonBlankLines text)); [auto |].
  split; simpl; [constructor | exact I].
Qed.


(** ** The runs of an achievement *)

Lemma append_String (c : ascii) (s t : string) : String c s +:+ t = String c (s +:+ t).
Proof. reflexivity. Qed.

Lemma append_empty_r (s : string) : s +:+ "" = s.
Proof. induction s as [|c s IH]; [reflexivity |]. rewrite append_String, IH. reflexivity. Qed.

Lemma append_assoc (s t u : string) : (s +:+ t) +:+ u = s +:+ (t +:+ u).
Proof.
  induction s as [|c s IH]; [reflexivity |].
  rewrite !append_String, IH. reflexivity.
Qed.

Lemma append_length (s t : string) :
  String.length (s +:+ t) = (String.length s + String.length t)%nat.
Proof.
  induction s as [|c s IH]; [reflexivity |].
  rewrite append_String. simpl. rewrite IH. reflexivity.
Qed.

Lemma untilDigit_spec (s : string) :
  s = fst (DocumentGenerator.untilDigit s) +:+ snd (DocumentGenerator.untilDigit s)
  /\ Shapes.forallChars (fun c => negb (Helpers.isDigit c))
       (fst (DocumentGenerator.untilDigit s)) = true
  /\ match snd (DocumentGenerator.untilDigit s) with
     | EmptyString => True
     | String c _ => Helpers.isDigit c = true
     end.
Proof.
  induction s as [|c s IH]; simpl; [auto |].
  destruct (Helpers.isDigit c) eqn:E; simpl; [auto |].
  destruct (DocumentGenerator.untilDigit s) as [before from]. simpl in *.
  destruct IH as [H1 [H2 H3]]. rewrite E. simpl.
  split; [rewrite append_String; f_equal; exact H1 | auto].
Qed.

Lemma digits_spec (s : string) :
  s = fst (DocumentGenerator.digits s) +:+ snd (DocumentGenerator.digits s)
  /\ Shapes.forallChars Helpers.isDigit (fst (DocumentGenerator.digits s)) = true
  /\ match s with
     | String c _ =>
         Helpers.isDigit c = true -> fst (DocumentGenerator.digits s) <> EmptyString
     | EmptyString => True
     end.
Proof.
  induction s as [|c s IH]; simpl; [auto |].
  destruct (Helpers.isDigit c) eqn:E; simpl; [| split; [reflexivity | split; [reflexivity | discriminate]]].
  destruct (DocumentGenerator.digits s) as [ds rest]. simpl in *.
  destruct IH as [H1 [H2 _]]. rewrite E. simpl.
  split; [rewrite append_String; f_equal; exact H1 | split; [exact H2 | discriminate]].
Qed.

Lemma exec_some (rest before m after : string) :
  DocumentGenerator.exec rest = Some (before, m, after) ->
  rest = before +:+ m +:+ after
  /\ Shapes.forallChars (fun c => negb (Helpers.isDigit c)) before = true
  /\ (exists ds, ds <> EmptyString /\ Shapes.forallChars Helpers.isDigit ds = true
                 /\ (m = ds \/ m = ds +:+ "%"))
  /\ (String.length after < String.length rest)%nat.
Proof.
  unfold DocumentGenerator.exec.
  destruct (untilDigit_spec rest) as [Hrest [Hplain Hdigit]].
  destruct (DocumentGenerator.untilDigit rest) as [b from]. simpl in *.
  destruct from as [|c from']; [discriminate |].
  destruct (digits_spec (String c from')) as [Hfrom [Hds Hne]].
  specialize (Hne Hdigit).
  destruct (DocumentGenerator.digits (String c from')) as [ds after0]. simpl fst in *.
  simpl snd in *.
  assert (Hlen : (0 < String.length ds)%nat)
    by (destruct ds; [contradiction | simpl; lia]).
  assert (Hcase : forall m0 a0,
             String c from' = m0 +:+ a0 -> (m0 = ds \/ m0 = ds +:+ "%") ->
             Some (b, m0, a0) = Some (before, m, after) ->
             rest = before +:+ m +:+ after
             /\ Shapes.forallChars (fun c => negb (Helpers.isDigit c)) before = true
             /\ (exists ds, ds <> EmptyString /\ Shapes.forallChars Helpers.isDigit ds = true
                            /\ (m = ds \/ m = ds +:+ "%"))
             /\ (String.length after < String.length rest)%nat).
  { intros m0 a0 Hsplit Hm0 H. injection H as <- <- <-.
    split; [rewrite Hrest, Hsplit; reflexivity |].
    split; [exact Hplain |].
    split; [exists ds; auto |].
    rewrite Hrest, Hsplit, !append_length.
    destruct Hm0 as [-> | ->]; [| rewrite append_length]; lia. }
  destruct after0 as [|a after']; [apply Hcase; [exact Hfrom | left; reflexivity] |].
  destruct (Ascii.eqb a "%") eqn:Ea.
  - apply Ascii.eqb_eq in Ea. subst a.
    apply Hcase; [| right; reflexivity].
    rewrite Hfrom, append_assoc. reflexivity.
  - assert (Hsame : forall (T : Type) (x y : T),
               match a with "%"%char => x | _ => y end = y).
    { intros T x y. destruct a as [[] [] [] [] [] [] [] []]; try reflexivity. discriminate. }
    rewrite Hsame. apply Hcase; [exact Hfrom | left; reflexivity].
Qed.

Lemma exec_none (rest : string) :
  DocumentGenerator.exec rest = None ->
  Shapes.forallChars (fun c => negb (Helpers.isDigit c)) rest = true.
Proof.
  unfold DocumentGenerator.exec.
  destruct (untilDigit_spec rest) as [Hrest [Hplain _]].
  destruct (DocumentGenerator.untilDigit rest) as [b from]. simpl in *.
  destruct from as [|c from'].
  - intros _. rewrite Hrest, append_empty_r. exact Hplain.
  - destruct (DocumentGenerator.digits (String c from')) as [ds after0].
    destruct after0 as [|a after']; [discriminate |].
    destruct a as [[] [] [] [] [] [] [] []]; discriminate.
Qed.

Lemma runsText_app (l1 l2 : list DocumentGenerator.TextRun) :
  Shapes.runsText (l1 ++ l2) = Shapes.runsText l1 +:+ Shapes.runsText l2.
Proof.
  induction l1 as [|r l1 IH]; simpl; [reflexivity |].
  rewrite IH, append_assoc. reflexivity.
Qed.

Lemma parts_spec (fuel : nat) (rest : string) :
  (String.length rest < fuel)%nat ->
  Shapes.runsText (DocumentGenerator.parts fuel rest) = rest
  /\ Forall Shapes.numberOrWords (DocumentGenerator.parts fuel rest).
Proof.
  revert rest. induction fuel as [|fuel IH]; intros rest Hlen; [lia |].
  simpl. destruct (DocumentGenerator.exec rest) as [[[before m] after]|] eqn:E.
  - destruct (exec_some _ _ _ _ E) as [Hrest [Hplain [Hm Hshorter]]].
    destruct (IH after ltac:(lia)) as [Htext Hruns].
    split.
    + rewrite runsText_app. simpl. rewrite Htext.
      destruct before; simpl; [exact (eq_sym Hrest) |].
      rewrite append_empty_r, Hrest. reflexivity.
    + apply Forall_app. split.
      * destruct before as [|c before]; simpl; constructor; [| constructor].
        split; [discriminate | exact Hplain].
      * constructor; [exact Hm | exact Hruns].
  - apply exec_none in E.
    destruct rest as [|c rest]; simpl; [split; [reflexivity | constructor] |].
    split; [rewrite append_empty_r; reflexivity |].
    constructor; [| constructor]. split; [discriminate | exact E].
Qed.

(** X10: [formatAchievement] loses nothing and adds nothing: the texts of
    the runs it returns, put one behind the other, are the achievement. *)
Theorem formatAchievement_text :
  forall (achievement : string),
    Shapes.runsText (DocumentGenerator.formatAchievement achievement) = achievement.
Proof.
  intros achievement. unfold DocumentGenerator.formatAchievement.
  destruct (parts_spec (S (String.length achievement)) achievement ltac:(lia)) as [H _].
  destruct (DocumentGenerator.parts (S (String.length achievement)) achievement);
    [simpl in *; rewrite append_empty_r; reflexivity | exact H].
Qed.

(** X11: the bold runs of an achievement that is not empty are its
    numbers: each is one digit or more, with or without a percent sign
    behind them, and the other runs are not empty and hold no digit; so
    every digit is bold and a plus sign never is. The empty achievement
    gives one empty run. *)
Theorem formatAchievement_bold :
  (forall (c : ascii) (achievement : string),
      Forall Shapes.numberOrWords
        (DocumentGenerator.formatAchievement (String c achievement)))
  /\ DocumentGenerator.formatAchievement "" = [DocumentGenerator.plainRun ""].
Proof.
  split; [| reflexivity].
  intros c achievement. unfold DocumentGenerator.formatAchievement.
  destruct (parts_spec (S (String.length (String c achievement))) (String c achievement)
              ltac:(lia)) as [Ht Hr].
  destruct (DocumentGenerator.parts (S (String.length (String c achievement)))
              (String c achievement)); [discriminate | exact Hr].
Qed.


(** ** The contact line of the CV *)


Lemma contact_line_ignores_region_aux (cvContent : JValue) (region : Region.Region) :
  DocumentGenerator.contactLine cvContent region
  = DocumentGenerator.contactLine cvContent Region.EU.
Proof.
  unfold DocumentGenerator.contactLine.
  destruct (nullish cvContent); [reflexivity |].
  destruct (nullish (DocumentGenerator.withDefault (prop cvContent "contact") (JObj [])));
    [reflexivity |].
  f_equal.
  destruct (truthy (DocumentGenerator.withDefault (prop cvContent "nationality") JNull));
  destruct (truthy (DocumentGenerator.withDefault (prop cvContent "visaStatus") JNull));
  destruct region; reflexivity.
Qed.

(** X12: the region has no part in the contact line of the CV, the only
    place where [generateCV] reads it: nationality and visa status are
    written when they are there, for every region, and a CV for the EU
    without them gets none. *)
Theorem contact_line_ignores_region :
  forall (cvContent : JValue) (region region' : Region.Region),
    DocumentGenerator.contactLine cvContent region
    = DocumentGenerator.contactLine cvContent region'.
Proof.
  intros cvContent region region'.
  rewrite (contact_line_ignores_region_aux cvContent region),
    (contact_line_ignores_region_aux cvContent region'). reflexivity.
Qed.

(** X13: when [generateCV] gets as far as the contact line, the line is
    made of the fields that are truthy among location, email, phone,
    linkedin, nationality and visa status, in this order, email and
    linkedin underlined, with a bullet between every two neighbours and
    none before the first or behind the last. *)
Theorem contact_line_fields :
  forall (cvContent : JValue) (region : Region.Region)
         (contactParts : list DocumentGenerator.ContactRun),
    DocumentGenerator.contactLine cvContent region = Ok contactParts ->
    contactParts
    = Shapes.bulleted
        (Shapes.fieldRun DocumentGenerator.Value false
           (prop (DocumentGenerator.withDefault (prop cvContent "contact") (JObj []))
              "location")
         ++ Shapes.fieldRun DocumentGenerator.Value true
              (prop (DocumentGenerator.withDefault (prop cvContent "contact") (JObj []))
                 "email")
         ++ Shapes.fieldRun DocumentGenerator.Value false
              (prop (DocumentGenerator.withDefault (prop cvContent "contact") (JObj []))
                 "phone")
         ++ Shapes.fieldRun DocumentGenerator.Value true
              (prop (DocumentGenerator.withDefault (prop cvContent "contact") (JObj []))
                 "linkedin")
         ++ Shapes.fieldRun DocumentGenerator.Value false
              (DocumentGenerator.withDefault (prop cvContent "nationality") JNull)
         ++ Shapes.fieldRun DocumentGenerator.VisaStatus false
              (DocumentGenerator.withDefault (prop cvContent "visaStatus") JNull)).
Proof.
  intros cvContent region contactParts.
  rewrite (contact_line_ignores_region_aux cvContent region).
  unfold DocumentGenerator.contactLine.
  destruct (nullish cvContent); [discriminate |].
  set (contact := DocumentGenerator.withDefault (prop cvContent "contact") (JObj [])).
  set (nationality := DocumentGenerator.withDefault (prop cvContent "nationality") JNull).
  set (visaStatus := DocumentGenerator.withDefault (prop cvContent "visaStatus") JNull).
  destruct (nullish contact); [discriminate |].
  intros H. injection H as <-. unfold Shapes.fieldRun.
  destruct (truthy (prop contact "location")), (truthy (prop contact "email")),
    (truthy (prop contact "phone")), (truthy (prop contact "linkedin")),
    (truthy nationality), (truthy visaStatus); reflexivity.
Qed.


(** ** The job description *)

Lemma toLowerCase_app (s t : string) :
  JSString.toLowerCase (s +:+ t) = JSString.toLowerCase s +:+ JSString.toLowerCase t.
Proof.
  induction s as [|c s IH]; [reflexivity |].
  rewrite append_String. simpl. rewrite IH. reflexivity.
Qed.

Lemma includes_toLowerCase (s t : string) :
  JSString.includes s t = true ->
  JSString.includes (JSString.toLowerCase s) (JSString.toLowerCase t) = true.
Proof.
  rewrite !includes_spec. intros [pre [post ->]].
  exists (JSString.toLowerCase pre), (JSString.toLowerCase post).
  rewrite !toLowerCase_app. reflexivity.
Qed.

Lemma matchAlt_spec (before : bool) (alt s m : string) :
  Job.matchAlt before alt s = Some m ->
  JSString.toLowerCase m = JSString.toLowerCase alt
  /\ exists post, s = m +:+ post.
Proof.
  revert before s m. induction alt as [|a alt IH]; intros before s m; simpl.
  - destruct (Job.boundary before s); [| discriminate].
    intros H. injection H as <-. split; [reflexivity | exists s; reflexivity].
  - destruct s as [|c s]; [discriminate |].
    destruct (Job.sameLetter c a) eqn:E; [| discriminate].
    destruct (Job.matchAlt (Job.isWordChar c) alt s) as [m'|] eqn:Em; [| discriminate].
    simpl. intros H. injection H as <-.
    destruct (IH _ _ _ Em) as [Hlow [post ->]].
    split.
    + simpl. rewrite Hlow. f_equal. apply Ascii.eqb_eq. exact E.
    + exists post. reflexivity.
Qed.

Lemma matchAlts_spec (before : bool) (alts : list string) (s m : string) :
  Job.matchAlts before alts s = Some m ->
  (exists alt, In alt alts /\ JSString.toLowerCase m = JSString.toLowerCase alt)
  /\ exists post, s = m +:+ post.
Proof.
  induction alts as [|alt alts IH]; simpl; [discriminate |].
  destruct (Job.matchAlt before alt s) as [m'|] eqn:E.
  - intros H. injection H as ->.
    destruct (matchAlt_spec _ _ _ _ E) as [Hlow Hpost].
    split; [exists alt; auto | exact Hpost].
  - intros H. destruct (IH H) as [[alt' [Hin Hlow]] Hpost].
    split; [exists alt'; auto | exact Hpost].
Qed.

Lemma scan_spec (alts : list string) (skip : nat) (before : bool) (s m : string) :
  In m (Job.scan alts skip before s) ->
  (exists alt, In alt alts /\ JSString.toLowerCase m = JSString.toLowerCase alt)
  /\ JSString.includes s m = true.
Proof.
  revert skip before. induction s as [|c s IH]; intros skip before; simpl; [contradiction |].
  assert (Hrest : forall k b, In m (Job.scan alts k b s) ->
            (exists alt, In alt alts /\ JSString.toLowerCase m = JSString.toLowerCase alt)
            /\ JSString.includes (String c s) m = true).
  { intros k b H. destruct (IH _ _ H) as [Halt Hinc]. split; [exact Halt |].
    simpl. rewrite Hinc. apply orb_true_r. }
  destruct skip as [|k]; [| apply Hrest].
  destruct (Job.boundary before (String c s)); [| apply Hrest].
  destruct (Job.matchAlts before alts (String c s)) as [m'|] eqn:E; [| apply Hrest].
  intros [<- | H]; [| exact (Hrest _ _ H)].
  destruct (matchAlts_spec _ _ _ _ E) as [Halt [post Hpost]].
  split; [exact Halt |].
  apply (proj2 (includes_spec (String c s) m')). exists "", post. exact Hpost.
Qed.

Lemma matchAll_spec (alts : list string) (text m : string) :
  In m (Job.matchAll alts text) ->
  (exists alt, In alt alts /\ JSString.toLowerCase m = JSString.toLowerCase alt)
  /\ JSString.includes text m = true.
Proof. apply scan_spec. Qed.

Lemma NoDup_snoc (x : string) (acc : list string) :
  List.NoDup acc -> ~ In x acc -> List.NoDup (acc ++ [x]).
Proof.
  induction acc as [|y acc IH]; simpl; intros Hacc Hx.
  - constructor; [intros [] | constructor].
  - inversion Hacc as [|y' acc' Hy Hacc']; subst. constructor.
    + rewrite in_app_iff. simpl. intros [H | [H | []]]; [contradiction |].
      apply Hx. left. symmetry. exact H.
    + apply IH; [exact Hacc' |]. intros H. apply Hx. right. exact H.
Qed.

Lemma fold_setAdd_NoDup (l acc : list string) :
  List.NoDup acc -> List.NoDup (fold_left setAdd l acc).
Proof.
  revert acc. induction l as [|x l IH]; intros acc Hacc; simpl; [exact Hacc |].
  apply IH. unfold setAdd.
  destruct (existsb (String.eqb x) acc) eqn:E; [exact Hacc |].
  apply NoDup_snoc; [exact Hacc |].
  intros Hin. apply existsb_eqb_In in Hin. congruence.
Qed.

Lemma newSet_NoDup (l : list string) : List.NoDup (newSet l).
Proof. apply fold_setAdd_NoDup. constructor. Qed.

Lemma lowercase_terms (patterns : list (list string)) (alt m : string) :
  forallb (fun alt => String.eqb (JSString.toLowerCase alt) alt) (concat patterns) = true ->
  In alt (concat patterns) ->
  JSString.toLowerCase m = JSString.toLowerCase alt ->
  JSString.toLowerCase m = alt.
Proof.
  intros Hall Hin Hlow. rewrite forallb_forall in Hall.
  specialize (Hall alt Hin). apply String.eqb_eq in Hall. congruence.
Qed.

(** X14: the keywords [parseJobDescription] finds are terms of its
    vocabulary, in lower case and without repetition, and each of them
    occurs in the text when case is ignored. *)
Theorem job_keywords_sound :
  forall (text : string),
    List.NoDup (Job.keywords (Job.parseJobDescription text))
    /\ forall keyword,
         In keyword (Job.keywords (Job.parseJobDescription text)) ->
         In keyword (concat Job.keywordPatterns)
         /\ JSString.includes (JSString.toLowerCase text) keyword = true.
Proof.
  intros text. split; [apply newSet_NoDup |].
  generalize (eq_refl : forallb (fun alt => String.eqb (JSString.toLowerCase alt) alt)
                          (concat Job.keywordPatterns) = true).
  intros Hlower keyword Hin. unfold Job.parseJobDescription, Job.keywords in Hin.
  apply newSet_In, in_map_iff in Hin as [m [<- Hm]].
  apply in_flat_map in Hm as [pattern [Hpattern Hm]].
  destruct (matchAll_spec _ _ _ Hm) as [[alt [Halt Hlow]] Hinc].
  assert (Hin : In alt (concat Job.keywordPatterns))
    by (apply in_concat; exists pattern; auto).
  rewrite (lowercase_terms Job.keywordPatterns alt m Hlower Hin Hlow).
  split; [exact Hin |].
  rewrite <- (lowercase_terms Job.keywordPatterns alt m Hlower Hin Hlow).
  apply includes_toLowerCase, Hinc.
Qed.

Lemma detectLocation_spec (patterns : list (list string)) (text : string) :
  Job.detectLocation patterns text = EmptyString
  \/ (exists alt, In alt (concat patterns)
        /\ JSString.toLowerCase (Job.detectLocation patterns text)
           = JSString.toLowerCase alt)
     /\ JSString.includes text (Job.detectLocation patterns text) = true.
Proof.
  induction patterns as [|pattern patterns IH]; simpl; [left; reflexivity |].
  destruct (Job.matchAll pattern text) as [|m rest] eqn:E.
  - destruct IH as [IH | [[alt [Hin Hlow]] Hinc]]; [left; exact IH | right].
    split; [| exact Hinc]. exists alt. split; [| exact Hlow].
    apply in_or_app. right. exact Hin.
  - right. destruct (matchAll_spec pattern text m) as [[alt [Hin Hlow]] Hinc];
      [rewrite E; left; reflexivity |].
    split; [| exact Hinc]. exists alt. split; [| exact Hlow].
    apply in_or_app. left. exact Hin.
Qed.

(** X15: the location [parseJobDescription] reports is empty or a piece of
    the text that is, when case is ignored, one of the terms of its
    location patterns. *)
Theorem job_location_sound :
  forall (text : string),
    Job.location (Job.parseJobDescription text) = ""
    \/ (In (JSString.toLowerCase (Job.location (Job.parseJobDescription text)))
          (concat Job.locationPatterns)
        /\ JSString.includes text (Job.location (Job.parseJobDescription text)) = true).
Proof.
  intros text.
  change (Job.location (Job.parseJobDescription text))
    with (Job.detectLocation Job.locationPatterns text).
  destruct (detectLocation_spec Job.locationPatterns text) as [H | [[alt [Hin Hlow]] Hinc]];
    [left; exact H | right].
  split; [| exact Hinc].
  rewrite (lowercase_terms Job.locationPatterns alt _ eq_refl Hin Hlow). exact Hin.
Qed.

Lemma includes_nonEmpty (s t : string) :
  JSString.includes s t = true -> t <> EmptyString -> s <> EmptyString.
Proof.
  intros H Ht ->. destruct t; [contradiction | discriminate].
Qed.

(** X16: the parser and the region classifier agree on the EU: when
    [parseJobDescription] reports as location one of the EU cities or
    countries of its patterns, [detectRegion] gives EU for the parsed
    job. *)
Theorem parsed_eu_location_is_eu :
  forall (text : string),
    In (JSString.toLowerCase (Job.location (Job.parseJobDescription text)))
      ["berlin"; "paris"; "amsterdam"; "dublin"; "munich"; "barcelona"; "rome"; "milan";
       "germany"; "france"; "netherlands"; "ireland"; "spain"; "italy"] ->
    Region.detectRegion (Job.toJobData (Job.parseJobDescription text)) = Region.EU.
Proof.
  intros text Hin.
  assert (Hinc : JSString.includes text (Job.location (Job.parseJobDescription text))
                 = true).
  { change (Job.location (Job.parseJobDescription text))
      with (Job.detectLocation Job.locationPatterns text) in *.
    destruct (detectLocation_spec Job.locationPatterns text) as [Hempty | [_ Hinc]];
      [| exact Hinc].
    rewrite Hempty in Hin. simpl in Hin. intuition discriminate. }
  assert (Hloc : Job.location (Job.parseJobDescription text) <> EmptyString).
  { intros Hempty. rewrite Hempty in Hin. simpl in Hin. intuition discriminate. }
  pose proof (includes_nonEmpty _ _ Hinc Hloc) as Htext.
  unfold Region.detectRegion, Region.regionText, Job.toJobData.
  cbn [Region.field Region.rawText Region.location].
  change (Job.rawText (Job.parseJobDescription text)) with text.
  assert (Hraw : Region.orElse (Some text)
                   (Region.orElse
                      (Some (Region.concatEmpty
                               (Some (Job.location (Job.parseJobDescription text))))) "")
                 = text).
  { destruct text; [contradiction | reflexivity]. }
  rewrite Hraw. rewrite classify_priority.
  assert (Heu : Region.someIncluded Region.euCountries (JSString.toLowerCase text) = true).
  { unfold Region.someIncluded. apply existsb_exists.
    exists (JSString.toLowerCase (Job.location (Job.parseJobDescription text))).
    split; [| apply includes_toLowerCase, Hinc].
    simpl in Hin. simpl.
    repeat (destruct Hin as [<- | Hin]; [tauto |]). contradiction. }
  rewrite Heu. reflexivity.
Qed.


(** ** The calls a request makes *)

Lemma coverLetter_unfold (provider : Provider) (jobData : option Region.JobData)
    (extracted : JValue) (log : list Stage) :
  generateCoverLetterWithClaude provider jobData extracted log =
    match coverPrompt extracted with
    | Throw e => (Throw e, log)
    | Ok _ =>
        match provider CoverLetter with
        | Rejected => (Throw InferenceError, (log ++ [CoverLetter])%list)
        | Unparsable => (Ok (fallbackCoverLetter jobData), (log ++ [CoverLetter])%list)
        | Parsed props => (Ok (JObj props), (log ++ [CoverLetter])%list)
        end
    end.
Proof.
  unfold generateCoverLetterWithClaude, seq, lift, ret, infer.
  destruct (coverPrompt extracted); [| reflexivity].
  destruct (provider CoverLetter); reflexivity.
Qed.

Lemma produce_unfold (w : Server.World) (req : Server.Request) (log : list Stage) :
  Server.produce w req log =
    match generateCVWithClaude (Server.provider w) (Server.profile req) (Server.cvTexts req)
            (Server.jobData req) (Region.detectRegion (Server.jobData req)) log with
    | (Throw e, log1) => (Throw e, log1)
    | (Ok r, log1) =>
        let region := Region.detectRegion (Server.jobData req) in
        let cvDoc := Server.rendered (Server.renderCV w (cvContent r) region) (cvContent r) in
        if Server.wantsCoverLetter req
        then
          match generateCoverLetterWithClaude (Server.provider w) (Server.jobData req)
                  (extractedData r) log1 with
          | (Throw e, log2) => (Throw e, log2)
          | (Ok l, log2) =>
              match cvDoc with
              | Throw e => (Throw e, log2)
              | Ok d =>
                  match Server.rendered
                          (Server.renderCoverLetter w l (cvContent r) region) l with
                  | Throw e => (Throw e, log2)
                  | Ok ld => (Ok (d, Some ld, analysisSummary r), log2)
                  end
              end
          end
        else
          match cvDoc with
          | Throw e => (Throw e, log1)
          | Ok d => (Ok (d, None, analysisSummary r), log1)
          end
    end.
Proof.
  unfold Server.produce, seq, lift, ret.
  destruct (generateCVWithClaude _ _ _ _ _ log) as [[r|e] log1]; [| reflexivity].
  destruct (Server.wantsCoverLetter req).
  - destruct (generateCoverLetterWithClaude _ _ _ log1) as [[l|e] log2]; [| reflexivity].
    destruct (Server.rendered (Server.renderCV w _ _) _); [| reflexivity].
    destruct (Server.rendered (Server.renderCoverLetter w _ _ _) _); reflexivity.
  - destruct (Server.rendered (Server.renderCV w _ _) _); reflexivity.
Qed.

Ltac orderly_leaf :=
  split;
  [ let Hin := fresh "Hin" in
    let Hrej := fresh "Hrej" in
    simpl; intros ? Hin Hrej;
    repeat (destruct Hin as [<- | Hin]; [try reflexivity; congruence |]);
    contradiction
  | split;
    [ simpl; eexists; reflexivity
    | simpl; intros ? ?; first [discriminate | reflexivity] ] ].

Lemma generateCV_orderly (provider : Provider) (profile : option Profile)
    (cvTexts : list CvText) (jobData : option Region.JobData) (region : Region.Region) :
  Shapes.orderly provider [Extraction; JobAnalysis; Tailoring]
    (generateCVWithClaude provider profile cvTexts jobData region []).
Proof.
  rewrite generateCV_unfold, extractFacts_unfold.
  destruct (insufficient (userProvidedData profile cvTexts)); [orderly_leaf |].
  destruct (provider Extraction) as [| |props] eqn:Ee; try orderly_leaf.
  destruct (postProcessEducation (JObj props)) as [extracted|]; [| orderly_leaf].
  destruct (nameMissing (prop extracted "name")); [orderly_leaf |].
  destruct (provider JobAnalysis) as [| |jprops] eqn:Ej; try orderly_leaf.
  - cbv zeta. destruct (gapAnalysis extracted _) as [gap|]; [| orderly_leaf].
    rewrite tailor_unfold.
    destruct (provider Tailoring) as [| |tprops] eqn:Et; try orderly_leaf.
    + destruct (finalValidation extracted _) as [cv|]; [| orderly_leaf].
      destruct (summarize extracted _ gap); orderly_leaf.
    + destruct (finalValidation extracted _) as [cv|]; [| orderly_leaf].
      destruct (summarize extracted _ gap); orderly_leaf.
  - cbv zeta. destruct (gapAnalysis extracted _) as [gap|]; [| orderly_leaf].
    rewrite tailor_unfold.
    destruct (provider Tailoring) as [| |tprops] eqn:Et; try orderly_leaf.
    + destruct (finalValidation extracted _) as [cv|]; [| orderly_leaf].
      destruct (summarize extracted _ gap); orderly_leaf.
    + destruct (finalValidation extracted _) as [cv|]; [| orderly_leaf].
      destruct (summarize extracted _ gap); orderly_leaf.
Qed.


Lemma produce_orderly (w : Server.World) (req : Server.Request) :
  Shapes.orderly (Server.provider w) (Shapes.stagesOf req) (Server.produce w req []).
Proof.
  rewrite produce_unfold. unfold Shapes.stagesOf.
  pose proof (generateCV_orderly (Server.provider w) (Server.profile req)
                (Server.cvTexts req) (Server.jobData req)
                (Region.detectRegion (Server.jobData req))) as [Hrej [[rest Hpre] Hok]].
  destruct (generateCVWithClaude _ _ _ _ _ []) as [[r|e] log1]; simpl in Hrej, Hpre, Hok.
  - specialize (Hok r eq_refl). subst log1.
    assert (He : Server.provider w Extraction <> Rejected)
      by (intros H; specialize (Hrej Extraction ltac:(simpl; auto) H); discriminate).
    assert (Hj : Server.provider w JobAnalysis <> Rejected)
      by (intros H; specialize (Hrej JobAnalysis ltac:(simpl; auto) H); discriminate).
    assert (Ht : Server.provider w Tailoring <> Rejected)
      by (intros H; specialize (Hrej Tailoring ltac:(simpl; auto) H); discriminate).
    cbv zeta. destruct (Server.wantsCoverLetter req).
    + rewrite coverLetter_unfold.
      destruct (coverPrompt (extractedData r)); [| orderly_leaf].
      destruct (Server.provider w CoverLetter) eqn:Ec; [orderly_leaf | |];
        (destruct (Server.rendered (Server.renderCV w _ _) _); [| orderly_leaf];
         destruct (Server.rendered (Server.renderCoverLetter w _ _ _) _); orderly_leaf).
    + destruct (Server.rendered (Server.renderCV w _ _) _); orderly_leaf.
  - split; [| split; [| intros a Ha; discriminate]].
    { simpl. intros stage Hin H. specialize (Hrej stage Hin H).
      injection Hrej as ->. reflexivity. }
    simpl. exists (rest ++ (if Server.wantsCoverLetter req then [CoverLetter] else []))%list.
    rewrite app_assoc, Hpre. reflexivity.
Qed.

Lemma apiGenerate_outcome (w : Server.World) (req : Server.Request)
    (generatedDocs : gmap string Server.Session) :
  Server.calls (Server.apiGenerate w req generatedDocs) = snd (Server.produce w req [])
  /\ match fst (Server.produce w req []) with
     | Ok (cvDoc, letterDoc, summary) =>
         Server.event (Server.apiGenerate w req generatedDocs)
         = Server.Complete (Server.uuid w) (Region.detectRegion (Server.jobData req)) summary
         /\ Server.docs (Server.apiGenerate w req generatedDocs)
            = Server.cleanupOldDocuments (Server.nowAtCleanup w)
                (<[Server.uuid w := {| Server.cv := cvDoc; Server.coverLetter := letterDoc;
                                       Server.createdAt := Server.nowAtStore w |}]>
                   generatedDocs)
     | Throw e =>
         Server.event (Server.apiGenerate w req generatedDocs) = Server.Failed (message e)
         /\ Server.docs (Server.apiGenerate w req generatedDocs) = generatedDocs
     end.
Proof.
  unfold Server.apiGenerate.
  destruct (Server.produce w req []) as [[[[cvDoc letterDoc] summary]|e] log]; simpl; auto.
Qed.

(** X17: a request calls the inference provider at most four times, in the
    order extraction, job analysis, tailoring, cover letter, each stage at
    most once; the cover letter call is made only when the letter was not
    declined; a request that completes made the three calls of the CV,
    and the fourth when the letter was not declined. *)
Theorem inference_calls_in_order :
  forall (w : Server.World) (req : Server.Request)
         (generatedDocs : gmap string Server.Session),
    (exists rest,
        (Server.calls (Server.apiGenerate w req generatedDocs) ++ rest)%list
        = [Extraction; JobAnalysis; Tailoring; CoverLetter])
    /\ (In CoverLetter (Server.calls (Server.apiGenerate w req generatedDocs)) ->
        Server.generateCoverLetter req <> Some false)
    /\ (forall sessionId region summary,
          Server.event (Server.apiGenerate w req generatedDocs)
          = Server.Complete sessionId region summary ->
          Server.calls (Server.apiGenerate w req generatedDocs)
          = if Server.wantsCoverLetter req
            then [Extraction; JobAnalysis; Tailoring; CoverLetter]
            else [Extraction; JobAnalysis; Tailoring]).
Proof.
  intros w req generatedDocs.
  destruct (apiGenerate_outcome w req generatedDocs) as [Hcalls Hevent].
  destruct (produce_orderly w req) as [_ [[rest Hpre] Hok]].
  rewrite Hcalls. unfold Shapes.stagesOf in *.
  split; [| split].
  - destruct (Server.wantsCoverLetter req); simpl in Hpre.
    + exists rest. exact Hpre.
    + exists (rest ++ [CoverLetter])%list. rewrite app_assoc, Hpre. reflexivity.
  - intros Hin Hdeclined.
    assert (Hwants : Server.wantsCoverLetter req = false)
      by (unfold Server.wantsCoverLetter; rewrite Hdeclined; reflexivity).
    rewrite Hwants in Hpre. simpl in Hpre.
    assert (Hin' : In CoverLetter [Extraction; JobAnalysis; Tailoring])
      by (rewrite <- Hpre; apply in_or_app; left; exact Hin).
    simpl in Hin'. intuition discriminate.
  - intros sessionId region summary Hcomplete.
    destruct (fst (Server.produce w req [])) as [[[cvDoc letterDoc] summary']|e] eqn:E.
    + rewrite (Hok _ eq_refl). destruct (Server.wantsCoverLetter req); reflexivity.
    + destruct Hevent as [Hfailed _]. rewrite Hfailed in Hcomplete. discriminate.
Qed.

(** X18: no rejected call is made up for: when a call the request made to
    the inference provider was rejected, whatever its stage, the request
    fails with the error of that call and the store is left as it was. *)
Theorem rejected_call_fails_request :
  forall (w : Server.World) (req : Server.Request)
         (generatedDocs : gmap string Server.Session) (stage : Stage),
    In stage (Server.calls (Server.apiGenerate w req generatedDocs)) ->
    Server.provider w stage = Rejected ->
    Server.event (Server.apiGenerate w req generatedDocs)
    = Server.Failed (message InferenceError)
    /\ Server.docs (Server.apiGenerate w req generatedDocs) = generatedDocs.
Proof.
  intros w req generatedDocs stage Hin Hrej.
  destruct (apiGenerate_outcome w req generatedDocs) as [Hcalls Hevent].
  destruct (produce_orderly w req) as [Hrejected _].
  rewrite Hcalls in Hin. rewrite (Hrejected stage Hin Hrej) in Hevent. exact Hevent.
Qed.


(** ** Storing, downloading and previewing *)

Lemma rendered_ok (r : option (string * string)) (c : JValue) (d : Server.Artifact) :
  Server.rendered r c = Ok d ->
  r = Some (Server.buffer d, Server.docFilename d) /\ Server.content d = c.
Proof.
  destruct r as [[b f]|]; simpl; [| discriminate].
  intros H. injection H as <-. auto.
Qed.

Lemma produce_ok_inv (w : Server.World) (req : Server.Request)
    (cvDoc : Server.Artifact) (letterDoc : option Server.Artifact)
    (summary : AnalysisSummary) (log : list Stage) :
  Server.produce w req [] = (Ok (cvDoc, letterDoc, summary), log) ->
  exists r log1,
    generateCVWithClaude (Server.provider w) (Server.profile req) (Server.cvTexts req)
      (Server.jobData req) (Region.detectRegion (Server.jobData req)) [] = (Ok r, log1)
    /\ Server.renderCV w (cvContent r) (Region.detectRegion (Server.jobData req))
       = Some (Server.buffer cvDoc, Server.docFilename cvDoc)
    /\ Server.content cvDoc = cvContent r
    /\ summary = analysisSummary r
    /\ (Server.wantsCoverLetter req = false -> letterDoc = None)
    /\ (Server.wantsCoverLetter req = true ->
        exists letter, letterDoc = Some letter /\ isRecord (Server.content letter) = true).
Proof.
  rewrite produce_unfold.
  destruct (generateCVWithClaude _ _ _ _ _ []) as [[r|e] log1]; [| discriminate].
  cbv zeta. destruct (Server.wantsCoverLetter req).
  - rewrite coverLetter_unfold.
    destruct (coverPrompt (extractedData r)); [| discriminate].
    assert (Hletter : forall l,
               isRecord l = true ->
               match Server.rendered
                       (Server.renderCV w (cvContent r)
                          (Region.detectRegion (Server.jobData req))) (cvContent r) with
               | Ok d =>
                   match Server.rendered
                           (Server.renderCoverLetter w l (cvContent r)
                              (Region.detectRegion (Server.jobData req))) l with
                   | Ok ld => (Ok (d, Some ld, analysisSummary r), (log1 ++ [CoverLetter])%list)
                   | Throw e => (Throw e, (log1 ++ [CoverLetter])%list)
                   end
               | Throw e => (Throw e, (log1 ++ [CoverLetter])%list)
               end = (Ok (cvDoc, letterDoc, summary), log) ->
               exists r0 log0,
                 (Ok r, log1) = (Ok r0, log0)
                 /\ Server.renderCV w (cvContent r0) (Region.detectRegion (Server.jobData req))
                    = Some (Server.buffer cvDoc, Server.docFilename cvDoc)
                 /\ Server.content cvDoc = cvContent r0
                 /\ summary = analysisSummary r0
                 /\ (true = false -> letterDoc = None)
                 /\ (true = true ->
                     exists letter, letterDoc = Some letter
                                    /\ isRecord (Server.content letter) = true)).
    { intros l Hl.
      destruct (Server.rendered (Server.renderCV w _ _) _) as [d|] eqn:Ed; [| discriminate].
      destruct (Server.rendered (Server.renderCoverLetter w _ _ _) _) as [ld|] eqn:El;
        [| discriminate].
      intros H. injection H as <- <- <- _.
      destruct (rendered_ok _ _ _ Ed) as [Hr Hc].
      destruct (rendered_ok _ _ _ El) as [_ Hlc].
      exists r, log1. repeat split; try assumption; try discriminate.
      intros _. exists ld. split; [reflexivity | rewrite Hlc; exact Hl]. }
    destruct (Server.provider w CoverLetter); [discriminate | |]; apply Hletter; reflexivity.
  - destruct (Server.rendered (Server.renderCV w _ _) _) as [d|] eqn:Ed; [| discriminate].
    intros H. injection H as <- <- <- _.
    destruct (rendered_ok _ _ _ Ed) as [Hr Hc].
    exists r, log1. repeat split; try assumption; try discriminate.
Qed.

Lemma isRecord_truthy (v : JValue) : isRecord v = true -> truthy v = true.
Proof. destruct v; simpl; congruence. Qed.

Lemma apiGenerate_complete_inv (w : Server.World) (req : Server.Request)
    (generatedDocs : gmap string Server.Session)
    (sessionId : string) (region : Region.Region) (summary : AnalysisSummary) :
  Server.event (Server.apiGenerate w req generatedDocs)
  = Server.Complete sessionId region summary ->
  exists cvDoc letterDoc log,
    Server.produce w req [] = (Ok (cvDoc, letterDoc, summary), log)
    /\ sessionId = Server.uuid w
    /\ region = Region.detectRegion (Server.jobData req)
    /\ Server.docs (Server.apiGenerate w req generatedDocs)
       = Server.cleanupOldDocuments (Server.nowAtCleanup w)
           (<[Server.uuid w := {| Server.cv := cvDoc; Server.coverLetter := letterDoc;
                                  Server.createdAt := Server.nowAtStore w |}]>
              generatedDocs).
Proof.
  unfold Server.apiGenerate.
  destruct (Server.produce w req []) as [[[[cvDoc letterDoc] summary']|e] log]; simpl;
    [| discriminate].
  intros H. injection H as <- <- <-. exists cvDoc, letterDoc, log. auto.
Qed.

Lemma stored_session_kept (w : Server.World) (generatedDocs : gmap string Server.Session)
    (cvDoc : Server.Artifact) (letterDoc : option Server.Artifact) :
  Server.nowAtCleanup w - 3600000 <= Server.nowAtStore w ->
  Server.cleanupOldDocuments (Server.nowAtCleanup w)
    (<[Server.uuid w := {| Server.cv := cvDoc; Server.coverLetter := letterDoc;
                           Server.createdAt := Server.nowAtStore w |}]> generatedDocs)
    !! Server.uuid w
  = Some {| Server.cv := cvDoc; Server.coverLetter := letterDoc;
            Server.createdAt := Server.nowAtStore w |}.
Proof.
  intros Hclock. rewrite cleanup_lookup, lookup_insert_eq. simpl.
  assert (H : (Server.nowAtStore w <? Server.nowAtCleanup w - 3600000) = false)
    by (apply Z.ltb_ge; lia).
  rewrite H. reflexivity.
Qed.

(** X19: what a request that completes has produced can be fetched: when
    the sweep at the end of the request runs no later than an hour after
    the documents were stored, a download of the CV under the session id of
    the final event gives the bytes and the file name the renderer gave for
    the CV of the pipeline, and a preview gives that CV. *)
Theorem generated_cv_retrievable :
  forall (w : Server.World) (req : Server.Request)
         (generatedDocs : gmap string Server.Session)
         (sessionId : string) (region : Region.Region) (summary : AnalysisSummary),
    Server.event (Server.apiGenerate w req generatedDocs)
    = Server.Complete sessionId region summary ->
    Server.nowAtCleanup w - 3600000 <= Server.nowAtStore w ->
    exists (r : Generated) (log : list Stage) (bytes name : string),
      generateCVWithClaude (Server.provider w) (Server.profile req) (Server.cvTexts req)
        (Server.jobData req) (Region.detectRegion (Server.jobData req)) [] = (Ok r, log)
      /\ Server.renderCV w (cvContent r) region = Some (bytes, name)
      /\ Server.download (Server.docs (Server.apiGenerate w req generatedDocs)) sessionId "cv"
         = Server.Download name bytes
      /\ Endpoints.preview (Server.docs (Server.apiGenerate w req generatedDocs))
           sessionId "cv"
         = Endpoints.PreviewJson (cvContent r) "cv" name.
Proof.
  intros w req generatedDocs sessionId region summary Hcomplete Hclock.
  destruct (apiGenerate_complete_inv _ _ _ _ _ _ Hcomplete)
    as [cvDoc [letterDoc [log [Hproduce [-> [-> Hdocs]]]]]].
  destruct (produce_ok_inv _ _ _ _ _ _ Hproduce) as [r [log1 [Hrun [Hrender [Hcontent _]]]]].
  exists r, log1, (Server.buffer cvDoc), (Server.docFilename cvDoc).
  split; [exact Hrun |]. split; [exact Hrender |].
  rewrite Hdocs. unfold Server.download, Endpoints.preview.
  rewrite (stored_session_kept w generatedDocs _ _ Hclock). simpl.
  split; [reflexivity |].
  rewrite Hcontent, (isRecord_truthy _ (generateCV_record _ _ _ _ _ _ _ Hrun)). reflexivity.
Qed.

(** X20: a declined cover letter is never made: with
    [generateCoverLetter: false] no cover letter call reaches the inference
    provider, and after a request that completes every document type other
    than "cv" is answered with status 404, by the download and by the
    preview. *)
Theorem declined_cover_letter :
  forall (w : Server.World) (req : Server.Request)
         (generatedDocs : gmap string Server.Session),
    Server.generateCoverLetter req = Some false ->
    ~ In CoverLetter (Server.calls (Server.apiGenerate w req generatedDocs))
    /\ forall (sessionId : string) (region : Region.Region) (summary : AnalysisSummary)
              (docType : string),
         Server.event (Server.apiGenerate w req generatedDocs)
         = Server.Complete sessionId region summary ->
         Server.nowAtCleanup w - 3600000 <= Server.nowAtStore w ->
         docType <> "cv" ->
         Server.download (Server.docs (Server.apiGenerate w req generatedDocs))
           sessionId docType
         = Server.Status404 "Document not found"
         /\ Endpoints.preview (Server.docs (Server.apiGenerate w req generatedDocs))
              sessionId docType
            = Endpoints.PreviewStatus404 "Document preview not available".
Proof.
  intros w req generatedDocs Hdeclined.
  assert (Hwants : Server.wantsCoverLetter req = false)
    by (unfold Server.wantsCoverLetter; rewrite Hdeclined; reflexivity).
  split.
  - destruct (apiGenerate_outcome w req generatedDocs) as [Hcalls _].
    destruct (produce_orderly w req) as [_ [[rest Hpre] _]].
    unfold Shapes.stagesOf in Hpre. rewrite Hwants in Hpre. simpl in Hpre.
    rewrite Hcalls. intros Hin.
    assert (Hin' : In CoverLetter [Extraction; JobAnalysis; Tailoring])
      by (rewrite <- Hpre; apply in_or_app; left; exact Hin).
    simpl in Hin'. intuition discriminate.
  - intros sessionId region summary docType Hcomplete Hclock Htype.
    destruct (apiGenerate_complete_inv _ _ _ _ _ _ Hcomplete)
      as [cvDoc [letterDoc [log [Hproduce [-> [-> Hdocs]]]]]].
    destruct (produce_ok_inv _ _ _ _ _ _ Hproduce) as [r [log1 [_ [_ [_ [_ [Hnone _]]]]]]].
    rewrite (Hnone Hwants) in Hdocs.
    rewrite Hdocs. unfold Server.download, Endpoints.preview.
    rewrite (stored_session_kept w generatedDocs _ _ Hclock). simpl.
    apply String.eqb_neq in Htype. rewrite Htype. auto.
Qed.

(** X21: the sweep at the end of a request that completes leaves no
    session in the store that was created more than an hour before it ran,
    and removes no other: a session stored by an earlier request is still
    there exactly when it is not that old. *)
Theorem store_after_generate :
  forall (w : Server.World) (req : Server.Request)
         (generatedDocs : gmap string Server.Session)
         (sessionId : string) (region : Region.Region) (summary : AnalysisSummary),
    Server.event (Server.apiGenerate w req generatedDocs)
    = Server.Complete sessionId region summary ->
    (forall id s,
        Server.docs (Server.apiGenerate w req generatedDocs) !! id = Some s ->
        Server.nowAtCleanup w - 3600000 <= Server.createdAt s)
    /\ (forall id s,
          id <> sessionId ->
          generatedDocs !! id = Some s ->
          Server.docs (Server.apiGenerate w req generatedDocs) !! id
          = if Server.createdAt s <? Server.nowAtCleanup w - 3600000 then None else Some s).
Proof.
  intros w req generatedDocs sessionId region summary Hcomplete.
  destruct (apiGenerate_complete_inv _ _ _ _ _ _ Hcomplete)
    as [cvDoc [letterDoc [log [_ [-> [_ Hdocs]]]]]].
  rewrite Hdocs. split.
  - intros id s. rewrite cleanup_lookup.
    destruct (_ !! id) as [d|]; [| discriminate].
    destruct (Server.createdAt d <? Server.nowAtCleanup w - 3600000) eqn:E; [discriminate |].
    intros H. injection H as <-. apply Z.ltb_ge in E. exact E.
  - intros id s Hne Hs. rewrite cleanup_lookup, lookup_insert_ne by congruence.
    rewrite Hs. reflexivity.
Qed.


(** ** The endpoint without progress events *)

Lemma produceSimple_unfold (w : Server.World) (req : Server.Request) (log : list Stage) :
  Endpoints.produceSimple w req log =
    match generateCVWithClaude (Server.provider w) (Server.profile req) (Server.cvTexts req)
            (Server.jobData req) (Region.detectRegion (Server.jobData req)) log with
    | (Throw e, log1) => (Throw e, log1)
    | (Ok r, log1) =>
        if Server.wantsCoverLetter req then (Throw TypeError, log1)
        else
          match Server.rendered
                  (Server.renderCV w (cvContent r) (Region.detectRegion (Server.jobData req)))
                  (cvContent r) with
          | Throw e => (Throw e, log1)
          | Ok d => (Ok (d, None, analysisSummary r), log1)
          end
    end.
Proof.
  unfold Endpoints.produceSimple, Endpoints.generateCoverLetterWithProgress, seq, lift, ret.
  destruct (generateCVWithClaude _ _ _ _ _ log) as [[r|e] log1]; [| reflexivity].
  destruct (Server.wantsCoverLetter req); [reflexivity |].
  destruct (Server.rendered (Server.renderCV w _ _) _); reflexivity.
Qed.

Lemma wantsCoverLetter_true (req : Server.Request) :
  Server.generateCoverLetter req <> Some false -> Server.wantsCoverLetter req = true.
Proof.
  unfold Server.wantsCoverLetter.
  destruct (Server.generateCoverLetter req) as [[]|]; congruence.
Qed.

(** X22: [POST /api/generate-simple] cannot make a cover letter: unless the
    request declines the letter with [generateCoverLetter: false], it is
    answered with status 500 and nothing is stored, and no cover letter
    call reaches the inference provider; when the CV pipeline itself
    succeeded, the error is the type error of calling the region as the
    progress callback. *)
Theorem simple_cover_letter_fails :
  forall (w : Server.World) (req : Server.Request)
         (generatedDocs : gmap string Server.Session),
    Server.generateCoverLetter req <> Some false ->
    (exists e, Endpoints.response (Endpoints.apiGenerateSimple w req generatedDocs)
               = Endpoints.SimpleStatus500 (message e))
    /\ Endpoints.store (Endpoints.apiGenerateSimple w req generatedDocs) = generatedDocs
    /\ ~ In CoverLetter (Endpoints.inferenceCalls (Endpoints.apiGenerateSimple w req generatedDocs))
    /\ forall (r : Generated) (log : list Stage),
         generateCVWithClaude (Server.provider w) (Server.profile req) (Server.cvTexts req)
           (Server.jobData req) (Region.detectRegion (Server.jobData req)) [] = (Ok r, log) ->
         Endpoints.response (Endpoints.apiGenerateSimple w req generatedDocs)
         = Endpoints.SimpleStatus500 (message TypeError).
Proof.
  intros w req generatedDocs Hwants. apply wantsCoverLetter_true in Hwants.
  unfold Endpoints.apiGenerateSimple. rewrite produceSimple_unfold, Hwants.
  pose proof (generateCV_orderly (Server.provider w) (Server.profile req)
                (Server.cvTexts req) (Server.jobData req)
                (Region.detectRegion (Server.jobData req))) as [_ [[rest Hpre] _]].
  destruct (generateCVWithClaude _ _ _ _ _ []) as [[r|e] log1]; simpl in *.
  - split; [exists TypeError; reflexivity |]. split; [reflexivity |]. split.
    + intros Hin.
      assert (Hin' : In CoverLetter [Extraction; JobAnalysis; Tailoring])
        by (rewrite <- Hpre; apply in_or_app; left; exact Hin).
      simpl in Hin'. intuition discriminate.
    + reflexivity.
  - split; [exists e; reflexivity |]. split; [reflexivity |]. split.
    + intros Hin.
      assert (Hin' : In CoverLetter [Extraction; JobAnalysis; Tailoring])
        by (rewrite <- Hpre; apply in_or_app; left; exact Hin).
      simpl in Hin'. intuition discriminate.
    + intros r log H. discriminate.
Qed.

(** X23: [POST /api/generate-simple] never sweeps the store: every session
    stored under another id is left as it was, however old it is; and a
    request answered with success had declined the cover letter, and its CV
    can be downloaded under the session id of the answer. *)
Theorem simple_keeps_sessions :
  forall (w : Server.World) (req : Server.Request)
         (generatedDocs : gmap string Server.Session),
    (forall id, id <> Server.uuid w ->
       Endpoints.store (Endpoints.apiGenerateSimple w req generatedDocs) !! id
       = generatedDocs !! id)
    /\ forall (sessionId : string) (summary : AnalysisSummary),
         Endpoints.response (Endpoints.apiGenerateSimple w req generatedDocs)
         = Endpoints.SimpleSuccess sessionId summary ->
         Server.generateCoverLetter req = Some false
         /\ exists (r : Generated) (log : list Stage) (bytes name : string),
              generateCVWithClaude (Server.provider w) (Server.profile req)
                (Server.cvTexts req) (Server.jobData req)
                (Region.detectRegion (Server.jobData req)) [] = (Ok r, log)
              /\ Server.renderCV w (cvContent r) (Region.detectRegion (Server.jobData req))
                 = Some (bytes, name)
              /\ Server.download (Endpoints.store (Endpoints.apiGenerateSimple w req generatedDocs))
                   sessionId "cv"
                 = Server.Download name bytes.
Proof.
  intros w req generatedDocs.
  unfold Endpoints.apiGenerateSimple. rewrite produceSimple_unfold.
  destruct (generateCVWithClaude _ _ _ _ _ []) as [[r|e] log1] eqn:Erun; simpl.
  - destruct (Server.wantsCoverLetter req) eqn:Ew; simpl;
      [split; [reflexivity | discriminate] |].
    destruct (Server.rendered (Server.renderCV w _ _) _) as [d|] eqn:Ed; simpl;
      [| split; [reflexivity | discriminate]].
    split; [intros id Hne; apply lookup_insert_ne; congruence |].
    intros sessionId summary H. injection H as <- _.
    split.
    + unfold Server.wantsCoverLetter in Ew.
      destruct (Server.generateCoverLetter req) as [[]|]; congruence.
    + destruct (rendered_ok _ _ _ Ed) as [Hr _].
      exists r, log1, (Server.buffer d), (Server.docFilename d).
      split; [reflexivity |]. split; [exact Hr |].
      unfold Server.download. rewrite lookup_insert_eq. reflexivity.
  - split; [reflexivity | discriminate].
Qed.


(** ** What the pipeline hands on unchanged *)

Lemma finalValidation_other (extracted cv0 cv : JValue) (k : string) :
  isRecord cv0 = true ->
  finalValidation extracted cv0 = Ok cv ->
  k <> "name" -> k <> "contact" -> k <> "education" -> k <> "languages" ->
  prop cv k = prop cv0 k.
Proof.
  intros Hrec Hfinal Hn Hc He Hl. revert Hfinal. unfold finalValidation.
  set (cv1 := setOwn cv0 "name" (prop extracted "name")).
  assert (H1 : isRecord cv1 = true) by (unfold cv1; rewrite isRecord_setOwn; exact Hrec).
  destruct (overwriteContact extracted "email" cv1) as [cv2|] eqn:E2; [| discriminate].
  destruct (overwriteContact_spec _ _ _ _ H1 E2) as [H2 [K2 _]].
  simpl. destruct (overwriteContact extracted "phone" cv2) as [cv3|] eqn:E3; [| discriminate].
  destruct (overwriteContact_spec _ _ _ _ H2 E3) as [H3 [K3 _]].
  simpl. destruct (overwriteContact extracted "linkedin" cv3) as [cv4|] eqn:E4; [| discriminate].
  destruct (overwriteContact_spec _ _ _ _ H3 E4) as [H4 [K4 _]].
  simpl. intros H. injection H as <-.
  rewrite !prop_setOwn_ne by congruence.
  rewrite K4, K3, K2 by exact Hc.
  unfold cv1. apply prop_setOwn_ne. congruence.
Qed.

(** X24: the extracted facts are the extraction response: in a successful
    run the inference provider answered the extraction call with an
    object, and every field of that object other than the education is in
    the extracted data as it was answered. *)
Theorem extraction_fields_unchanged :
  forall (provider : Provider) (profile : option Profile) (cvTexts : list CvText)
         (jobData : option Region.JobData) (region : Region.Region)
         (r : Generated) (log : list Stage),
    generateCVWithClaude provider profile cvTexts jobData region [] = (Ok r, log) ->
    exists props,
      provider Extraction = Parsed props
      /\ forall k, k <> "education" -> prop (extractedData r) k = lookup k props.
Proof.
  intros provider profile cvTexts jobData region r log Hrun.
  destruct (generateCV_ok_inv _ _ _ _ _ _ _ Hrun) as [Hex _].
  destruct (extractFacts_ok_inv _ _ _ _ _ _ Hex) as [props [Hp [Hpost _]]].
  exists props. split; [exact Hp |].
  intros k Hk. rewrite (postProcessEducation_prop _ _ k Hpost Hk). reflexivity.
Qed.

(** X25: the final validation checks the name, the contact, the education
    and the languages and nothing else: in a successful run every other
    field of the tailoring response, the headline, the summary, the
    experience and the certifications among them, is in the CV as the
    inference provider answered it. *)
Theorem tailored_fields_unchecked :
  forall (provider : Provider) (profile : option Profile) (cvTexts : list CvText)
         (jobData : option Region.JobData) (region : Region.Region)
         (r : Generated) (log : list Stage) (tprops : list (string * JValue)),
    generateCVWithClaude provider profile cvTexts jobData region [] = (Ok r, log) ->
    provider Tailoring = Parsed tprops ->
    forall k, k <> "name" -> k <> "contact" -> k <> "education" -> k <> "languages" ->
              prop (cvContent r) k = lookup k tprops.
Proof.
  intros provider profile cvTexts jobData region r log tprops Hrun Ht k Hn Hc He Hl.
  destruct (generateCV_ok_inv _ _ _ _ _ _ _ Hrun) as [_ [_ [_ [_ [Hfinal _]]]]].
  rewrite Ht in Hfinal. simpl in Hfinal.
  rewrite (finalValidation_other _ (JObj tprops) _ k eq_refl Hfinal Hn Hc He Hl).
  reflexivity.
Qed.

Lemma tailored_fields_unchecked_witness :
  lookup "headline" forgedCv = JStr "Visionary Leader"
  /\ prop (cvContent (resultOf faithful)) "headline" = lookup "headline" forgedCv.
Proof.
  split; [reflexivity |].
  apply (tailored_fields_unchecked faithful None janeCv seniorPm
           (Region.detectRegion seniorPm) (resultOf faithful)
           [Extraction; JobAnalysis; Tailoring] forgedCv);
    first [discriminate | vm_compute; reflexivity].
Defined.

Lemma extraction_fields_unchanged_witness :
  exists props,
    faithful Extraction = Parsed props
    /\ forall k, k <> "education" -> prop (extractedData (resultOf faithful)) k = lookup k props.
Proof.
  apply (extraction_fields_unchanged faithful None janeCv seniorPm
           (Region.detectRegion seniorPm) (resultOf faithful)
           [Extraction; JobAnalysis; Tailoring]).
  vm_compute. reflexivity.
Defined.

(** ** More skills, more text *)

(** X26: adding skills to the profile loses no match: a required or
    preferred skill matched by the skills of a profile is matched by any
    longer list of skills, and the skills missing for the longer list were
    missing before. *)
Theorem more_skills_keep_matches :
  forall (skills more required preferred : list string) (skill : string),
    (In skill (Gap.matchedRequired (Gap.compare skills required preferred)) ->
     In skill (Gap.matchedRequired (Gap.compare (skills ++ more) required preferred)))
    /\ (In skill (Gap.matchedPreferred (Gap.compare skills required preferred)) ->
        In skill (Gap.matchedPreferred (Gap.compare (skills ++ more) required preferred)))
    /\ (In skill (Gap.missingRequired (Gap.compare (skills ++ more) required preferred)) ->
        In skill (Gap.missingRequired (Gap.compare skills required preferred))).
Proof.
  intros skills more required preferred skill.
  assert (Hmono : Gap.skillMatches (Gap.candidateSkills skills) skill = true ->
                  Gap.skillMatches (Gap.candidateSkills (skills ++ more)) skill = true).
  { rewrite !matches_candidateSkills. intros [cs [Hin H]].
    exists cs. split; [apply in_or_app; left; exact Hin | exact H]. }
  rewrite !missingRequired_filter.
  change (Gap.matchedRequired (Gap.compare skills required preferred))
    with (List.filter (Gap.skillMatches (Gap.candidateSkills skills)) required).
  change (Gap.matchedRequired (Gap.compare (skills ++ more) required preferred))
    with (List.filter (Gap.skillMatches (Gap.candidateSkills (skills ++ more))) required).
  change (Gap.matchedPreferred (Gap.compare skills required preferred))
    with (List.filter (Gap.skillMatches (Gap.candidateSkills skills)) preferred).
  change (Gap.matchedPreferred (Gap.compare (skills ++ more) required preferred))
    with (List.filter (Gap.skillMatches (Gap.candidateSkills (skills ++ more))) preferred).
  rewrite !filter_In.
  split; [| split]; intros [Hin H]; (split; [exact Hin |]).
  - apply Hmono, H.
  - apply Hmono, H.
  - destruct (Gap.skillMatches (Gap.candidateSkills skills) skill) eqn:E; [| reflexivity].
    rewrite (Hmono eq_refl) in H. discriminate.
Qed.


Lemma includes_trans (s t u : string) :
  JSString.includes s t = true -> JSString.includes t u = true ->
  JSString.includes s u = true.
Proof.
  rewrite !includes_spec. intros [pre [post ->]] [pre' [post' ->]].
  exists (pre +:+ pre'), (post' +:+ post).
  rewrite !append_assoc. reflexivity.
Qed.

Lemma someIncluded_mono (terms : list string) (s t : string) :
  JSString.includes t s = true ->
  Region.someIncluded terms s = true -> Region.someIncluded terms t = true.
Proof.
  intros Hinc. unfold Region.someIncluded. rewrite !existsb_exists.
  intros [term [Hin H]]. exists term. split; [exact Hin |].
  eapply includes_trans; eassumption.
Qed.

Lemma classify_mono (s t : string) :
  JSString.includes t s = true ->
  (Shapes.priority (Region.classify s) <= Shapes.priority (Region.classify t))%nat.
Proof.
  intros Hinc. rewrite !classify_priority.
  pose proof (someIncluded_mono Region.euCountries s t Hinc) as Heu.
  pose proof (someIncluded_mono Region.ukTerms s t Hinc) as Huk.
  pose proof (someIncluded_mono Region.usTerms s t Hinc) as Hus.
  destruct (Region.someIncluded Region.euCountries s),
    (Region.someIncluded Region.euCountries t),
    (Region.someIncluded Region.ukTerms s),
    (Region.someIncluded Region.ukTerms t),
    (Region.someIncluded Region.usTerms s),
    (Region.someIncluded Region.usTerms t); simpl;
    try lia;
    first [specialize (Heu eq_refl) | specialize (Huk eq_refl) | specialize (Hus eq_refl)];
    discriminate.
Qed.

(** X27: more text never lowers the region in the order EU, UK, US,
    GLOBAL: when the text of a job is contained in the text of another, the
    region of the second is the region of the first or one the classifier
    prefers to it; in particular text added to a job the classifier places
    in the EU leaves it there. *)
Theorem region_monotone :
  forall (a b : ascii) (raw raw' : string) (t t' c c' loc loc' : option string),
    JSString.includes (String b raw') (String a raw) = true ->
    (Shapes.priority
       (Region.detectRegion
          (Some {| Region.rawText := Some (String a raw); Region.title := t;
                   Region.company := c; Region.location := loc |}))
     <= Shapes.priority
          (Region.detectRegion
             (Some {| Region.rawText := Some (String b raw'); Region.title := t';
                      Region.company := c'; Region.location := loc' |})))%nat.
Proof.
  intros a b raw raw' t t' c c' loc loc' Hinc.
  unfold Region.detectRegion, Region.regionText.
  cbn [Region.field Region.rawText Region.location Region.orElse JSString.nonEmpty].
  apply classify_mono, includes_toLowerCase, Hinc.
Qed.

Lemma region_monotone_witness :
  Region.detectRegion (Examples.job (Some "Office in Berlin") None) = Region.EU
  /\ (Shapes.priority (Region.detectRegion (Examples.job (Some "Office in Berlin") None))
      <= Shapes.priority
           (Region.detectRegion
              (Examples.job (Some "Office in Berlin, reporting to London") None)))%nat.
Proof.
  split; [vm_compute; reflexivity |].
  apply (region_monotone "O" "O" "ffice in Berlin" "ffice in Berlin, reporting to London"
           None None None None None None).
  vm_compute. reflexivity.
Defined.

(** ** Instances of the statements above *)

Lemma contact_line_fields_witness :
  DocumentGenerator.contactLine MoreExamples.contactCv Region.US
  = Ok [{| DocumentGenerator.contactText := DocumentGenerator.Value (JStr "jane@x.com");
           DocumentGenerator.underline := true |};
        {| DocumentGenerator.contactText := DocumentGenerator.Bullet;
           DocumentGenerator.underline := false |};
        {| DocumentGenerator.contactText := DocumentGenerator.Value (JStr "555-0100");
           DocumentGenerator.underline := false |};
        {| DocumentGenerator.contactText := DocumentGenerator.Bullet;
           DocumentGenerator.underline := false |};
        {| DocumentGenerator.contactText := DocumentGenerator.VisaStatus (JStr "EU Blue Card");
           DocumentGenerator.underline := false |}].
Proof.
  rewrite (contact_line_fields MoreExamples.contactCv Region.US _ eq_refl) at 1.
  reflexivity.
Defined.

Lemma parsed_eu_location_is_eu_witness :
  Job.location (Job.parseJobDescription MoreExamples.berlinJob) = "Berlin"
  /\ Job.keywords (Job.parseJobDescription MoreExamples.berlinJob) = ["sql"; "agile"]
  /\ Region.detectRegion (Job.toJobData (Job.parseJobDescription MoreExamples.berlinJob))
     = Region.EU.
Proof.
  split; [vm_compute; reflexivity |]. split; [vm_compute; reflexivity |].
  apply (parsed_eu_location_is_eu MoreExamples.berlinJob).
  vm_compute. left. reflexivity.
Defined.

Lemma rejected_call_fails_request_witness :
  Server.calls (Server.apiGenerate (world MoreExamples.jobRejected) request ∅)
  = [Extraction; JobAnalysis]
  /\ Server.event (Server.apiGenerate (world MoreExamples.jobRejected) request ∅)
     = Server.Failed (message InferenceError).
Proof.
  split; [vm_compute; reflexivity |].
  apply (rejected_call_fails_request (world MoreExamples.jobRejected) request ∅ JobAnalysis).
  - vm_compute. right. left. reflexivity.
  - reflexivity.
Defined.


Lemma generated_cv_retrievable_witness :
  Server.download (Server.docs (Server.apiGenerate (world faithful) request ∅))
    "session-1" "cv"
  = Server.Download "CV_Jane_Doe_Senior_PM.docx" "cv-bytes"
  /\ Endpoints.preview (Server.docs (Server.apiGenerate (world faithful) request ∅))
       "session-1" "cv"
     = Endpoints.PreviewJson (cvContent (resultOf faithful)) "cv" "CV_Jane_Doe_Senior_PM.docx".
Proof.
  destruct (generated_cv_retrievable (world faithful) request ∅ "session-1"
              (Region.detectRegion seniorPm)
              (analysisSummary (resultOf faithful)))
    as [r [log [bytes [name [Hrun [Hrender [Hdownload Hpreview]]]]]]].
  - vm_compute. reflexivity.
  - vm_compute. discriminate.
  - assert (Hr : r = resultOf faithful).
    { assert (H : (Ok r, log) = run faithful) by (rewrite <- Hrun; reflexivity).
      vm_compute in H. injection H as -> _. vm_compute. reflexivity. }
    subst r. simpl in Hrender. injection Hrender as <- <-.
    split; [exact Hdownload | exact Hpreview].
Defined.

Lemma declined_cover_letter_witness :
  Server.event (Server.apiGenerate (world faithful) MoreExamples.requestWithoutLetter ∅)
  = Server.Complete "session-1" (Region.detectRegion seniorPm)
      (analysisSummary (resultOf faithful))
  /\ Server.calls (Server.apiGenerate (world faithful) MoreExamples.requestWithoutLetter ∅)
     = [Extraction; JobAnalysis; Tailoring]
  /\ Server.download
       (Server.docs (Server.apiGenerate (world faithful) MoreExamples.requestWithoutLetter ∅))
       "session-1" "coverLetter"
     = Server.Status404 "Document not found".
Proof.
  assert (Hevent : Server.event
                     (Server.apiGenerate (world faithful) MoreExamples.requestWithoutLetter ∅)
                   = Server.Complete "session-1" (Region.detectRegion seniorPm)
                       (analysisSummary (resultOf faithful)))
    by (vm_compute; reflexivity).
  split; [exact Hevent |]. split; [vm_compute; reflexivity |].
  destruct (declined_cover_letter (world faithful) MoreExamples.requestWithoutLetter ∅ eq_refl)
    as [_ H].
  apply (H "session-1" (Region.detectRegion seniorPm) (analysisSummary (resultOf faithful))
           "coverLetter" Hevent); [vm_compute; discriminate | discriminate].
Defined.

Lemma store_after_generate_witness :
  Server.docs (Server.apiGenerate (world faithful) request MoreExamples.oldStore)
    !! "session-0" = None.
Proof.
  destruct (store_after_generate (world faithful) request MoreExamples.oldStore "session-1"
              (Region.detectRegion seniorPm) (analysisSummary (resultOf faithful)))
    as [_ H]; [vm_compute; reflexivity |].
  rewrite (H "session-0" (storedAt (1000 - 7200000))); [reflexivity | discriminate |].
  unfold MoreExamples.oldStore. apply lookup_insert_eq.
Defined.

Lemma simple_cover_letter_fails_witness :
  Endpoints.response (Endpoints.apiGenerateSimple (world faithful) request ∅)
  = Endpoints.SimpleStatus500 (message TypeError)
  /\ Endpoints.response
       (Endpoints.apiGenerateSimple (world faithful) MoreExamples.requestWithoutLetter ∅)
     = Endpoints.SimpleSuccess "session-1" (analysisSummary (resultOf faithful)).
Proof.
  split; [| vm_compute; reflexivity].
  destruct (simple_cover_letter_fails (world faithful) request ∅) as [_ [_ [_ H]]];
    [discriminate |].
  apply (H (resultOf faithful) [Extraction; JobAnalysis; Tailoring]).
  vm_compute. reflexivity.
Defined.

(** A LinkedIn export with one complete experience; the line "London" has
    no year and is passed over, and the entry begun before the education
    section is dropped. *)
Example linkedin_export :
  LinkedIn.experiences
    (LinkedIn.parseLinkedInPdfText
       ("Jane Doe" +:+ nl +:+ "Product Manager" +:+ nl +:+ "   " +:+ nl
        +:+ "Experience" +:+ nl +:+ "PM" +:+ nl +:+ "Acme" +:+ nl +:+ "London" +:+ nl
        +:+ "Jan 2019 - Present" +:+ nl +:+ "Engineer" +:+ nl
        +:+ "Education" +:+ nl +:+ "BSc 2015"))
  = [{| LinkedIn.title := "PM"; LinkedIn.company := "Acme";
        LinkedIn.duration := "Jan 2019 - Present" |}].
Proof. vm_compute. reflexivity. Qed.

(** The runs of an achievement: the plus sign and the decimal point are
    not bold. *)
Example achievement_runs :
  DocumentGenerator.formatAchievement "Grew revenue 25% in 2019, 10+ teams, 3.5x"
  = [DocumentGenerator.plainRun "Grew revenue "; DocumentGenerator.boldRun "25%";
     DocumentGenerator.plainRun " in "; DocumentGenerator.boldRun "2019";
     DocumentGenerator.plainRun ", "; DocumentGenerator.boldRun "10";
     DocumentGenerator.plainRun "+ teams, "; DocumentGenerator.boldRun "3";
     DocumentGenerator.plainRun "."; DocumentGenerator.boldRun "5";
     DocumentGenerator.plainRun "x"].
Proof. vm_compute. reflexivity. Qed.


(** ** The length of the input *)

Lemma join_length (sep : string) (l : list string) :
  l <> [] ->
  (String.length (JSString.join sep l) + String.length sep
   = list_sum (map String.length l) + String.length sep * length l)%nat.
Proof.
  induction l as [|x l IH]; [contradiction |]. intros _.
  destruct l as [|y l].
  - simpl. lia.
  - change (JSString.join sep (x :: y :: l)) with (x +:+ sep +:+ JSString.join sep (y :: l)).
    rewrite !append_length.
    specialize (IH ltac:(discriminate)).
    change (list_sum (map String.length (x :: y :: l)))
      with (String.length x + list_sum (map String.length (y :: l)))%nat.
    change (length (x :: y :: l)) with (S (length (y :: l))).
    lia.
Qed.

(** X28: the separators count as input: the text whose length is held
    against the 100 characters is the LinkedIn text, two line feeds, and
    the CV texts with seven characters between every two of them; so its
    length is that of the texts plus 2, plus 7 for every CV after the
    first. *)
Theorem input_length_counts_separators :
  forall (profile : option Profile) (cvTexts : list CvText),
    (String.length (userProvidedData profile cvTexts)
     = String.length (linkedinContent profile) + 2
       + list_sum (map (fun cv => String.length (text cv)) cvTexts)
       + 7 * (length cvTexts - 1))%nat.
Proof.
  intros profile cvTexts. unfold userProvidedData, allCvContent.
  rewrite !append_length. change (String.length nl) with 1%nat.
  destruct cvTexts as [|cv rest]; [simpl; lia |].
  pose proof (join_length (nl +:+ nl +:+ "---" +:+ nl +:+ nl) (map text (cv :: rest))
                ltac:(discriminate)) as H.
  change (String.length (nl +:+ nl +:+ "---" +:+ nl +:+ nl)) with 7%nat in H.
  rewrite map_map, length_map in H.
  simpl length in *. lia.
Qed.

(** Fifteen CVs of one character each pass the check on the length of the
    input: the separators between them bring it to 115 characters. *)
Example tiny_cvs_pass :
  String.length (userProvidedData None (repeat {| filename := "cv.docx"; text := "x" |} 15))
  = 115%nat
  /\ insufficient (userProvidedData None (repeat {| filename := "cv.docx"; text := "x" |} 15))
     = false.
Proof. split; vm_compute; reflexivity. Qed.

(** ** Sweeping twice *)

(** X29: two sweeps are one: sweeping at one time and then at another
    leaves the store that one sweep at the later of the two times leaves;
    in particular a second sweep at the same time changes nothing. *)
Theorem sweep_twice :
  forall (docs : gmap string Server.Session) (t1 t2 : Z),
    Server.cleanupOldDocuments t2 (Server.cleanupOldDocuments t1 docs)
    = Server.cleanupOldDocuments (Z.max t1 t2) docs.
Proof.
  intros docs t1 t2. apply map_eq. intros id.
  rewrite !cleanup_lookup.
  destruct (docs !! id) as [d|]; [| reflexivity].
  destruct (Server.createdAt d <? t1 - 3600000) eqn:E1;
  destruct (Server.createdAt d <? t2 - 3600000) eqn:E2;
  destruct (Server.createdAt d <? Z.max t1 t2 - 3600000) eqn:E3;
  try rewrite E2; try reflexivity;
  rewrite ?Z.ltb_lt, ?Z.ltb_ge in *; lia.
Qed.
